(** * Governance layer of the AI services: shallow embedding and properties

    The definitions below transcribe [src/functions/ai/middleware.py],
    [src/functions/ai/config.py] and
    [src/functions/ai/results_processor.py].

    Conventions of the embedding:
    - Python [int] is [Z]; Python [float] is Rocq's primitive binary64
      [float], so [+], [-], [<] and [<=] on costs and clock readings are the
      very operations the interpreter performs.
    - Python [str] is [string]; a character stands for a code point below
      256.
    - [time.time()], [time.strftime(...)] are inputs of the functions that
      read them.
    - A [TTLCache] is used through [get] and item assignment only.  These
      two operations form the interface [TTLCacheOps].  [TTLCache] below
      is the cache of the source, with its capacity, its time-to-live and
      its timer; the instance on [gmap] is a store that never loses an
      entry, which a [TTLCache] is only as long as nothing expires and its
      capacity is not reached; other instances describe a store whose
      operations raise.  Statements that are to hold of the source are made
      for every store, or on [TTLCache].
    - A [try]/[except] is a [match] on a [result]; module-level mutable
      state is threaded explicitly through [World]. *)

From Stdlib Require Import ZArith QArith Lia List Ascii String.
From Stdlib Require Import Floats.PrimFloat Floats.FloatOps Floats.SpecFloat.
From stdpp Require Import base option list gmap strings pretty.

Local Open Scope string_scope.
Local Open Scope Z_scope.

(** ** Python runtime notions *)

Module Py.

(** Exception classes that the except clauses of the source tell apart.
    [ExpiredSignatureError], [InvalidSignatureError] and [DecodeError]
    are subclasses of [jwt.InvalidTokenError]. *)
Inductive exn_class :=
| KeyError | ValueError | TypeError | AttributeError
| ExpiredSignatureError | InvalidSignatureError | DecodeError
| InvalidTokenError
| OtherError.

Record exn := mk_exn { exn_cls : exn_class; exn_msg : string }.

Inductive result (A : Type) :=
| Ok (a : A)
| Raise (e : exn).
Arguments Ok {A} a.
Arguments Raise {A} e.

(** [isinstance(e, KeyError)] *)
Definition is_KeyError (e : exn) : bool :=
  match exn_cls e with KeyError => true | _ => false end.

(** [isinstance(e, jwt.ExpiredSignatureError)] *)
Definition is_ExpiredSignatureError (e : exn) : bool :=
  match exn_cls e with ExpiredSignatureError => true | _ => false end.

(** [isinstance(e, jwt.InvalidTokenError)] *)
Definition is_InvalidTokenError (e : exn) : bool :=
  match exn_cls e with
  | ExpiredSignatureError | InvalidSignatureError | DecodeError
  | InvalidTokenError => true
  | _ => false
  end.

(** JSON values as Python sees them after [request.get_json()]. *)
#[warnings="-register-all"]
Inductive json :=
| JNull
| JBool (b : bool)
| JInt (z : Z)
| JFloat (f : float)
| JStr (s : string)
| JList (l : list json)
| JDict (d : list (string * json)).

(** [d.get(k)] / [k in d] on a dict given as its item list. *)
Fixpoint dict_get (d : list (string * json)) (k : string) : option json :=
  match d with
  | [] => None
  | (k', v) :: d' => if String.eqb k' k then Some v else dict_get d' k
  end.

(** [int(x)] for a float [x]: truncation towards zero.  [time.time()]
    is always finite; on a non-finite float, where Python raises, the
    value here is 0. *)
Definition int (x : float) : Z :=
  match Prim2SF x with
  | S754_finite s m e =>
      let mag := if 0 <=? e then Z.pos m * 2 ^ e else Z.pos m `quot` 2 ^ (- e) in
      if s then - mag else mag
  | _ => 0
  end.

(** [s.split(' ')] *)
Fixpoint split_space (s : string) : list string :=
  match s with
  | EmptyString => [EmptyString]
  | String c s' =>
      let r := split_space s' in
      if Ascii.eqb c " "%char then EmptyString :: r
      else match r with
           | h :: tl => String c h :: tl
           | [] => [String c EmptyString]
           end
  end.

(** [a.startswith(p)] *)
Definition startswith (a p : string) : bool := String.prefix p a.

(** [f"{x}"] for an optional string ([None] prints as [None]). *)
Definition fmt_opt (x : option string) : string :=
  match x with Some s => s | None => "None" end.

(** Truthiness of an optional string: [None] and [''] are falsy. *)
Definition truthy (x : option string) : bool :=
  match x with Some s => negb (String.eqb s "") | None => false end.

End Py.
Import Py.

(** ** config.py *)

Record ServiceLimits := {
  REQUESTS_PER_MINUTE : Z;
  REQUESTS_PER_HOUR : Z;
  COST_LIMIT_PER_DAY : float
}.

(** [AI_CONFIG['RATE_LIMITS'][service]]; [None] is the [KeyError]. *)
Definition RATE_LIMITS (service : string) : option ServiceLimits :=
  if String.eqb service "GEMINI" then
    Some {| REQUESTS_PER_MINUTE := 60; REQUESTS_PER_HOUR := 1000;
            COST_LIMIT_PER_DAY := 100%float |}
  else if String.eqb service "TRANSLATE" then
    Some {| REQUESTS_PER_MINUTE := 100; REQUESTS_PER_HOUR := 2000;
            COST_LIMIT_PER_DAY := 50%float |}
  else if String.eqb service "SPEECH" then
    Some {| REQUESTS_PER_MINUTE := 30; REQUESTS_PER_HOUR := 500;
            COST_LIMIT_PER_DAY := 75%float |}
  else None.

(** ** middleware.py: data *)

Record RateLimitInfo := {
  rl_user_id : string;
  rl_endpoint : string;
  request_count : Z;
  window_start : Z;
  limit : Z
}.

Record CostMonitoring := {
  cm_user_id : string;
  cm_service : string;
  cost : float;
  cm_request_count : Z;
  cm_timestamp : Z
}.

Record AuditLog := {
  al_user_id : option string;
  action : string;
  al_endpoint : string;
  al_timestamp : string;
  request_id : string;
  success : bool;
  error : option string;
  metadata : list (string * json)
}.

(** Lines handed to [logger]. *)
Inductive LogRecord :=
| log_audit_event_line (e : AuditLog)   (* logger.info(f"Audit Event: ...") *)
| log_info (m : string)
| log_warning (m : string)
| log_error (m : string).

(** The two operations the source performs on a [TTLCache]. *)
Class TTLCacheOps (C V : Type) := {
  cache_get : C -> string -> result (option V);
  cache_set : C -> string -> V -> result C
}.

(** A store that keeps every entry written to it: no capacity and no
    expiry.  It stands for the cache of the source only in runs in which
    no entry expires and the capacity is not reached. *)
#[export] Instance gmap_cache (V : Type) : TTLCacheOps (gmap string V) V := {
  cache_get m k := Ok (m !! k);
  cache_set m k v := Ok (<[k := v]> m)
}.

(** ** cachetools.TTLCache

    The four caches of the source are [TTLCache(maxsize, ttl)] objects of
    the cachetools library, which is not part of the repository.  The
    model follows the library's documentation.  A cache holds at most
    [maxsize] entries.  An entry expires [ttl] seconds after it was last
    written, by the cache's own timer ([time.monotonic], which is not the
    clock of [time.time]): from then on no lookup sees it, and the next
    write drops it.  A write of a new key into a full cache first drops the
    expired entries and then the least recently used ones until there is
    room.  The entries are kept least recently used first; a use is a
    write (the library also counts a lookup that finds the entry, which
    [TTLCacheOps], where a lookup leaves the store as it is, does not
    record).  The reading of the timer is part of the state: [timer c] is
    the reading at the operations made on [c], and [at_timer] moves it. *)
Record TTLItem (V : Type) := mk_item {
  item_key : string;
  item_value : V;
  item_expires : float
}.
Arguments mk_item {V}.
Arguments item_key {V}.
Arguments item_value {V}.
Arguments item_expires {V}.

Record TTLCache (V : Type) := mk_cache {
  maxsize : Z;
  ttl : float;
  timer : float;
  entries : list (TTLItem V)
}.
Arguments mk_cache {V}.
Arguments maxsize {V}.
Arguments ttl {V}.
Arguments timer {V}.
Arguments entries {V}.

(** [timer() < link.expires] *)
Definition live {V} (t : float) (it : TTLItem V) : bool :=
  (t <? item_expires it)%float.

Fixpoint find_item {V} (k : string) (l : list (TTLItem V)) : option (TTLItem V) :=
  match l with
  | [] => None
  | it :: l' => if String.eqb (item_key it) k then Some it else find_item k l'
  end.

(** [cache.get(k)]: the value, unless the key is absent or has expired. *)
Definition ttl_get {V} (c : TTLCache V) (k : string) : option V :=
  match find_item k (entries c) with
  | Some it => if live (timer c) it then Some (item_value it) else None
  | None => None
  end.

(** [cache.expire(time)]: the entries are dropped from the oldest on, as
    long as they have expired. *)
Fixpoint expire {V} (t : float) (l : list (TTLItem V)) : list (TTLItem V) :=
  match l with
  | [] => []
  | it :: l' => if live t it then l else expire t l'
  end.

Definition remove_key {V} (k : string) (l : list (TTLItem V)) : list (TTLItem V) :=
  List.filter (fun it => negb (String.eqb (item_key it) k)) l.

(** [cache[k] = v] *)
Definition ttl_set {V} (c : TTLCache V) (k : string) (v : V) : result (TTLCache V) :=
  if maxsize c <? 1 then Raise (mk_exn ValueError "value too large")
  else
    let unexpired := expire (timer c) (entries c) in
    let kept :=
      match find_item k unexpired with
      | Some _ => unexpired
      | None =>
          drop (Z.to_nat (Z.of_nat (length unexpired) + 1 - maxsize c)) unexpired
      end in
    Ok (mk_cache (maxsize c) (ttl c) (timer c)
          (remove_key k kept ++ [mk_item k v (timer c + ttl c)%float])).

#[export] Instance ttl_cache (V : Type) : TTLCacheOps (TTLCache V) V := {
  cache_get c k := Ok (ttl_get c k);
  cache_set := ttl_set
}.

(** The cache when its timer reads [t]. *)
Definition at_timer {V} (t : float) (c : TTLCache V) : TTLCache V :=
  mk_cache (maxsize c) (ttl c) t (entries c).

(** Module-level state of middleware.py, and the log. *)
Record World (RC CC AC : Type) := mk_world {
  rate_limit_cache : RC;
  cost_cache : CC;
  audit_cache : AC;
  logger : list LogRecord
}.
Arguments mk_world {RC CC AC}.
Arguments rate_limit_cache {RC CC AC}.
Arguments cost_cache {RC CC AC}.
Arguments audit_cache {RC CC AC}.
Arguments logger {RC CC AC}.

(** What a view function (or a decorator) hands back to Flask. *)
Record Response := mk_response { body : list (string * json); status : Z }.

(** The part of [flask.request] that the middleware reads and writes. *)
Record Request := {
  authorization : option string;         (* headers.get('Authorization') *)
  x_request_id : option string;          (* headers.get('X-Request-ID') *)
  path : string;
  user_id : option string;               (* set by authenticate_token *)
  user_address : option string
}.

(** Readings of the clock made during one call. *)
Record Clock := {
  time_time : float;          (* time.time() *)
  strftime_date : string;     (* time.strftime('%Y-%m-%d') *)
  get_current_timestamp : string
}.

(** Payload of a decoded token: [decoded.get('userId')],
    [decoded.get('address')]. *)
Record Claims := { userId : option string; address : option string }.

(** ** Computations that read and write program state and may raise *)

Definition M (St A : Type) : Type := St -> result A * St.

Definition ret {St A} (a : A) : M St A := fun w => (Ok a, w).
Definition raise {St A} (e : exn) : M St A := fun w => (Raise e, w).
Definition bind {St A B} (m : M St A) (k : A -> M St B) : M St B :=
  fun w => match m w with
           | (Ok a, w') => k a w'
           | (Raise e, w') => (Raise e, w')
           end.
(** [try: m  except Exception as e: h e] *)
Definition try_except {St A} (m : M St A) (h : exn -> M St A) : M St A :=
  fun w => match m w with
           | (Ok a, w') => (Ok a, w')
           | (Raise e, w') => h e w'
           end.

Notation "'do' x <-- m ;; k" := (bind m (fun x => k))
  (at level 10, x name, m at level 99, k at level 200, only parsing).

(** A computation on a component [S] of a larger state [T]. *)
Definition zoom {St T A} (get : T -> St) (set : St -> T -> T) (m : M St A) : M T A :=
  fun t => let (r, s') := m (get t) in (r, set s' t).

(** A library call whose outcome is given. *)
Definition outcome {St A} (r : result A) : M St A := fun w => (r, w).

(** ** middleware.py: operations *)

Section Middleware.

Context {RC CC AC : Type}.
Context `{!TTLCacheOps RC RateLimitInfo, !TTLCacheOps CC CostMonitoring,
          !TTLCacheOps AC AuditLog}.

(** [jwt.decode(token, key, algorithms=['HS256'])], a library call. *)
Variable jwt_decode : string -> string -> result Claims.

Abbreviation W := (World RC CC AC).

Definition logging (l : LogRecord) : M W unit :=
  fun w => (Ok tt, mk_world (rate_limit_cache w) (cost_cache w)
                            (audit_cache w) (logger w ++ [l])).

Definition rate_limit_cache_get (k : string) : M W (option RateLimitInfo) :=
  fun w => match cache_get (rate_limit_cache w) k with
           | Ok v => (Ok v, w)
           | Raise e => (Raise e, w)
           end.
Definition rate_limit_cache_set (k : string) (v : RateLimitInfo) : M W unit :=
  fun w => match cache_set (rate_limit_cache w) k v with
           | Ok c => (Ok tt, mk_world c (cost_cache w) (audit_cache w) (logger w))
           | Raise e => (Raise e, w)
           end.
Definition cost_cache_get (k : string) : M W (option CostMonitoring) :=
  fun w => match cache_get (cost_cache w) k with
           | Ok v => (Ok v, w)
           | Raise e => (Raise e, w)
           end.
Definition cost_cache_set (k : string) (v : CostMonitoring) : M W unit :=
  fun w => match cache_set (cost_cache w) k v with
           | Ok c => (Ok tt, mk_world (rate_limit_cache w) c (audit_cache w) (logger w))
           | Raise e => (Raise e, w)
           end.
Definition audit_cache_set (k : string) (v : AuditLog) : M W unit :=
  fun w => match cache_set (audit_cache w) k v with
           | Ok c => (Ok tt, mk_world (rate_limit_cache w) (cost_cache w) c (logger w))
           | Raise e => (Raise e, w)
           end.

(** [jsonify({'error': msg}), code] *)
Definition error_response (msg : string) (code : Z) : Response :=
  mk_response [("error", JStr msg)] code.

(** def log_audit_event(event) *)
Definition log_audit_event (event : AuditLog) (clk : Clock) : M W unit :=
  try_except
    (let audit_key :=
       fmt_opt (al_user_id event) +:+ ":" +:+ pretty (Py.int (time_time clk)) in
     do _ <-- audit_cache_set audit_key event ;;
     logging (log_audit_event_line event))
    (fun e => logging (log_error ("Audit logging error: " +:+ exn_msg e))).

(** The record that the three failure branches of [authenticate_token]
    log. *)
Definition auth_failure_event (req : Request) (clk : Clock) (err : string)
  : AuditLog :=
  {| al_user_id := Some "unknown"; action := "authenticate";
     al_endpoint := path req; al_timestamp := get_current_timestamp clk;
     request_id := default "unknown" (x_request_id req);
     success := false; error := Some err; metadata := [] |}.

Definition auth_success_event (req : Request) (clk : Clock) : AuditLog :=
  {| al_user_id := user_id req; action := "authenticate";
     al_endpoint := path req; al_timestamp := get_current_timestamp clk;
     request_id := default "unknown" (x_request_id req);
     success := true; error := None; metadata := [] |}.

(** [auth_header.split(' ')[1] if auth_header and
    auth_header.startswith('Bearer ') else None] *)
Definition bearer_token (auth_header : option string) : option string :=
  if truthy auth_header && startswith (fmt_opt auth_header) "Bearer "
  then split_space (fmt_opt auth_header) !! 1%nat
  else None.

(** The three except clauses of [authenticate_token], tried in order. *)
Definition authenticate_except (req : Request) (clk : Clock) (e : exn)
  : M W Response :=
  if is_ExpiredSignatureError e then
    do _ <-- log_audit_event (auth_failure_event req clk "Token expired") clk ;;
    ret (error_response "Token expired" 403)
  else if is_InvalidTokenError e then
    do _ <-- log_audit_event (auth_failure_event req clk "Invalid token") clk ;;
    ret (error_response "Invalid or expired token" 403)
  else
    do _ <-- logging (log_error ("Authentication error: " +:+ exn_msg e)) ;;
    ret (error_response "Authentication service unavailable" 500).

(** The request after [request.user_id = decoded.get('userId')] and
    [request.user_address = decoded.get('address')]. *)
Definition with_identity (req : Request) (decoded : Claims) : Request :=
  {| authorization := authorization req;
     x_request_id := x_request_id req;
     path := path req;
     user_id := userId decoded;
     user_address := address decoded |}.

(** def authenticate_token(f): the decorated function.
    [get_secure_config] is the outcome of [get_secure_config()]: the
    signing key, or the exception it raises. *)
Definition authenticate_token
    (f : Request -> Clock -> M W Response)
    (get_secure_config : result string)
    (req : Request) (clk : Clock) : M W Response :=
  let auth_header := authorization req in
  let token := bearer_token auth_header in
  if negb (truthy token) then
    do _ <-- log_audit_event (auth_failure_event req clk "Access token required") clk ;;
    ret (error_response "Access token required" 401)
  else
    try_except
      (do jwt_signing_key <-- outcome get_secure_config ;;
       do decoded <-- outcome (jwt_decode (fmt_opt token) jwt_signing_key) ;;
       let req' := with_identity req decoded in
       do _ <-- log_audit_event (auth_success_event req' clk) clk ;;
       f req' clk)
      (authenticate_except req clk).

(** The two except clauses that close the body of [rate_limiter]. *)
Definition rate_limiter_except (service : string) (e : exn) : M W Response :=
  if is_KeyError e then
    do _ <-- logging (log_error
            ("Unknown service for rate limiting: " +:+ service)) ;;
    ret (error_response "Service configuration error" 500)
  else
    do _ <-- logging (log_error ("Rate limiting error: " +:+ exn_msg e)) ;;
    ret (error_response "Rate limiting service unavailable" 500).

(** [jsonify({'error': msg, 'retryAfter': n}), 429] *)
Definition rate_limit_response (msg : string) (n : Z) : Response :=
  mk_response [("error", JStr msg); ("retryAfter", JInt n)] 429.

(** def rate_limiter(service): the decorated function. *)
Definition rate_limiter (service : string)
    (f : Request -> Clock -> M W Response)
    (req : Request) (clk : Clock) : M W Response :=
  if negb (truthy (user_id req)) then
    ret (error_response "Authentication required for rate limiting" 401)
  else
    let uid := fmt_opt (user_id req) in
    let endpoint := path req in
    let now := Py.int (time_time clk) in
    let window_start := now `div` 60 * 60 in
    let hourly_window := now `div` 3600 * 3600 in
    let rate_limit_key := uid +:+ ":" +:+ service +:+ ":" +:+ pretty window_start in
    let hourly_key :=
      uid +:+ ":" +:+ service +:+ ":hourly:" +:+ pretty hourly_window in
    try_except
      (match RATE_LIMITS service with
       | None => raise (mk_exn KeyError service)
       | Some config =>
           do minute_limit <-- rate_limit_cache_get rate_limit_key ;;
           if match minute_limit with
              | Some m => REQUESTS_PER_MINUTE config <=? request_count m
              | None => false
              end
           then
             ret (rate_limit_response "Rate limit exceeded"
                    (60 - (now - window_start)))
           else
             do hourly_limit <-- rate_limit_cache_get hourly_key ;;
             if match hourly_limit with
                | Some h => REQUESTS_PER_HOUR config <=? request_count h
                | None => false
                end
             then
               ret (rate_limit_response "Hourly rate limit exceeded"
                      (3600 - (now - hourly_window)))
             else
               let minute_count :=
                 match minute_limit with
                 | Some m => request_count m + 1
                 | None => 1
                 end in
               let hourly_count :=
                 match hourly_limit with
                 | Some h => request_count h + 1
                 | None => 1
                 end in
               do _ <-- rate_limit_cache_set rate_limit_key
                     {| rl_user_id := uid; rl_endpoint := endpoint;
                        request_count := minute_count;
                        window_start := window_start;
                        limit := REQUESTS_PER_MINUTE config |} ;;
               do _ <-- rate_limit_cache_set hourly_key
                     {| rl_user_id := uid; rl_endpoint := endpoint;
                        request_count := hourly_count;
                        window_start := hourly_window;
                        limit := REQUESTS_PER_HOUR config |} ;;
               f req clk
       end)
      (rate_limiter_except service).

(** def check_cost_limits(user_id, service, estimated_cost) -> bool *)
Definition check_cost_limits (user_id service : string)
    (estimated_cost : float) (clk : Clock) : M W bool :=
  let today := strftime_date clk in
  let cost_key := user_id +:+ ":" +:+ service +:+ ":" +:+ today in
  try_except
    (match RATE_LIMITS service with
     | None => raise (mk_exn KeyError service)
     | Some config =>
         do daily_cost <-- cost_cache_get cost_key ;;
         let current_cost :=
           match daily_cost with Some d => cost d | None => 0%float end in
         if (COST_LIMIT_PER_DAY config <? current_cost + estimated_cost)%float
         then ret false
         else
           let new_cost := (current_cost + estimated_cost)%float in
           let new_count :=
             match daily_cost with
             | Some d => cm_request_count d + 1
             | None => 1
             end in
           do _ <-- cost_cache_set cost_key
                 {| cm_user_id := user_id; cm_service := service;
                    cost := new_cost; cm_request_count := new_count;
                    cm_timestamp := Py.int (time_time clk) |} ;;
           ret true
     end)
    (fun e =>
       do _ <-- logging (log_error ("Cost monitoring error: " +:+ exn_msg e)) ;;
       ret true).

End Middleware.

(** ** results_processor.py *)

(** [self] of [AIResultsProcessor]: the circuit breaker.  The timeout is
    the int 300 of the source, which the comparison with a float difference
    converts to 300.0; [last_failure_time] starts as the int 0. *)
Record AIResultsProcessor := mk_processor {
  circuit_breaker_failures : Z;
  circuit_breaker_threshold : Z;
  circuit_breaker_timeout : float;
  last_failure_time : float
}.

(** def __init__(self) *)
Definition __init__ : AIResultsProcessor :=
  {| circuit_breaker_failures := 0; circuit_breaker_threshold := 5;
     circuit_breaker_timeout := 300%float; last_failure_time := 0%float |}.

(** def _is_circuit_breaker_open(self) -> bool, evaluated when
    [time.time()] is [t]. *)
Definition _is_circuit_breaker_open (t : float) : M AIResultsProcessor bool :=
  fun self =>
    if circuit_breaker_failures self <? circuit_breaker_threshold self then
      (Ok false, self)
    else if (circuit_breaker_timeout self <? t - last_failure_time self)%float then
      (Ok false,
       {| circuit_breaker_failures := 0;
          circuit_breaker_threshold := circuit_breaker_threshold self;
          circuit_breaker_timeout := circuit_breaker_timeout self;
          last_failure_time := last_failure_time self |})
    else (Ok true, self).

(** def _handle_circuit_breaker_failure(self) -> None, with [time.time()]
    being [t].  The value returned is the list of lines it hands to
    [logger]. *)
Definition _handle_circuit_breaker_failure (t : float)
  : M AIResultsProcessor (list LogRecord) :=
  fun self =>
    let failures := circuit_breaker_failures self + 1 in
    (Ok (if circuit_breaker_threshold self <=? failures
         then [log_warning ("Circuit breaker opened after "
                            +:+ pretty failures +:+ " failures")]
         else []),
     {| circuit_breaker_failures := failures;
        circuit_breaker_threshold := circuit_breaker_threshold self;
        circuit_breaker_timeout := circuit_breaker_timeout self;
        last_failure_time := t |}).

(** [self.circuit_breaker_failures = 0] (reset on success, line 114). *)
Definition reset_circuit_breaker : M AIResultsProcessor unit :=
  fun self =>
    (Ok tt,
     {| circuit_breaker_failures := 0;
        circuit_breaker_threshold := circuit_breaker_threshold self;
        circuit_breaker_timeout := circuit_breaker_timeout self;
        last_failure_time := last_failure_time self |}).

(** The dict stored in [results_cache]; a dict with these three keys is
    never empty, hence truthy. *)
Record CachedResult := {
  cr_txHash : string;
  cr_timestamp : string;
  cr_qualityScore : option json
}.

Record AIResultsRequest := {
  submission_id : json;
  verification_results : json;
  user_token : json
}.

(** [AIResultsResponse(...).to_dict()]: the dict with keys submissionId,
    processed, smartContractTxHash, cached, processingTime. *)
Record AIResultsResponse := {
  submissionId : json;
  processed : bool;
  smartContractTxHash : option string;
  cached : bool;
  processingTime : Z
}.

(** [d[k]] on a JSON value. *)
Definition subscript (d : json) (k : string) : result json :=
  match d with
  | JDict items =>
      match dict_get items k with
      | Some v => Ok v
      | None => Raise (mk_exn KeyError k)
      end
  | _ => Raise (mk_exn TypeError "object is not subscriptable")
  end.

(** [d.get(k)] on a JSON value. *)
Definition get_method (d : json) (k : string) : result (option json) :=
  match d with
  | JDict items => Ok (dict_get items k)
  | _ => Raise (mk_exn AttributeError "object has no attribute 'get'")
  end.

(** Whether [p] occurs in [s] ([p in s] for two strings). *)
Fixpoint occurs_in (p s : string) : bool :=
  String.prefix p s ||
  match s with
  | EmptyString => false
  | String _ s' => occurs_in p s'
  end.

(** [k in d] on a JSON value. *)
Definition contains (d : json) (k : string) : result bool :=
  match d with
  | JDict items => Ok (bool_decide (is_Some (dict_get items k)))
  | JStr s => Ok (occurs_in k s)
  | JList l =>
      Ok (existsb (fun j => match j with JStr s => String.eqb s k | _ => false end) l)
  | _ => Raise (mk_exn TypeError "argument is not iterable")
  end.

(** [isinstance(x, (int, float)) and lo <= x <= hi]; [bool] is a subclass
    of [int]. *)
Definition number_between (lo hi : Z) (flo fhi : float) (x : option json) : bool :=
  match x with
  | Some (JInt z) => (lo <=? z) && (z <=? hi)
  | Some (JBool b) => (lo <=? Z.b2z b) && (Z.b2z b <=? hi)
  | Some (JFloat f) => ((flo <=? f) && (f <=? fhi))%float
  | _ => false
  end.

(** The loop over [required_fields]. *)
Fixpoint check_required_fields (results : json) (fields : list string)
  : result unit :=
  match fields with
  | [] => Ok tt
  | field :: rest =>
      match contains results field with
      | Raise e => Raise e
      | Ok false =>
          Raise (mk_exn ValueError
                   ("Missing required field in verification results: " +:+ field))
      | Ok true => check_required_fields results rest
      end
  end.

(** def _validate_verification_results(self, results) -> None *)
Definition _validate_verification_results (results : json) : result unit :=
  let required_fields :=
    ["submissionId"; "qualityScore"; "languageDetected"; "confidence"] in
  match check_required_fields results required_fields with
  | Raise e => Raise e
  | Ok _ =>
      match get_method results "qualityScore" with
      | Raise e => Raise e
      | Ok quality_score =>
          if negb (number_between 0 100 0 100 quality_score) then
            Raise (mk_exn ValueError
                     "Quality score must be a number between 0 and 100")
          else
            match get_method results "confidence" with
            | Raise e => Raise e
            | Ok confidence =>
                if negb (number_between 0 1 0 1 confidence) then
                  Raise (mk_exn ValueError
                           "Confidence must be a number between 0 and 1")
                else
                  match get_method results "languageDetected" with
                  | Raise e => Raise e
                  | Ok language =>
                      if match language with
                         | Some (JStr l) => (String.length l <? 2)%nat
                         | _ => true
                         end
                      then
                        Raise (mk_exn ValueError
                                 "Language detected must be a valid language code")
                      else Ok tt
                  end
            end
      end
  end.

(** def AIResultsRequest.__init__(self, data) *)
Definition AIResultsRequest_init (data : list (string * json))
  : result AIResultsRequest :=
  match dict_get data "submissionId" with
  | None => Raise (mk_exn KeyError "submissionId")
  | Some sid =>
      match dict_get data "verificationResults" with
      | None => Raise (mk_exn KeyError "verificationResults")
      | Some vr =>
          Ok {| submission_id := sid; verification_results := vr;
                user_token := default (JStr "") (dict_get data "userToken") |}
      end
  end.

(** [x >= 70] and [x >= 0.6] on a JSON value; Python compares an int with
    a float exactly, so an int is at least 0.6 when it is at least 1. *)
Definition ge_70 (x : json) : result bool :=
  match x with
  | JInt z => Ok (70 <=? z)
  | JBool b => Ok (70 <=? Z.b2z b)
  | JFloat f => Ok (70 <=? f)%float
  | _ => Raise (mk_exn TypeError "'>=' not supported")
  end.
Definition ge_0_6 (x : json) : result bool :=
  match x with
  | JInt z => Ok (1 <=? z)
  | JBool b => Ok b
  | JFloat f => Ok (0x1.3333333333333p-1 <=? f)%float
  | _ => Raise (mk_exn TypeError "'>=' not supported")
  end.

(** The dict returned by [_simulate_smart_contract_call]. *)
Record SmartContractResult := {
  sc_txHash : string;
  blockNumber : Z;
  gasUsed : Z;
  sc_status : string;
  submissionApproved : bool;
  sc_timestamp : string
}.

(** The dict returned by [_process_verification_results]. *)
Record ProcessingResult := {
  r_processed : bool;
  r_txHash : string;
  passesQuality : bool;
  smartContractResult : SmartContractResult
}.

(** The processor object, the module-level [results_cache] and the state
    of middleware.py that [log_audit_event] writes. *)
Record ProcessorWorld (RC CC AC PC : Type) := mk_pworld {
  self : AIResultsProcessor;
  results_cache : PC;
  middleware : World RC CC AC
}.
Arguments mk_pworld {RC CC AC PC}.
Arguments self {RC CC AC PC}.
Arguments results_cache {RC CC AC PC}.
Arguments middleware {RC CC AC PC}.

Section ResultsProcessor.

Context {RC CC AC PC : Type}.
Context `{!TTLCacheOps RC RateLimitInfo, !TTLCacheOps CC CostMonitoring,
          !TTLCacheOps AC AuditLog, !TTLCacheOps PC CachedResult}.

(** [hashlib.sha256(s.encode()).hexdigest()] and the text Python prints for
    a float, a list or a dict in an f-string: library functions. *)
Variable sha256_hexdigest : string -> string.
Variable py_repr : json -> string.

Abbreviation PW := (ProcessorWorld RC CC AC PC).

(** [f"{x}"] *)
Definition py_str (x : json) : string :=
  match x with
  | JStr s => s
  | JNull => "None"
  | JBool true => "True"
  | JBool false => "False"
  | JInt z => pretty z
  | _ => py_repr x
  end.

Definition on_self {A} (m : M AIResultsProcessor A) : M PW A :=
  zoom self (fun s w => mk_pworld s (results_cache w) (middleware w)) m.

Definition on_middleware {A} (m : M (World RC CC AC) A) : M PW A :=
  zoom middleware (fun mw w => mk_pworld (self w) (results_cache w) mw) m.

Definition results_cache_get (k : string) : M PW (option CachedResult) :=
  fun w => match cache_get (results_cache w) k with
           | Ok v => (Ok v, w)
           | Raise e => (Raise e, w)
           end.
Definition results_cache_set (k : string) (v : CachedResult) : M PW unit :=
  fun w => match cache_set (results_cache w) k v with
           | Ok c => (Ok tt, mk_pworld (self w) c (middleware w))
           | Raise e => (Raise e, w)
           end.

Fixpoint log_lines (ls : list LogRecord) : M PW unit :=
  match ls with
  | [] => ret tt
  | l :: ls' => do _ <-- on_middleware (logging l) ;; log_lines ls'
  end.

(** A JSON value used as the user of an audit record. *)
Definition audit_user (x : json) : option string :=
  match x with JNull => None | _ => Some (py_str x) end.

Definition json_of_option (x : option json) : json := default JNull x.

(** def _simulate_smart_contract_call(self, submission_id, quality_score,
    confidence, language_detected, passes_quality) *)
Definition _simulate_smart_contract_call (submission_id quality_score
    confidence language_detected : json) (passes_quality : bool)
    (clk : Clock) : SmartContractResult :=
  let tx_data :=
    py_str submission_id +:+ "_" +:+ py_str quality_score +:+ "_"
    +:+ py_str confidence +:+ "_" +:+ pretty (Py.int (time_time clk)) in
  let tx_hash := sha256_hexdigest tx_data in
  {| sc_txHash := "0x" +:+ String.substring 0 64 tx_hash;
     blockNumber := 12345678;
     gasUsed := 150000;
     sc_status := "success";
     submissionApproved := passes_quality;
     sc_timestamp := get_current_timestamp clk |}.

(** def _process_verification_results(self, request) *)
Definition _process_verification_results (request : AIResultsRequest)
    (clk : Clock) : M PW ProcessingResult :=
  try_except
    (do quality_score <-- outcome (subscript (verification_results request) "qualityScore") ;;
     do confidence <-- outcome (subscript (verification_results request) "confidence") ;;
     do language_detected <-- outcome (subscript (verification_results request) "languageDetected") ;;
     do q_ok <-- outcome (ge_70 quality_score) ;;
     do passes_quality <-- (if q_ok then outcome (ge_0_6 confidence) else ret false) ;;
     let smart_contract_result :=
       _simulate_smart_contract_call (submission_id request) quality_score
         confidence language_detected passes_quality clk in
     ret {| r_processed := true;
            r_txHash := sc_txHash smart_contract_result;
            passesQuality := passes_quality;
            smartContractResult := smart_contract_result |})
    (fun e =>
       do _ <-- on_middleware (logging (log_error
               ("Failed to process verification results: " +:+ exn_msg e))) ;;
       raise (mk_exn ValueError ("Results processing failed: " +:+ exn_msg e))).

(** [int(time.time() * 1000)] *)
Definition millis (clk : Clock) : Z := Py.int (time_time clk * 1000)%float.

(** The except clause of [process_results] (lines 118-138). *)
Definition process_results_except (request_data : list (string * json))
    (start_time : Z) (clk : Clock) (e : exn) : M PW AIResultsResponse :=
  let processing_time := millis clk - start_time in
  do lines <-- on_self (_handle_circuit_breaker_failure (time_time clk)) ;;
  do _ <-- log_lines lines ;;
  do _ <-- on_middleware (log_audit_event
        {| al_user_id :=
             audit_user (default (JStr "unknown") (dict_get request_data "userToken"));
           action := "process_ai_results";
           al_endpoint := "/ai-results";
           al_timestamp := get_current_timestamp clk;
           request_id :=
             py_str (default (JStr "unknown") (dict_get request_data "submissionId"));
           success := false;
           error := Some (exn_msg e);
           metadata := [("processingTime", JInt processing_time)] |} clk) ;;
  raise e.

(** def process_results(self, request_data).  [clk0] is the clock when
    the call starts, [clk] the clock read by the later statements. *)
Definition process_results (request_data : list (string * json))
    (clk0 clk : Clock) : M PW AIResultsResponse :=
  let start_time := millis clk0 in
  try_except
    (do request <-- outcome (AIResultsRequest_init request_data) ;;
     do _ <-- outcome (_validate_verification_results (verification_results request)) ;;
     let cache_key := "results_" +:+ py_str (submission_id request) in
     do cached_result <-- results_cache_get cache_key ;;
     match cached_result with
     | Some c =>
         do _ <-- on_middleware (logging (log_info
                 ("Returning cached result for submission "
                  +:+ py_str (submission_id request)))) ;;
         ret {| submissionId := submission_id request;
                processed := true;
                smartContractTxHash := Some (cr_txHash c);
                cached := true;
                processingTime := millis clk - start_time |}
     | None =>
         do is_open <-- on_self (_is_circuit_breaker_open (time_time clk)) ;;
         if is_open then
           raise (mk_exn ValueError
                    "Smart contract integration temporarily unavailable")
         else
           do result <-- _process_verification_results request clk ;;
           let processing_time := millis clk - start_time in
           let response :=
             {| submissionId := submission_id request;
                processed := r_processed result;
                smartContractTxHash := Some (r_txHash result);
                cached := false;
                processingTime := processing_time |} in
           do quality <-- outcome (get_method (verification_results request) "qualityScore") ;;
           do _ <-- (if r_processed result then
                       results_cache_set cache_key
                         {| cr_txHash := r_txHash result;
                            cr_timestamp := get_current_timestamp clk;
                            cr_qualityScore := quality |}
                     else ret tt) ;;
           do _ <-- on_middleware (log_audit_event
                 {| al_user_id := audit_user (user_token request);
                    action := "process_ai_results";
                    al_endpoint := "/ai-results";
                    al_timestamp := get_current_timestamp clk;
                    request_id := py_str (submission_id request);
                    success := true;
                    error := None;
                    metadata :=
                      [("qualityScore", json_of_option quality);
                       ("processed", JBool (r_processed result));
                       ("txHash", JStr (r_txHash result));
                       ("processingTime", JInt processing_time)] |} clk) ;;
           do _ <-- on_self reset_circuit_breaker ;;
           ret response
     end)
    (process_results_except request_data start_time clk).

End ResultsProcessor.

(** ** Vocabulary of the statements *)

(** Worlds whose caches are plain finite maps. *)
Abbreviation RWorld :=
  (World (gmap string RateLimitInfo) (gmap string CostMonitoring)
         (gmap string AuditLog)).

(** The integer second [now], and the two window starts and cache keys that
    [rate_limiter] derives from it. *)
Definition now_of (clk : Clock) : Z := Py.int (time_time clk).
Definition minute_window (now : Z) : Z := now `div` 60 * 60.
Definition hour_window (now : Z) : Z := now `div` 3600 * 3600.
Definition minute_key (uid service : string) (now : Z) : string :=
  uid +:+ ":" +:+ service +:+ ":" +:+ pretty (minute_window now).
Definition hour_key (uid service : string) (now : Z) : string :=
  uid +:+ ":" +:+ service +:+ ":hourly:" +:+ pretty (hour_window now).

(** The decision of section 4.2 of the specification, in its words: reject
    on the minute window if its entry exists with a count at or above the
    per-minute limit, else reject on the hour window likewise, else admit. *)
Inductive Decision :=
| RejectMinute (retry_after : Z)
| RejectHour (retry_after : Z)
| Admit.

Definition at_limit (lim : Z) (entry : option RateLimitInfo) : bool :=
  match entry with
  | Some e => bool_decide (lim <= request_count e)
  | None => false
  end.

Definition decision (cfg : ServiceLimits) (now : Z)
    (minute hour : option RateLimitInfo) : Decision :=
  if at_limit (REQUESTS_PER_MINUTE cfg) minute then
    RejectMinute (60 - (now - minute_window now))
  else if at_limit (REQUESTS_PER_HOUR cfg) hour then
    RejectHour (3600 - (now - hour_window now))
  else Admit.

(** The count of a window entry after one more admitted request. *)
Definition incremented (entry : option RateLimitInfo) : Z :=
  match entry with Some e => request_count e + 1 | None => 1 end.

(** The count a window stands at (0 when it has no entry). *)
Definition count_at (rc : gmap string RateLimitInfo) (k : string) : Z :=
  match rc !! k with Some e => request_count e | None => 0 end.

(** The rate-limit cache after an admitted request. *)
Definition admitted_cache (cfg : ServiceLimits) (uid service endpoint : string)
    (now : Z) (rc : gmap string RateLimitInfo) : gmap string RateLimitInfo :=
  <[hour_key uid service now :=
      {| rl_user_id := uid; rl_endpoint := endpoint;
         request_count := incremented (rc !! hour_key uid service now);
         window_start := hour_window now;
         limit := REQUESTS_PER_HOUR cfg |}]>
  (<[minute_key uid service now :=
      {| rl_user_id := uid; rl_endpoint := endpoint;
         request_count := incremented (rc !! minute_key uid service now);
         window_start := minute_window now;
         limit := REQUESTS_PER_MINUTE cfg |}]> rc).

Definition with_rate_limit_cache {CC AC} (rc : gmap string RateLimitInfo)
    (w : World (gmap string RateLimitInfo) CC AC)
  : World (gmap string RateLimitInfo) CC AC :=
  mk_world rc (cost_cache w) (audit_cache w) (logger w).

(** A handler that leaves the rate-limit cache alone. *)
Definition preserves_rate_limit_cache (f : Request -> Clock -> M RWorld Response)
  : Prop :=
  forall req clk w, rate_limit_cache (f req clk w).2 = rate_limit_cache w.

(** The view function of the tests: [return {'message': 'success'}]. *)
Definition test_endpoint {St} (req : Request) (clk : Clock) : M St Response :=
  ret (mk_response [("message", JStr "success")] 200).

(** Concrete inputs used to exercise the statements. *)
Definition req0 : Request :=
  {| authorization := Some "Bearer valid-token"; x_request_id := Some "req123";
     path := "/test"; user_id := Some "user123"; user_address := Some "0x123" |}.
Definition clk0 : Clock :=
  {| time_time := 1700000000.5%float; strftime_date := "2023-11-14";
     get_current_timestamp := "2023-11-14T22:13:20.000Z" |}.
Definition w0 : RWorld := mk_world ∅ ∅ ∅ [].
Definition GEMINI : ServiceLimits :=
  {| REQUESTS_PER_MINUTE := 60; REQUESTS_PER_HOUR := 1000;
     COST_LIMIT_PER_DAY := 100%float |}.

(** Two clock readings a quarter and three quarters of a second into second
    1700000000. *)
Definition clk_a : Clock :=
  {| time_time := 1700000000.25%float; strftime_date := "2023-11-14";
     get_current_timestamp := "2023-11-14T22:13:20.000Z" |}.
Definition clk_b : Clock :=
  {| time_time := 1700000000.75%float; strftime_date := "2023-11-14";
     get_current_timestamp := "2023-11-14T22:13:20.000Z" |}.

(** The [retryAfter] member of a response. *)
Definition retry_after (r : result Response) : option Z :=
  match r with
  | Ok resp =>
      match dict_get (body resp) "retryAfter" with
      | Some (JInt z) => Some z
      | _ => None
      end
  | Raise _ => None
  end.

(** Sequential calls of the rate limiter for one request context, one per
    clock reading; the result is the world after the last call. *)
Fixpoint rate_limiter_calls (service : string)
    (f : Request -> Clock -> M RWorld Response) (req : Request)
    (cs : list Clock) (w : RWorld) : RWorld :=
  match cs with
  | [] => w
  | c :: cs' => rate_limiter_calls service f req cs' (rate_limiter service f req c w).2
  end.

(** How many of these calls were admitted: the decision is taken on the
    cache as each call finds it. *)
Fixpoint admitted_calls (cfg : ServiceLimits) (service : string)
    (f : Request -> Clock -> M RWorld Response) (req : Request)
    (cs : list Clock) (w : RWorld) : nat :=
  match cs with
  | [] => 0%nat
  | c :: cs' =>
      let uid := fmt_opt (user_id req) in
      let rc := rate_limit_cache w in
      (match decision cfg (now_of c) (rc !! minute_key uid service (now_of c))
                      (rc !! hour_key uid service (now_of c)) with
       | Admit => 1 | _ => 0
       end +
       admitted_calls cfg service f req cs' (rate_limiter service f req c w).2)%nat
  end.

(** The ledger key of [check_cost_limits], and what the ledger holds under
    it: cumulative cost (0.0 when there is no entry, as the source reads it)
    and request count. *)
Definition cost_key (uid service today : string) : string :=
  uid +:+ ":" +:+ service +:+ ":" +:+ today.
Definition ledger_cost (cc : gmap string CostMonitoring) (k : string) : float :=
  match cc !! k with Some d => cost d | None => 0%float end.
Definition ledger_count (cc : gmap string CostMonitoring) (k : string) : Z :=
  match cc !! k with Some d => cm_request_count d | None => 0 end.

(** Sequential calls of [check_cost_limits] for one user and service, each
    with its estimated cost and clock: the world after the last call. *)
Fixpoint check_cost_calls (uid service : string) (calls : list (float * Clock))
    (w : RWorld) : RWorld :=
  match calls with
  | [] => w
  | (c, clk) :: rest =>
      check_cost_calls uid service rest (check_cost_limits uid service c clk w).2
  end.

(** The estimated costs of those calls that returned [True], in order. *)
Fixpoint admitted_costs (uid service : string) (calls : list (float * Clock))
    (w : RWorld) : list float :=
  match calls with
  | [] => []
  | (c, clk) :: rest =>
      let (r, w') := check_cost_limits uid service c clk w in
      (match r with Ok true => [c] | _ => [] end)
      ++ admitted_costs uid service rest w'
  end.

(** The sum that the ledger accumulates: costs added one after the other,
    in binary64, starting from [start]. *)
Definition accumulate (start : float) (costs : list float) : float :=
  fold_left PrimFloat.add costs start.

(** A store every operation of which raises, and a store that can be read
    but not written. *)
Definition broken_cache (V : Type) : TTLCacheOps unit V :=
  {| cache_get _ _ := Raise (mk_exn OtherError "Cache error");
     cache_set _ _ _ := Raise (mk_exn OtherError "Cache error") |}.
Definition read_only_cache (V : Type) : TTLCacheOps (gmap string V) V :=
  {| cache_get m k := Ok (m !! k);
     cache_set _ _ _ := Raise (mk_exn OtherError "Cache error") |}.

Definition TRANSLATE : ServiceLimits :=
  {| REQUESTS_PER_MINUTE := 100; REQUESTS_PER_HOUR := 2000;
     COST_LIMIT_PER_DAY := 50%float |}.

(** A clock reading seven seconds after [clk0], in the same minute. *)
Definition clk_c : Clock :=
  {| time_time := 1700000007%float; strftime_date := "2023-11-14";
     get_current_timestamp := "2023-11-14T22:13:27.000Z" |}.

(** Worlds over the two failing stores. *)
Definition w_broken : World unit unit unit := mk_world tt tt tt [].
Definition w_read_only
  : World (gmap string RateLimitInfo) (gmap string CostMonitoring)
          (gmap string AuditLog) := mk_world ∅ ∅ ∅ [].

(** Consecutive calls of [_handle_circuit_breaker_failure], one per clock
    reading: the breaker after the last one. *)
Fixpoint record_failures (ts : list float) (self : AIResultsProcessor)
  : AIResultsProcessor :=
  match ts with
  | [] => self
  | t :: ts' => record_failures ts' (_handle_circuit_breaker_failure t self).2
  end.

(** The request with its [Authorization] header removed. *)
Definition without_authorization (req : Request) : Request :=
  {| authorization := None; x_request_id := x_request_id req;
     path := path req; user_id := user_id req;
     user_address := user_address req |}.

(** The request with another [Authorization] header. *)
Definition with_authorization (h : string) (req : Request) : Request :=
  {| authorization := Some h; x_request_id := x_request_id req;
     path := path req; user_id := user_id req;
     user_address := user_address req |}.

(** A stand-in for [jwt.decode] as the tests patch it: one token decodes,
    one has expired, every other one is invalid. *)
Definition jwt_mock (token key : string) : result Claims :=
  if String.eqb token "valid-token" then
    Ok {| userId := Some "user123"; address := Some "0x123" |}
  else if String.eqb token "expired-token" then
    Raise (mk_exn ExpiredSignatureError "Token expired")
  else Raise (mk_exn InvalidSignatureError "Signature verification failed").

(** The audit records that were logged, oldest first. *)
Definition audit_records {RC CC AC} (w : World RC CC AC) : list AuditLog :=
  omap (fun l => match l with log_audit_event_line e => Some e | _ => None end)
       (logger w).

(** Requests carrying the three kinds of header of the tests. *)
Definition req_malformed : Request :=
  {| authorization := Some "InvalidFormat"; x_request_id := None;
     path := "/test"; user_id := None; user_address := None |}.
Definition req_expired : Request :=
  {| authorization := Some "Bearer expired-token"; x_request_id := None;
     path := "/test"; user_id := None; user_address := None |}.
Definition req_invalid : Request :=
  {| authorization := Some "Bearer invalid-token"; x_request_id := None;
     path := "/test"; user_id := None; user_address := None |}.
Definition req_valid : Request :=
  {| authorization := Some "Bearer valid-token"; x_request_id := None;
     path := "/test"; user_id := None; user_address := None |}.

(** A handler that writes no audit record of its own. *)
Definition adds_no_audit_record {RC CC AC}
    (f : Request -> Clock -> M (World RC CC AC) Response) : Prop :=
  forall req clk w, audit_records (f req clk w).2 = audit_records w.

(** Processor worlds whose caches are plain finite maps. *)
Abbreviation RPWorld :=
  (ProcessorWorld (gmap string RateLimitInfo) (gmap string CostMonitoring)
                  (gmap string AuditLog) (gmap string CachedResult)).

(** Stand-ins for the two library functions, for concrete runs. *)
Definition sha256_stub (s : string) : string := s.
Definition repr_stub (x : json) : string := "?".

(** Request data whose verification results pass validation, and request
    data whose quality score is out of range. *)
Definition data_ok : list (string * json) :=
  [("submissionId", JStr "sub1");
   ("verificationResults",
    JDict [("submissionId", JStr "sub1"); ("qualityScore", JInt 85);
           ("languageDetected", JStr "en"); ("confidence", JInt 1)]);
   ("userToken", JStr "user123")].
Definition data_bad : list (string * json) :=
  [("submissionId", JStr "sub1");
   ("verificationResults",
    JDict [("submissionId", JStr "sub1"); ("qualityScore", JInt 150);
           ("languageDetected", JStr "en"); ("confidence", JInt 1)]);
   ("userToken", JStr "user123")].

(** A fresh processor with empty caches; one whose breaker has just
    recorded five failures; one that has the result of [sub1] cached, with
    a fresh breaker and with the open one. *)
Definition pw0 : RPWorld := mk_pworld __init__ ∅ w0.
Definition open_breaker : AIResultsProcessor :=
  record_failures (replicate 5 (time_time clk0)) __init__.
Definition pw_open : RPWorld := mk_pworld open_breaker ∅ w0.
Definition cached_sub1 : CachedResult :=
  {| cr_txHash := "0xabc"; cr_timestamp := "2023-11-14T22:13:20.000Z";
     cr_qualityScore := Some (JInt 85) |}.
Definition pw_cached : RPWorld :=
  mk_pworld __init__ {["results_sub1" := cached_sub1]} w0.
Definition pw_cached_open : RPWorld :=
  mk_pworld open_breaker {["results_sub1" := cached_sub1]} w0.

(** The world after a line was handed to [logger]. *)
Definition logged {RC CC AC PC} (l : LogRecord) (w : ProcessorWorld RC CC AC PC)
  : ProcessorWorld RC CC AC PC :=
  mk_pworld (self w) (results_cache w)
    (mk_world (rate_limit_cache (middleware w)) (cost_cache (middleware w))
              (audit_cache (middleware w)) (logger (middleware w) ++ [l])).

(** ** results_processor.py: statistics, cache clearing, retry, status *)

(** The further operations the processor performs on [results_cache]:
    [len(c)], [c.clear()], [k in c] and [del c[k]]. *)
Class TTLCacheAdmin (C : Type) := {
  cache_len : C -> result Z;
  cache_clear : C -> result C;
  cache_contains : C -> string -> result bool;
  cache_del : C -> string -> result C
}.

(** On a plain map they succeed, except [del] of an absent key, which is a
    [KeyError]. *)
#[export] Instance gmap_cache_admin (V : Type) : TTLCacheAdmin (gmap string V) := {
  cache_len m := Ok (Z.of_nat (size m));
  cache_clear m := Ok ∅;
  cache_contains m k := Ok (bool_decide (is_Some (m !! k)));
  cache_del m k :=
    if bool_decide (is_Some (m !! k)) then Ok (delete k m)
    else Raise (mk_exn KeyError k)
}.

(** The dict returned by [get_processing_stats]. *)
Record ProcessingStats := {
  cacheSize : Z;
  circuitBreakerFailures : Z;
  circuitBreakerOpen : bool;
  lastFailureTime : float;
  stats_timestamp : string
}.

(** The dict with a message and a timestamp that [clear_cache] and
    [retry_failed_submission] return. *)
Record Notice := { message : string; notice_timestamp : string }.

(** The two dicts that [get_submission_status] returns: status
    'processed' (cached true) and status 'not_processed' (cached false). *)
Inductive SubmissionStatus :=
| StatusProcessed (submission_id : string) (tx_hash : string)
    (quality_score : option json) (processed_at : string)
| StatusNotProcessed (submission_id : string) (timestamp : string).

Section ProcessorAdmin.

Context {RC CC AC PC : Type}.
Context `{!TTLCacheOps RC RateLimitInfo, !TTLCacheOps CC CostMonitoring,
          !TTLCacheOps AC AuditLog, !TTLCacheOps PC CachedResult,
          !TTLCacheAdmin PC}.

Abbreviation APW := (ProcessorWorld RC CC AC PC).

Definition results_cache_len : M APW Z :=
  fun w => match cache_len (results_cache w) with
           | Ok n => (Ok n, w)
           | Raise e => (Raise e, w)
           end.
Definition results_cache_clear : M APW unit :=
  fun w => match cache_clear (results_cache w) with
           | Ok c => (Ok tt, mk_pworld (self w) c (middleware w))
           | Raise e => (Raise e, w)
           end.
Definition results_cache_contains (k : string) : M APW bool :=
  fun w => match cache_contains (results_cache w) k with
           | Ok b => (Ok b, w)
           | Raise e => (Raise e, w)
           end.
Definition results_cache_del (k : string) : M APW unit :=
  fun w => match cache_del (results_cache w) k with
           | Ok c => (Ok tt, mk_pworld (self w) c (middleware w))
           | Raise e => (Raise e, w)
           end.

(** Reading an attribute of [self]. *)
Definition read_self {A} (field : AIResultsProcessor -> A) : M APW A :=
  fun w => (Ok (field (self w)), w).

(** def get_processing_stats(self).  The members of the dict are evaluated
    in the order in which they are written. *)
Definition get_processing_stats (clk : Clock) : M APW ProcessingStats :=
  do cache_size <-- results_cache_len ;;
  do failures <-- read_self circuit_breaker_failures ;;
  do is_open <-- on_self (_is_circuit_breaker_open (time_time clk)) ;;
  do last <-- read_self last_failure_time ;;
  ret {| cacheSize := cache_size;
         circuitBreakerFailures := failures;
         circuitBreakerOpen := is_open;
         lastFailureTime := last;
         stats_timestamp := get_current_timestamp clk |}.

(** def clear_cache(self) *)
Definition clear_cache (clk : Clock) : M APW Notice :=
  do cache_size <-- results_cache_len ;;
  do _ <-- results_cache_clear ;;
  ret {| message := "Cleared " +:+ pretty cache_size +:+ " cached results";
         notice_timestamp := get_current_timestamp clk |}.

(** [self.circuit_breaker_failures = max(0, self.circuit_breaker_failures - 1)] *)
Definition forgive_one_failure : M AIResultsProcessor unit :=
  fun self =>
    (Ok tt,
     {| circuit_breaker_failures := Z.max 0 (circuit_breaker_failures self - 1);
        circuit_breaker_threshold := circuit_breaker_threshold self;
        circuit_breaker_timeout := circuit_breaker_timeout self;
        last_failure_time := last_failure_time self |}).

(** def retry_failed_submission(self, submission_id) *)
Definition retry_failed_submission (submission_id : string) (clk : Clock)
  : M APW Notice :=
  try_except
    (let cache_key := "results_" +:+ submission_id in
     do present <-- results_cache_contains cache_key ;;
     do _ <-- (if present then results_cache_del cache_key else ret tt) ;;
     do is_open <-- on_self (_is_circuit_breaker_open (time_time clk)) ;;
     do _ <-- (if is_open then on_self forgive_one_failure else ret tt) ;;
     ret {| message := "Retry prepared for submission " +:+ submission_id;
            notice_timestamp := get_current_timestamp clk |})
    (fun e =>
       do _ <-- on_middleware (logging (log_error
               ("Failed to prepare retry for submission " +:+ submission_id
                +:+ ": " +:+ exn_msg e))) ;;
       raise (mk_exn ValueError ("Retry preparation failed: " +:+ exn_msg e))).

(** def get_submission_status(self, submission_id) *)
Definition get_submission_status (submission_id : string) (clk : Clock)
  : M APW SubmissionStatus :=
  let cache_key := "results_" +:+ submission_id in
  do cached_result <-- results_cache_get cache_key ;;
  match cached_result with
  | Some c =>
      ret (StatusProcessed submission_id (cr_txHash c) (cr_qualityScore c)
             (cr_timestamp c))
  | None =>
      ret (StatusNotProcessed submission_id (get_current_timestamp clk))
  end.

End ProcessorAdmin.

(** ** middleware.py: cost estimates *)

(** [float(n)] for an int [n], as [n * x] performs it for a float [x]:
    the nearest binary64 value, or [OverflowError] when there is none. *)
Definition float_of_int (n : Z) : result float :=
  let f := SF2Prim (binary_normalize prec emax n 0 false) in
  if is_infinity f
  then Raise (mk_exn OtherError "int too large to convert to float")
  else Ok f.

(** [d.get(k)] on a dict of floats. *)
Fixpoint fdict_get (d : list (string * float)) (k : string) : option float :=
  match d with
  | [] => None
  | (k', v) :: d' => if String.eqb k' k then Some v else fdict_get d' k
  end.

(** [AI_CONFIG['COST_ESTIMATES'][service]]; [None] is the [KeyError]. *)
#[warnings="-inexact-float"]
Definition COST_ESTIMATES (service : string) : option (list (string * float)) :=
  if String.eqb service "GEMINI" then
    Some [("text", 0.01%float); ("audio", 0.05%float); ("image", 0.03%float)]
  else if String.eqb service "TRANSLATE" then
    Some [("per_character", 0.00002%float)]
  else if String.eqb service "SPEECH" then
    Some [("per_minute", 0.024%float)]
  else None.

(** The [KeyError] of a missing key [k]; its text is [repr(k)].
    [py_repr] stands for Python's [repr]. *)
Definition key_error (py_repr : json -> string) (k : string) : exn :=
  mk_exn KeyError (py_repr (JStr k)).

(** [cost_config[k]] *)
Definition cost_rate (py_repr : json -> string)
    (cost_config : list (string * float)) (k : string) : result float :=
  match fdict_get cost_config k with
  | Some v => Ok v
  | None => Raise (key_error py_repr k)
  end.

Section CostEstimate.

Context {RC CC AC : Type}.
Variable py_repr : json -> string.

(** def estimate_cost(service, data_type=None, content_length=0,
    duration=0.0) -> float *)
#[warnings="-inexact-float"]
Definition estimate_cost (service : string) (data_type : option string)
    (content_length : Z) (duration : float) : M (World RC CC AC) float :=
  try_except
    (match COST_ESTIMATES service with
     | None => raise (key_error py_repr service)
     | Some cost_config =>
         if String.eqb service "GEMINI" then
           ret (default 0.02%float
                  (match data_type with
                   | Some t => fdict_get cost_config t
                   | None => None
                   end))
         else if String.eqb service "TRANSLATE" then
           do per_character <-- outcome (cost_rate py_repr cost_config "per_character") ;;
           do n <-- outcome (float_of_int content_length) ;;
           ret (n * per_character)%float
         else if String.eqb service "SPEECH" then
           do per_minute <-- outcome (cost_rate py_repr cost_config "per_minute") ;;
           ret (duration / 60 * per_minute)%float
         else ret 0.01%float
     end)
    (fun e =>
       do _ <-- logging (log_error ("Cost estimation error: " +:+ exn_msg e)) ;;
       ret 0.01%float).

End CostEstimate.

(** ** config.py: secrets and service configuration *)

Record SecretConfig := {
  gemini_api_key : string;
  translate_api_key : string;
  speech_to_text_api_key : string;
  jwt_signing_key : string
}.

(** The module-level [secret_cache], a [TTLCache(maxsize=100, ttl=300)],
    and the log of config.py. *)
Record ConfigWorld := mk_config_world {
  secret_cache : TTLCache string;
  config_logger : list LogRecord
}.

Definition config_logging (l : LogRecord) : M ConfigWorld unit :=
  fun w => (Ok tt, mk_config_world (secret_cache w) (config_logger w ++ [l])).

(** [secret_cache[secret_name] = secret_value] *)
Definition secret_cache_set (secret_name secret_value : string)
  : M ConfigWorld unit :=
  fun w =>
    match ttl_set (secret_cache w) secret_name secret_value with
    | Ok c => (Ok tt, mk_config_world c (config_logger w))
    | Raise e => (Raise e, w)
    end.

(** def get_secret(client, secret_name) -> str.  [client] stands for
    [client.access_secret_version(request={"name": n}).payload.data
    .decode("UTF-8")]: the secret's text, or the exception raised.  The
    membership test and the subscript of the first two lines read the
    timer at the same instant. *)
Definition get_secret (client : string -> result string) (secret_name : string)
  : M ConfigWorld string :=
  fun w =>
    match ttl_get (secret_cache w) secret_name with
    | Some v => (Ok v, w)
    | None =>
        try_except
          (do secret_value <-- outcome (client secret_name) ;;
           if String.eqb secret_value "" then
             raise (mk_exn ValueError ("Empty secret value for " +:+ secret_name))
           else
             do _ <-- secret_cache_set secret_name secret_value ;;
             ret secret_value)
          (fun e =>
             do _ <-- config_logging (log_error
                     ("Failed to access secret " +:+ secret_name +:+ ": "
                      +:+ exn_msg e)) ;;
             raise e)
          w
    end.

(** The name of a secret of the project. *)
Definition secret_path (project_id name : string) : string :=
  "projects/" +:+ project_id +:+ "/secrets/" +:+ name +:+ "/versions/latest".

(** The body of the loop of [get_secure_config] for one secret. *)
Definition retrieve_secret (client : string -> result string)
    (secret_name : string) : M ConfigWorld string :=
  try_except (get_secret client secret_name)
    (fun e =>
       do _ <-- config_logging (log_error
               ("Failed to retrieve secret " +:+ secret_name +:+ ": "
                +:+ exn_msg e)) ;;
       raise e).

(** def get_secure_config() -> SecretConfig.  [project_id] is
    [os.getenv('GOOGLE_CLOUD_PROJECT', 'delang-zeta')]; [new_client] is the
    outcome of [secretmanager.SecretManagerServiceClient()]. *)
Definition get_secure_config (project_id : string)
    (new_client : result (string -> result string)) : M ConfigWorld SecretConfig :=
  try_except
    (do client <-- outcome new_client ;;
     do k1 <-- retrieve_secret client (secret_path project_id "gemini-api-key") ;;
     do k2 <-- retrieve_secret client (secret_path project_id "translate-api-key") ;;
     do k3 <-- retrieve_secret client (secret_path project_id "speech-api-key") ;;
     do k4 <-- retrieve_secret client (secret_path project_id "jwt-signing-key") ;;
     ret {| gemini_api_key := k1; translate_api_key := k2;
            speech_to_text_api_key := k3; jwt_signing_key := k4 |})
    (fun e =>
       do _ <-- config_logging (log_error
               ("Failed to retrieve secrets: " +:+ exn_msg e)) ;;
       raise (mk_exn ValueError
                "Configuration error: Unable to access required secrets")).

(** [config.jwt_signing_key] of the outcome of [get_secure_config()], as
    [authenticate_token] uses it. *)
Definition signing_key (r : result SecretConfig) : result string :=
  match r with
  | Ok config => Ok (jwt_signing_key config)
  | Raise e => Raise e
  end.

(** [AI_CONFIG['TIMEOUTS'][service]] *)
Definition TIMEOUTS (service : string) : option float :=
  if String.eqb service "GEMINI" then Some 30%float
  else if String.eqb service "TRANSLATE" then Some 10%float
  else if String.eqb service "SPEECH" then Some 60%float
  else None.

(** [AI_CONFIG['RETRY']] *)
Record RetryConfig := {
  MAX_ATTEMPTS : Z;
  BACKOFF_MULTIPLIER : Z;
  INITIAL_DELAY : float
}.
Definition RETRY : RetryConfig :=
  {| MAX_ATTEMPTS := 3; BACKOFF_MULTIPLIER := 2; INITIAL_DELAY := 1%float |}.

(** The dict returned by [get_service_config]. *)
Record ServiceConfig := {
  rate_limits : ServiceLimits;
  service_timeout : float;
  retry : RetryConfig;
  cost_estimates : list (string * float)
}.

(** def get_service_config(service) *)
Definition get_service_config (py_repr : json -> string) (service : string)
  : result ServiceConfig :=
  match RATE_LIMITS service with
  | None => Raise (mk_exn ValueError ("Unknown service: " +:+ service))
  | Some limits =>
      match TIMEOUTS service with
      | None => Raise (key_error py_repr service)
      | Some t =>
          Ok {| rate_limits := limits; service_timeout := t; retry := RETRY;
                cost_estimates := default [] (COST_ESTIMATES service) |}
      end
  end.

(** ** Further inputs for concrete runs *)

(** A view that raises [KeyError], as a view does that reads a missing
    member of the request body. *)
Definition failing_view {St} (req : Request) (clk : Clock) : M St Response :=
  raise (mk_exn KeyError "text").

(** Clock readings in the next minute and in the next hour after [clk0]. *)
Definition clk_next_minute : Clock :=
  {| time_time := 1700000040%float; strftime_date := "2023-11-14";
     get_current_timestamp := "2023-11-14T22:14:00.000Z" |}.
Definition clk_next_hour : Clock :=
  {| time_time := 1700002800%float; strftime_date := "2023-11-14";
     get_current_timestamp := "2023-11-14T23:00:00.000Z" |}.
Definition clk_next_day : Clock :=
  {| time_time := 1700086400.5%float; strftime_date := "2023-11-15";
     get_current_timestamp := "2023-11-15T22:13:20.000Z" |}.

(** The clock at a given time of 14 November 2023. *)
Definition clock_at (t : float) : Clock :=
  {| time_time := t; strftime_date := "2023-11-14";
     get_current_timestamp := "2023-11-14T22:14:00.000Z" |}.

(** Thirty calls in each of seventeen consecutive minutes of one hour, and
    a later moment of that hour. *)
Definition busy_hour : list Clock :=
  flat_map (fun k => replicate 30 (clock_at (1700000040 + 60 * k)%float))
    [0; 1; 2; 3; 4; 5; 6; 7; 8; 9; 10; 11; 12; 13; 14; 15; 16]%float.
Definition clk_later_in_hour : Clock := clock_at 1700002000%float.
Definition SPEECH : ServiceLimits :=
  {| REQUESTS_PER_MINUTE := 30; REQUESTS_PER_HOUR := 500;
     COST_LIMIT_PER_DAY := 75%float |}.

(** Whether a string is free of spaces. *)
Fixpoint has_no_space (s : string) : bool :=
  match s with
  | EmptyString => true
  | String c s' => negb (Ascii.eqb c " "%char) && has_no_space s'
  end.

(** A token that decodes to a payload without [userId]. *)
Definition jwt_anonymous (token key : string) : result Claims :=
  Ok {| userId := None; address := Some "0x123" |}.

(** The key under which [log_audit_event] stores an event. *)
Definition audit_key (ev : AuditLog) (clk : Clock) : string :=
  fmt_opt (al_user_id ev) +:+ ":" +:+ pretty (now_of clk).

(** Two audit events of one user. *)
Definition ev_auth : AuditLog :=
  {| al_user_id := Some "user123"; action := "authenticate";
     al_endpoint := "/ai-results"; al_timestamp := "2023-11-14T22:13:20.000Z";
     request_id := "req123"; success := true; error := None; metadata := [] |}.
Definition ev_error : AuditLog :=
  {| al_user_id := Some "user123"; action := "error";
     al_endpoint := "/ai-results"; al_timestamp := "2023-11-14T22:13:20.000Z";
     request_id := "req123"; success := false;
     error := Some "Quality score must be a number between 0 and 100";
     metadata := [("error_type", JStr "ValueError")] |}.

(** The values that [estimate_cost] can return for GEMINI: the three rates
    of its cost table and the default. *)
#[warnings="-inexact-float"]
Definition gemini_estimates : list float :=
  [0.01; 0.05; 0.03; 0.02]%float.

(** The value [estimate_cost] returns when it cannot compute one. *)
#[warnings="-inexact-float"]
Definition fallback_estimate : float := 0.01%float.

(** Verification results in which every member is of an unusual but
    accepted kind: a null submission id, booleans as numbers. *)
Definition odd_results : json :=
  JDict [("submissionId", JNull); ("qualityScore", JBool true);
         ("languageDetected", JStr "en"); ("confidence", JBool false)].

(** The request read from [data_ok]. *)
Definition req_ok : AIResultsRequest :=
  {| submission_id := JStr "sub1";
     verification_results :=
       JDict [("submissionId", JStr "sub1"); ("qualityScore", JInt 85);
              ("languageDetected", JStr "en"); ("confidence", JInt 1)];
     user_token := JStr "user123" |}.

(** The key of a submission in [results_cache]. *)
Definition results_key (py_repr : json -> string) (req : AIResultsRequest)
  : string := "results_" +:+ py_str py_repr (submission_id req).

(** A clock reading 303 seconds after [clk0], hence more than the
    cooldown after the failures of [open_breaker] and less than the
    cooldown after [clk_c]. *)
Definition clk_later : Clock :=
  {| time_time := 1700000303.5%float; strftime_date := "2023-11-14";
     get_current_timestamp := "2023-11-14T22:18:23.000Z" |}.

(** A secret manager that serves every secret, and one that has been shut
    down. *)
Definition serving_client (name : string) : result string :=
  Ok ("value of " +:+ name).
Definition closed_client (name : string) : result string :=
  Raise (mk_exn OtherError "503 unavailable").

(** The config state at start-up, when the timer of the secret cache reads
    [t]; and a config state when it reads [t]. *)
Definition config_world (t : float) : ConfigWorld :=
  mk_config_world (mk_cache 100 300 t []) [].
Definition cwhen (t : float) (w : ConfigWorld) : ConfigWorld :=
  mk_config_world (at_timer t (secret_cache w)) (config_logger w).

(** Whether a string has no colon, the separator of the cache keys. *)
Fixpoint colon_free (s : string) : bool :=
  match s with
  | EmptyString => true
  | String c s' => negb (Ascii.eqb c ":") && colon_free s'
  end.

(** The request [req0] sent to another endpoint. *)
Definition req_ai_results : Request :=
  {| authorization := Some "Bearer valid-token"; x_request_id := Some "req123";
     path := "/ai-results"; user_id := Some "user123";
     user_address := Some "0x123" |}.

(** ** Runs on the caches of the source *)

(** The entries that the rate limiter writes when it admits a request
    that found [found] under the key. *)
Definition minute_entry (cfg : ServiceLimits) (uid endpoint : string) (now : Z)
    (found : option RateLimitInfo) : RateLimitInfo :=
  {| rl_user_id := uid; rl_endpoint := endpoint;
     request_count := incremented found;
     window_start := minute_window now;
     limit := REQUESTS_PER_MINUTE cfg |}.
Definition hour_entry (cfg : ServiceLimits) (uid endpoint : string) (now : Z)
    (found : option RateLimitInfo) : RateLimitInfo :=
  {| rl_user_id := uid; rl_endpoint := endpoint;
     request_count := incremented found;
     window_start := hour_window now;
     limit := REQUESTS_PER_HOUR cfg |}.

(** Sequential requests of one user within one minute window, in a run in
    which the store keeps the two entries of the window: every request
    finds under its two keys what the request before left there ([m] and
    [h] for the first).  The result is the number of requests admitted and
    the entries that the next request finds. *)
Fixpoint kept_entries (cfg : ServiceLimits) (uid endpoint : string)
    (cs : list Clock) (m h : option RateLimitInfo)
  : nat * (option RateLimitInfo * option RateLimitInfo) :=
  match cs with
  | [] => (0%nat, (m, h))
  | c :: cs' =>
      match decision cfg (now_of c) m h with
      | Admit =>
          let r := kept_entries cfg uid endpoint cs'
                     (Some (minute_entry cfg uid endpoint (now_of c) m))
                     (Some (hour_entry cfg uid endpoint (now_of c) h)) in
          (S r.1, r.2)
      | _ => kept_entries cfg uid endpoint cs' m h
      end
  end.

(** The module-level caches of middleware.py (lines 17 to 19) when the
    module has been loaded and the timer reads [t]. *)
Abbreviation TWorld :=
  (World (TTLCache RateLimitInfo) (TTLCache CostMonitoring) (TTLCache AuditLog)).
Definition loaded (t : float) : TWorld :=
  mk_world (mk_cache 10000 3600 t []) (mk_cache 10000 86400 t [])
           (mk_cache 50000 86400 t []) [].

(** The world when the timer of the caches reads [t]. *)
Definition when (t : float) (w : TWorld) : TWorld :=
  mk_world (at_timer t (rate_limit_cache w)) (at_timer t (cost_cache w))
           (at_timer t (audit_cache w)) (logger w).

(** Requests served one after the other by a view behind the rate limiter:
    the status codes answered, and the world left. *)
Fixpoint serve {RC CC AC : Type} `{!TTLCacheOps RC RateLimitInfo}
    (service : string) (f : Request -> Clock -> M (World RC CC AC) Response)
    (calls : list (Request * Clock)) (w : World RC CC AC)
  : list (result Z) * World RC CC AC :=
  match calls with
  | [] => ([], w)
  | (req, clk) :: rest =>
      let r := rate_limiter service f req clk w in
      let rs := serve service f rest r.2 in
      (match r.1 with Ok resp => Ok (status resp) | Raise e => Raise e end :: rs.1,
       rs.2)
  end.

(** An authenticated request of the user [uid], and one request of each of
    the users 0, 1, ..., n-1. *)
Definition request_of (uid : string) : Request :=
  {| authorization := None; x_request_id := None; path := "/test";
     user_id := Some uid; user_address := None |}.
Definition other_users (n : nat) (clk : Clock) : list (Request * Clock) :=
  map (fun i => (request_of (pretty (Z.of_nat i)), clk)) (seq 0 n).

(** The entry that the cost check writes when it admits a charge [c] that
    found [found] under the key. *)
Definition cost_entry (uid service : string) (clk : Clock)
    (found : option CostMonitoring) (c : float) : CostMonitoring :=
  {| cm_user_id := uid; cm_service := service;
     cost := (match found with Some d => cost d | None => 0 end + c)%float;
     cm_request_count :=
       match found with Some d => cm_request_count d + 1 | None => 1 end;
     cm_timestamp := now_of clk |}.

(** Sequential charges of one user and service on one day, in a run in
    which the store keeps the day's entry: every call finds what the call
    before left ([d] for the first).  The result is the costs admitted, in
    order, and the entry that the next call finds. *)
Fixpoint kept_ledger (cfg : ServiceLimits) (uid service : string)
    (calls : list (float * Clock)) (d : option CostMonitoring)
  : list float * option CostMonitoring :=
  match calls with
  | [] => ([], d)
  | (c, clk) :: rest =>
      if (COST_LIMIT_PER_DAY cfg
          <? match d with Some e => cost e | None => 0 end + c)%float
      then kept_ledger cfg uid service rest d
      else
        let r := kept_ledger cfg uid service rest
                   (Some (cost_entry uid service clk d c)) in
        (c :: r.1, r.2)
  end.

(** Charges made one after the other: the answers of the cost check, and
    the world left. *)
Fixpoint charge {RC CC AC : Type} `{!TTLCacheOps CC CostMonitoring}
    (uid service : string) (calls : list (float * Clock)) (w : World RC CC AC)
  : list (result bool) * World RC CC AC :=
  match calls with
  | [] => ([], w)
  | (c, clk) :: rest =>
      let r := check_cost_limits uid service c clk w in
      let rs := charge uid service rest r.2 in
      (r.1 :: rs.1, rs.2)
  end.

(** The number that a finite binary64 value stands for. *)
Definition exact (x : float) : Q :=
  match Prim2SF x with
  | S754_finite s m e => (inject_Z (if s then Z.neg m else Z.pos m) * 2 ^ e)%Q
  | _ => 0%Q
  end.

(** A charge of 2^-60 dollars, and the charge of scenario B of the
    specification. *)
Definition tiny_charge : float := 0x1p-60%float.
#[warnings="-inexact-float"]
Definition two_cents : float := 0.02%float.

(** The estimate of a GEMINI audio verification (config.py, line 105). *)
#[warnings="-inexact-float"]
Definition five_cents : float := 0.05%float.

(** ** The two halves of a check and its write *)

Section CheckThenWrite.

Context {RC CC AC : Type}.
Context `{!TTLCacheOps RC RateLimitInfo, !TTLCacheOps CC CostMonitoring}.

(** [rate_limiter] up to its decision (lines 124 to 157): the two lookups,
    the comparisons with the limits and the new counts.  [inl] is the
    answer to a request that ends here, [inr] the counts to be written. *)
Definition rate_limiter_check (service : string) (req : Request) (clk : Clock)
  : M (World RC CC AC) (Response + Z * Z) :=
  if negb (truthy (user_id req)) then
    ret (inl (error_response "Authentication required for rate limiting" 401))
  else
    let uid := fmt_opt (user_id req) in
    let now := Py.int (time_time clk) in
    let window_start := now `div` 60 * 60 in
    let hourly_window := now `div` 3600 * 3600 in
    let rate_limit_key := uid +:+ ":" +:+ service +:+ ":" +:+ pretty window_start in
    let hourly_key :=
      uid +:+ ":" +:+ service +:+ ":hourly:" +:+ pretty hourly_window in
    try_except
      (match RATE_LIMITS service with
       | None => raise (mk_exn KeyError service)
       | Some config =>
           do minute_limit <-- rate_limit_cache_get rate_limit_key ;;
           if match minute_limit with
              | Some m => REQUESTS_PER_MINUTE config <=? request_count m
              | None => false
              end
           then
             ret (inl (rate_limit_response "Rate limit exceeded"
                         (60 - (now - window_start))))
           else
             do hourly_limit <-- rate_limit_cache_get hourly_key ;;
             if match hourly_limit with
                | Some h => REQUESTS_PER_HOUR config <=? request_count h
                | None => false
                end
             then
               ret (inl (rate_limit_response "Hourly rate limit exceeded"
                           (3600 - (now - hourly_window))))
             else
               let minute_count :=
                 match minute_limit with
                 | Some m => request_count m + 1
                 | None => 1
                 end in
               let hourly_count :=
                 match hourly_limit with
                 | Some h => request_count h + 1
                 | None => 1
                 end in
               ret (inr (minute_count, hourly_count))
       end)
      (fun e => do r <-- rate_limiter_except service e ;; ret (inl r)).

(** The rest of [rate_limiter] (lines 159 to 175): the two writes, with the
    counts computed before, and the view. *)
Definition rate_limiter_commit (service : string)
    (f : Request -> Clock -> M (World RC CC AC) Response)
    (req : Request) (clk : Clock) (counts : Z * Z)
  : M (World RC CC AC) Response :=
  let uid := fmt_opt (user_id req) in
  let endpoint := path req in
  let now := Py.int (time_time clk) in
  let window_start := now `div` 60 * 60 in
  let hourly_window := now `div` 3600 * 3600 in
  let rate_limit_key := uid +:+ ":" +:+ service +:+ ":" +:+ pretty window_start in
  let hourly_key :=
    uid +:+ ":" +:+ service +:+ ":hourly:" +:+ pretty hourly_window in
  try_except
    (match RATE_LIMITS service with
     | None => raise (mk_exn KeyError service)
     | Some config =>
         do _ <-- rate_limit_cache_set rate_limit_key
               {| rl_user_id := uid; rl_endpoint := endpoint;
                  request_count := counts.1;
                  window_start := window_start;
                  limit := REQUESTS_PER_MINUTE config |} ;;
         do _ <-- rate_limit_cache_set hourly_key
               {| rl_user_id := uid; rl_endpoint := endpoint;
                  request_count := counts.2;
                  window_start := hourly_window;
                  limit := REQUESTS_PER_HOUR config |} ;;
         f req clk
     end)
    (rate_limiter_except service).

(** A request that has made its check goes on. *)
Definition rate_limiter_resume (service : string)
    (f : Request -> Clock -> M (World RC CC AC) Response)
    (req : Request) (clk : Clock) (checked : result (Response + Z * Z))
  : M (World RC CC AC) Response :=
  match checked with
  | Ok (inl resp) => ret resp
  | Ok (inr counts) => rate_limiter_commit service f req clk counts
  | Raise e => raise e
  end.

(** Two requests handled by two threads, one switch of thread falling
    between the check and the writes: both make their check, then both go
    on.  The result is the two answers and the world left. *)
Definition rate_limiter_interleaved (service : string)
    (f : Request -> Clock -> M (World RC CC AC) Response)
    (req_a req_b : Request) (clk : Clock) (w : World RC CC AC)
  : (result Response * result Response) * World RC CC AC :=
  let a := rate_limiter_check service req_a clk w in
  let b := rate_limiter_check service req_b clk a.2 in
  let a' := rate_limiter_resume service f req_a clk a.1 b.2 in
  let b' := rate_limiter_resume service f req_b clk b.1 a'.2 in
  ((a'.1, b'.1), b'.2).

(** [check_cost_limits] up to its decision (lines 193 to 202): [inl] is the
    answer of a call that ends here, [inr] the cost and the count to be
    written. *)
Definition cost_check (user_id service : string) (estimated_cost : float)
    (clk : Clock) : M (World RC CC AC) (bool + float * Z) :=
  let today := strftime_date clk in
  let cost_key := user_id +:+ ":" +:+ service +:+ ":" +:+ today in
  try_except
    (match RATE_LIMITS service with
     | None => raise (mk_exn KeyError service)
     | Some config =>
         do daily_cost <-- cost_cache_get cost_key ;;
         let current_cost :=
           match daily_cost with Some d => cost d | None => 0%float end in
         if (COST_LIMIT_PER_DAY config <? current_cost + estimated_cost)%float
         then ret (inl false)
         else
           let new_cost := (current_cost + estimated_cost)%float in
           let new_count :=
             match daily_cost with
             | Some d => cm_request_count d + 1
             | None => 1
             end in
           ret (inr (new_cost, new_count))
     end)
    (fun e =>
       do _ <-- logging (log_error ("Cost monitoring error: " +:+ exn_msg e)) ;;
       ret (inl true)).

(** The rest of [check_cost_limits] (lines 204 to 212): the write. *)
Definition cost_commit (user_id service : string) (clk : Clock)
    (new : float * Z) : M (World RC CC AC) bool :=
  let today := strftime_date clk in
  let cost_key := user_id +:+ ":" +:+ service +:+ ":" +:+ today in
  try_except
    (do _ <-- cost_cache_set cost_key
           {| cm_user_id := user_id; cm_service := service;
              cost := new.1; cm_request_count := new.2;
              cm_timestamp := Py.int (time_time clk) |} ;;
     ret true)
    (fun e =>
       do _ <-- logging (log_error ("Cost monitoring error: " +:+ exn_msg e)) ;;
       ret true).

Definition cost_resume (user_id service : string) (clk : Clock)
    (checked : result (bool + float * Z)) : M (World RC CC AC) bool :=
  match checked with
  | Ok (inl answer) => ret answer
  | Ok (inr new) => cost_commit user_id service clk new
  | Raise e => raise e
  end.

(** Two charges of one user made by two threads, both checks before both
    writes. *)
Definition cost_interleaved (user_id service : string) (cost_a cost_b : float)
    (clk : Clock) (w : World RC CC AC)
  : (result bool * result bool) * World RC CC AC :=
  let a := cost_check user_id service cost_a clk w in
  let b := cost_check user_id service cost_b clk a.2 in
  let a' := cost_resume user_id service clk a.1 b.2 in
  let b' := cost_resume user_id service clk b.1 a'.2 in
  ((a'.1, b'.1), b'.2).

End CheckThenWrite.

(** Sequential requests of one user within one hour window, in a run in
    which the store keeps the entry of the hour: every request comes with
    what its lookup of its own minute window returns, and finds under the
    key of the hour what the request before left there ([h] for the
    first).  The result is the number of requests admitted and the entry
    of the hour that the next request finds. *)
Fixpoint kept_hour (cfg : ServiceLimits) (uid endpoint : string)
    (calls : list (Clock * option RateLimitInfo)) (h : option RateLimitInfo)
  : nat * option RateLimitInfo :=
  match calls with
  | [] => (0%nat, h)
  | (c, m) :: rest =>
      match decision cfg (now_of c) m h with
      | Admit =>
          let r := kept_hour cfg uid endpoint rest
                     (Some (hour_entry cfg uid endpoint (now_of c) h)) in
          (S r.1, r.2)
      | _ => kept_hour cfg uid endpoint rest h
      end
  end.

(** What the lookups of the minute window return to sequential requests
    served on a world (nothing, where the lookup raises). *)
Fixpoint minutes_found {RC CC AC : Type} `{!TTLCacheOps RC RateLimitInfo}
    (service : string) (f : Request -> Clock -> M (World RC CC AC) Response)
    (req : Request) (cs : list Clock) (w : World RC CC AC)
  : list (Clock * option RateLimitInfo) :=
  match cs with
  | [] => []
  | c :: cs' =>
      (c, match cache_get (rate_limit_cache w)
                  (minute_key (fmt_opt (user_id req)) service (now_of c)) with
          | Ok m => m
          | Raise _ => None
          end)
      :: minutes_found service f req cs' (rate_limiter service f req c w).2
  end.

(** The processor of the source: its results cache, and the three caches
    of the middleware.  [processor t] is a fresh one when the timer of the
    caches reads [t]; [pwhen t pw] is [pw] when it reads [t]. *)
Abbreviation TPWorld :=
  (ProcessorWorld (TTLCache RateLimitInfo) (TTLCache CostMonitoring)
                  (TTLCache AuditLog) (TTLCache CachedResult)).
Definition processor (t : float) : TPWorld :=
  mk_pworld __init__ (mk_cache 10000 3600 t []) (loaded t).
Definition pwhen (t : float) (pw : TPWorld) : TPWorld :=
  mk_pworld (self pw) (at_timer t (results_cache pw)) (when t (middleware pw)).

(** Another stand-in for the hash function. *)
Definition sha256_stub' (s : string) : string := "f" +:+ s.

(** ** Lemmas on strings and keys *)

Lemma append_inv_head (p a b : string) : p +:+ a = p +:+ b -> a = b.
Proof.
  induction p as [|c p IH]; simpl; [done|].
  intros [= H]. by apply IH.
Qed.

Lemma pretty_N_go_not_h (x : N) (s s' : string) :
  s ≠ String "h" s' -> pretty_N_go x s ≠ String "h" s'.
Proof.
  revert s. induction (N.lt_wf_0 x) as [x _ IH]; intros s Hs.
  destruct (decide (x = 0%N)) as [->|Hx].
  - by rewrite pretty_N_go_0.
  - rewrite pretty_N_go_step by lia. apply IH.
    + apply N.div_lt; lia.
    + unfold pretty_N_char. by repeat case_match.
Qed.

Lemma pretty_Z_not_h (z : Z) (s : string) : pretty z ≠ String "h" s.
Proof.
  destruct z as [|p|p]; [done| |done].
  unfold pretty, pretty_Z, pretty, pretty_positive, pretty, pretty_N.
  case_decide; [done|]. by apply pretty_N_go_not_h.
Qed.

Lemma minute_key_ne_hour_key (uid service : string) (now now' : Z) :
  minute_key uid service now ≠ hour_key uid service now'.
Proof.
  unfold minute_key, hour_key. intros H.
  do 3 apply append_inv_head in H.
  change (":hourly:" +:+ pretty (hour_window now'))
    with (":" +:+ String "h" ("ourly:" +:+ pretty (hour_window now'))) in H.
  apply append_inv_head in H.
  by apply pretty_Z_not_h in H.
Qed.

(** Reduces [+:+] on strings that begin with a known character. *)
Ltac app_step :=
  repeat first
    [ progress change (String ?c ?a +:+ ?b) with (String c (a +:+ b))
    | progress change (EmptyString +:+ ?b) with b ].

Lemma append_assoc (a b c : string) : (a +:+ b) +:+ c = a +:+ (b +:+ c).
Proof. induction a as [|x a IH]; app_step; [done|]. by rewrite IH. Qed.

Lemma colon_free_app (a b : string) :
  colon_free (a +:+ b) = colon_free a && colon_free b.
Proof.
  induction a as [|x a IH]; app_step; [done|].
  cbn [colon_free]. rewrite IH. by rewrite andb_assoc.
Qed.

(** A key is cut at its last colon in one way only. *)
Lemma split_last_colon (x x' y y' : string) :
  colon_free y = true -> colon_free y' = true ->
  x +:+ ":" +:+ y = x' +:+ ":" +:+ y' -> x = x' /\ y = y'.
Proof.
  intros Hy Hy'. revert x'. induction x as [|c x IH]; intros [|c' x']; app_step.
  - by intros [= ->].
  - intros [= <- ->]. rewrite colon_free_app in Hy. app_step.
    cbn [colon_free] in Hy. change (Ascii.eqb ":" ":") with true in Hy.
    cbn [negb andb] in Hy. by rewrite andb_false_r in Hy.
  - intros [= -> <-]. rewrite colon_free_app in Hy'. app_step.
    cbn [colon_free] in Hy'. change (Ascii.eqb ":" ":") with true in Hy'.
    cbn [negb andb] in Hy'. by rewrite andb_false_r in Hy'.
  - intros [= -> H]. by destruct (IH _ H) as [-> ->].
Qed.

Lemma pretty_N_go_colon_free (x : N) (s : string) :
  colon_free s = true -> colon_free (pretty_N_go x s) = true.
Proof.
  revert s. induction (N.lt_wf_0 x) as [x _ IH]; intros s Hs.
  destruct (decide (x = 0%N)) as [->|Hx].
  - by rewrite pretty_N_go_0.
  - rewrite pretty_N_go_step by lia. apply IH.
    + apply N.div_lt; lia.
    + unfold pretty_N_char. by repeat case_match.
Qed.

Lemma pretty_Z_colon_free (z : Z) : colon_free (pretty z) = true.
Proof.
  assert (forall p : positive, colon_free (pretty p) = true) as Hp.
  { intros p. unfold pretty, pretty_positive, pretty, pretty_N.
    case_decide; [done|]. by apply pretty_N_go_colon_free. }
  destruct z as [|p|p]; [done|apply Hp|].
  change (pretty (Z.neg p)) with ("-" +:+ pretty p).
  rewrite colon_free_app. by rewrite Hp.
Qed.

(** The names of the services with rate limits. *)
Lemma RATE_LIMITS_names (service : string) (cfg : ServiceLimits) :
  RATE_LIMITS service = Some cfg ->
  colon_free service = true /\ service <> "hourly".
Proof.
  unfold RATE_LIMITS.
  destruct (String.eqb_spec service "GEMINI") as [->|_]; [done|].
  destruct (String.eqb_spec service "TRANSLATE") as [->|_]; [done|].
  by destruct (String.eqb_spec service "SPEECH") as [->|_].
Qed.

(** The keys of two users or two services never coincide. *)
Lemma rate_limit_keys_apart (uid uid' service service' : string) (now now' : Z) :
  colon_free service = true -> service <> "hourly" ->
  colon_free service' = true -> service' <> "hourly" ->
  (uid', service') <> (uid, service) ->
  minute_key uid' service' now' <> minute_key uid service now
  /\ minute_key uid' service' now' <> hour_key uid service now
  /\ hour_key uid' service' now' <> minute_key uid service now
  /\ hour_key uid' service' now' <> hour_key uid service now.
Proof.
  intros Hs Hh Hs' Hh' Hne. unfold minute_key, hour_key.
  change (":hourly:" +:+ pretty (hour_window now))
    with (":" +:+ "hourly" +:+ ":" +:+ pretty (hour_window now)).
  change (":hourly:" +:+ pretty (hour_window now'))
    with (":" +:+ "hourly" +:+ ":" +:+ pretty (hour_window now')).
  assert (forall a b c d : string, a +:+ ":" +:+ b +:+ ":" +:+ c +:+ ":" +:+ d
            = (a +:+ ":" +:+ b +:+ ":" +:+ c) +:+ ":" +:+ d) as Hfour.
  { intros. by rewrite !append_assoc. }
  assert (forall a b c : string, a +:+ ":" +:+ b +:+ ":" +:+ c
            = (a +:+ ":" +:+ b) +:+ ":" +:+ c) as Hthree.
  { intros. by rewrite !append_assoc. }
  split; [|split; [|split]]; intros H.
  - rewrite (Hthree uid' service'), (Hthree uid service) in H.
    apply split_last_colon in H as [H _]; [|apply pretty_Z_colon_free..].
    apply split_last_colon in H as [-> ->]; done.
  - rewrite (Hthree uid' service'), (Hfour uid service "hourly") in H.
    apply split_last_colon in H as [H _]; [|apply pretty_Z_colon_free..].
    rewrite (Hthree uid service "hourly") in H.
    apply split_last_colon in H as [_ ->]; done.
  - rewrite (Hfour uid' service' "hourly"), (Hthree uid service) in H.
    apply split_last_colon in H as [H _]; [|apply pretty_Z_colon_free..].
    rewrite (Hthree uid' service' "hourly") in H.
    apply split_last_colon in H as [_ <-]; done.
  - rewrite (Hfour uid' service' "hourly"), (Hfour uid service "hourly") in H.
    apply split_last_colon in H as [H _]; [|apply pretty_Z_colon_free..].
    rewrite (Hthree uid' service' "hourly"), (Hthree uid service "hourly") in H.
    apply split_last_colon in H as [H _]; [|done..].
    apply split_last_colon in H as [-> ->]; done.
Qed.

(** ** The cache of the source: what is read back *)

Lemma find_item_app {V} (k : string) (l1 l2 : list (TTLItem V)) :
  find_item k (l1 ++ l2)
  = match find_item k l1 with Some it => Some it | None => find_item k l2 end.
Proof.
  induction l1 as [|it l1 IH]; cbn [find_item app]; [done|].
  by destruct (String.eqb (item_key it) k).
Qed.

Lemma find_item_remove_key {V} (k : string) (l : list (TTLItem V)) :
  find_item k (remove_key k l) = None.
Proof.
  unfold remove_key. induction l as [|it l IH]; cbn [List.filter find_item]; [done|].
  destruct (String.eqb (item_key it) k) eqn:E; cbn [negb]; [done|].
  cbn [find_item]. by rewrite E.
Qed.

Lemma find_item_remove_other {V} (k k' : string) (l : list (TTLItem V)) :
  k' <> k -> find_item k' (remove_key k l) = find_item k' l.
Proof.
  intros Hne. unfold remove_key.
  induction l as [|it l IH]; cbn [List.filter find_item]; [done|].
  destruct (String.eqb_spec (item_key it) k) as [Hk|Hk]; cbn [negb find_item].
  - destruct (String.eqb_spec (item_key it) k') as [Hk'|_]; [congruence|done].
  - by rewrite IH.
Qed.

(** A write to a cache with room for one entry succeeds, and the entry is
    read back until the timer has advanced by the time-to-live. *)
Lemma ttl_set_get {V} (c : TTLCache V) (k : string) (v : V) :
  1 <= maxsize c ->
  exists c',
    ttl_set c k v = Ok c'
    /\ maxsize c' = maxsize c /\ ttl c' = ttl c /\ timer c' = timer c
    /\ forall t : float,
         ttl_get (at_timer t c') k
         = if (t <? timer c + ttl c)%float then Some v else None.
Proof.
  intros Hmax. unfold ttl_set.
  destruct (Z.ltb_spec (maxsize c) 1) as [?|_]; [lia|].
  eexists. split; [reflexivity|]. cbn [maxsize ttl timer].
  do 3 (split; [done|]). intros t. unfold ttl_get, at_timer. cbn [entries timer].
  rewrite find_item_app, find_item_remove_key. cbn [find_item item_key].
  rewrite String.eqb_refl. by unfold live.
Qed.

(** What is not in the cache is not read. *)
Lemma ttl_get_absent {V} (c : TTLCache V) (k : string) :
  find_item k (entries c) = None -> ttl_get c k = None.
Proof. unfold ttl_get. by intros ->. Qed.

(** ** The rate limiter on a plain cache *)

Lemma truthy_Some (s : string) : s ≠ "" -> truthy (Some s) = true.
Proof. intros H. simpl. by apply negb_true_iff, String.eqb_neq. Qed.

Lemma RATE_LIMITS_positive (service : string) (cfg : ServiceLimits) :
  RATE_LIMITS service = Some cfg ->
  0 < REQUESTS_PER_MINUTE cfg /\ 0 < REQUESTS_PER_HOUR cfg.
Proof.
  unfold RATE_LIMITS. intros H.
  repeat case_match; simplify_eq/=; lia.
Qed.

(** Unfolds the monadic operations down to the operations on the maps. *)
Ltac run_monad :=
  unfold try_except, bind, ret, raise, outcome, logging,
    rate_limit_cache_get, rate_limit_cache_set,
    cost_cache_get, cost_cache_set, audit_cache_set;
  cbn [cache_get cache_set gmap_cache
       rate_limit_cache cost_cache audit_cache logger].

(** One call, as a function of the spec-level decision. *)
Lemma rate_limiter_step (service : string) (cfg : ServiceLimits)
    (f : Request -> Clock -> M RWorld Response) (req : Request) (uid : string)
    (clk : Clock) (w : RWorld) :
  user_id req = Some uid -> uid ≠ "" -> RATE_LIMITS service = Some cfg ->
  rate_limiter service f req clk w =
    match decision cfg (now_of clk)
            (rate_limit_cache w !! minute_key uid service (now_of clk))
            (rate_limit_cache w !! hour_key uid service (now_of clk)) with
    | RejectMinute r => (Ok (rate_limit_response "Rate limit exceeded" r), w)
    | RejectHour r => (Ok (rate_limit_response "Hourly rate limit exceeded" r), w)
    | Admit =>
        try_except (f req clk) (rate_limiter_except service)
          (with_rate_limit_cache
             (admitted_cache cfg uid service (path req) (now_of clk)
                (rate_limit_cache w)) w)
    end.
Proof.
  intros Hu Hne Hcfg. unfold rate_limiter. rewrite Hu, (truthy_Some _ Hne), Hcfg.
  cbn [negb fmt_opt]. unfold decision, at_limit, with_rate_limit_cache, admitted_cache.
  fold (now_of clk). fold (minute_window (now_of clk)) (hour_window (now_of clk)).
  fold (minute_key uid service (now_of clk)) (hour_key uid service (now_of clk)).
  run_monad.
  destruct (rate_limit_cache w !! minute_key uid service (now_of clk)) as [m|];
    [destruct (Z.leb_spec (REQUESTS_PER_MINUTE cfg) (request_count m));
     [by rewrite bool_decide_eq_true_2 | rewrite bool_decide_eq_false_2 by lia]|];
  (destruct (rate_limit_cache w !! hour_key uid service (now_of clk)) as [h|];
    [destruct (Z.leb_spec (REQUESTS_PER_HOUR cfg) (request_count h));
     [by rewrite bool_decide_eq_true_2 | rewrite bool_decide_eq_false_2 by lia]|]);
  reflexivity.
Qed.

Lemma rate_limiter_except_cache (service : string) (e : exn) (w : RWorld) :
  rate_limit_cache (rate_limiter_except service e w).2 = rate_limit_cache w.
Proof. unfold rate_limiter_except. by destruct (is_KeyError e). Qed.

(** The cache after one call: unchanged on a rejection, both counters
    written on an admission. *)
Lemma rate_limiter_step_cache (service : string) (cfg : ServiceLimits)
    (f : Request -> Clock -> M RWorld Response) (req : Request) (uid : string)
    (clk : Clock) (w : RWorld) :
  user_id req = Some uid -> uid ≠ "" -> RATE_LIMITS service = Some cfg ->
  preserves_rate_limit_cache f ->
  rate_limit_cache (rate_limiter service f req clk w).2 =
    match decision cfg (now_of clk)
            (rate_limit_cache w !! minute_key uid service (now_of clk))
            (rate_limit_cache w !! hour_key uid service (now_of clk)) with
    | Admit => admitted_cache cfg uid service (path req) (now_of clk)
                 (rate_limit_cache w)
    | _ => rate_limit_cache w
    end.
Proof.
  intros Hu Hne Hcfg Hf. rewrite (rate_limiter_step _ cfg _ _ uid) by done.
  destruct (decision _ _ _ _); [done..|].
  unfold try_except.
  match goal with |- context [f req clk ?w'] =>
    specialize (Hf req clk w'); destruct (f req clk w') as [[r|e] w2] end;
    simpl in *; [done|].
  by rewrite rate_limiter_except_cache.
Qed.

Lemma count_at_admitted_minute (cfg : ServiceLimits) (uid service endpoint : string)
    (now : Z) (rc : gmap string RateLimitInfo) :
  count_at (admitted_cache cfg uid service endpoint now rc)
           (minute_key uid service now)
  = incremented (rc !! minute_key uid service now).
Proof.
  unfold count_at, admitted_cache.
  rewrite lookup_insert_ne by (intros H; symmetry in H; by apply minute_key_ne_hour_key in H).
  by rewrite lookup_insert_eq.
Qed.

Lemma count_at_admitted_hour (cfg : ServiceLimits) (uid service endpoint : string)
    (now : Z) (rc : gmap string RateLimitInfo) :
  count_at (admitted_cache cfg uid service endpoint now rc)
           (hour_key uid service now)
  = incremented (rc !! hour_key uid service now).
Proof. unfold count_at, admitted_cache. by rewrite lookup_insert_eq. Qed.

Lemma admitted_cache_other (cfg : ServiceLimits) (uid service endpoint : string)
    (now : Z) (rc : gmap string RateLimitInfo) (k : string) :
  k ≠ minute_key uid service now -> k ≠ hour_key uid service now ->
  admitted_cache cfg uid service endpoint now rc !! k = rc !! k.
Proof.
  intros ??. unfold admitted_cache. by rewrite !lookup_insert_ne.
Qed.

Lemma minute_key_window (uid service : string) (now now' : Z) :
  minute_window now = minute_window now' ->
  minute_key uid service now = minute_key uid service now'.
Proof. unfold minute_key. by intros ->. Qed.

(** Along sequential calls in one minute window, the minute counter grows
    by the number of admitted calls and never passes the limit it was
    under. *)
Lemma rate_limiter_calls_count (service : string) (cfg : ServiceLimits)
    (f : Request -> Clock -> M RWorld Response) (req : Request) (uid : string)
    (now0 : Z) (cs : list Clock) (w : RWorld) :
  user_id req = Some uid -> uid ≠ "" -> RATE_LIMITS service = Some cfg ->
  preserves_rate_limit_cache f ->
  Forall (fun c => minute_window (now_of c) = minute_window now0) cs ->
  let k := minute_key uid service now0 in
  let w' := rate_limiter_calls service f req cs w in
  count_at (rate_limit_cache w') k
    = count_at (rate_limit_cache w) k
      + Z.of_nat (admitted_calls cfg service f req cs w)
  /\ count_at (rate_limit_cache w') k
     <= Z.max (count_at (rate_limit_cache w) k) (REQUESTS_PER_MINUTE cfg).
Proof.
  intros Hu Hne Hcfg Hf Hcs. cbv zeta. revert w.
  induction Hcs as [|c cs Hc _ IH]; intros w;
    cbn [rate_limiter_calls admitted_calls]; [simpl; lia|].
  destruct (RATE_LIMITS_positive _ _ Hcfg) as [Hpos _].
  specialize (IH (rate_limiter service f req c w).2).
  rewrite (rate_limiter_step_cache service cfg f req uid c w) in IH by done.
  rewrite Hu. cbn [fmt_opt].
  rewrite <-(minute_key_window uid service _ _ Hc) in *.
  destruct (decision cfg (now_of c) _ _) eqn:Hd; [lia..|].
  rewrite count_at_admitted_minute in IH.
  unfold decision in Hd. unfold count_at in *.
  destruct (rate_limit_cache w !! minute_key uid service (now_of c)) as [m|];
    simpl in *.
  - case_bool_decide; [done|]. lia.
  - lia.
Qed.

(** ** C1: decision logic of the rate limiter *)

(** ** The rate limiter on any store *)

(** One call, in terms of what its lookups return and its writes give. *)
Lemma rate_limiter_found {RC CC AC : Type} `{!TTLCacheOps RC RateLimitInfo}
    (service : string) (cfg : ServiceLimits)
    (f : Request -> Clock -> M (World RC CC AC) Response) (req : Request)
    (uid : string) (clk : Clock) (w : World RC CC AC)
    (m h : option RateLimitInfo) :
  user_id req = Some uid -> uid ≠ "" -> RATE_LIMITS service = Some cfg ->
  let now := now_of clk in
  let mk := minute_key uid service now in
  let hk := hour_key uid service now in
  cache_get (rate_limit_cache w) mk = Ok m ->
  (at_limit (REQUESTS_PER_MINUTE cfg) m = false ->
   cache_get (rate_limit_cache w) hk = Ok h) ->
  rate_limiter service f req clk w =
    match decision cfg now m h with
    | RejectMinute r =>
        (Ok (mk_response [("error", JStr "Rate limit exceeded");
                          ("retryAfter", JInt r)] 429), w)
    | RejectHour r =>
        (Ok (mk_response [("error", JStr "Hourly rate limit exceeded");
                          ("retryAfter", JInt r)] 429), w)
    | Admit =>
        match cache_set (rate_limit_cache w) mk
                (minute_entry cfg uid (path req) now m) with
        | Raise e => rate_limiter_except service e w
        | Ok c1 =>
            match cache_set c1 hk (hour_entry cfg uid (path req) now h) with
            | Raise e =>
                rate_limiter_except service e
                  (mk_world c1 (cost_cache w) (audit_cache w) (logger w))
            | Ok c2 =>
                try_except (f req clk) (rate_limiter_except service)
                  (mk_world c2 (cost_cache w) (audit_cache w) (logger w))
            end
        end
    end.
Proof.
  intros Hu Hne Hcfg now mk hk Hm Hh.
  unfold rate_limiter. rewrite Hu, (truthy_Some _ Hne), Hcfg.
  cbn [negb fmt_opt]. unfold decision, at_limit in *.
  fold (now_of clk). fold now.
  fold (minute_window now) (hour_window now).
  fold (minute_key uid service now) (hour_key uid service now). fold mk hk.
  unfold try_except at 1, bind at 1, rate_limit_cache_get at 1. rewrite Hm.
  destruct m as [m|]; cbn [request_count].
  - destruct (Z.leb_spec (REQUESTS_PER_MINUTE cfg) (request_count m)) as [Hle|Hlt].
    + rewrite bool_decide_eq_true_2 by done. reflexivity.
    + rewrite bool_decide_eq_false_2 in * by lia.
      unfold bind at 1, rate_limit_cache_get at 1. rewrite (Hh eq_refl).
      destruct h as [h|].
      * destruct (Z.leb_spec (REQUESTS_PER_HOUR cfg) (request_count h)) as [Hle'|Hlt'].
        -- rewrite bool_decide_eq_true_2 by done. reflexivity.
        -- rewrite bool_decide_eq_false_2 by lia.
           unfold bind at 1, rate_limit_cache_set at 1.
           unfold minute_entry, hour_entry, incremented. cbn [request_count].
           destruct (cache_set (rate_limit_cache w) mk _) as [c1|e]; [|reflexivity].
           unfold bind at 1, rate_limit_cache_set at 1.
           cbn [rate_limit_cache cost_cache audit_cache logger].
           destruct (cache_set c1 hk _) as [c2|e]; reflexivity.
      * unfold bind at 1, rate_limit_cache_set at 1.
        unfold minute_entry, hour_entry, incremented. cbn [request_count].
        destruct (cache_set (rate_limit_cache w) mk _) as [c1|e]; [|reflexivity].
        unfold bind at 1, rate_limit_cache_set at 1.
        cbn [rate_limit_cache cost_cache audit_cache logger].
        destruct (cache_set c1 hk _) as [c2|e]; reflexivity.
  - unfold bind at 1, rate_limit_cache_get at 1. rewrite (Hh eq_refl).
    destruct h as [h|].
    * destruct (Z.leb_spec (REQUESTS_PER_HOUR cfg) (request_count h)) as [Hle'|Hlt'].
      -- rewrite bool_decide_eq_true_2 by done. reflexivity.
      -- rewrite bool_decide_eq_false_2 by lia.
         unfold bind at 1, rate_limit_cache_set at 1.
         unfold minute_entry, hour_entry, incremented. cbn [request_count].
         destruct (cache_set (rate_limit_cache w) mk _) as [c1|e]; [|reflexivity].
         unfold bind at 1, rate_limit_cache_set at 1.
         cbn [rate_limit_cache cost_cache audit_cache logger].
         destruct (cache_set c1 hk _) as [c2|e]; reflexivity.
    * unfold bind at 1, rate_limit_cache_set at 1.
      unfold minute_entry, hour_entry, incremented. cbn [request_count].
      destruct (cache_set (rate_limit_cache w) mk _) as [c1|e]; [|reflexivity].
      unfold bind at 1, rate_limit_cache_set at 1.
      cbn [rate_limit_cache cost_cache audit_cache logger].
      destruct (cache_set c1 hk _) as [c2|e]; reflexivity.
Qed.

(** An entry that is there stays there. *)
Lemma kept_entries_some (cfg : ServiceLimits) (uid endpoint : string)
    (cs : list Clock) (m h : option RateLimitInfo) :
  is_Some m -> is_Some (kept_entries cfg uid endpoint cs m h).2.1.
Proof.
  revert m h. induction cs as [|c cs IH]; intros m h Hm; cbn [kept_entries].
  - done.
  - destruct (decision cfg (now_of c) m h); [by apply IH..|].
    cbn [snd]. apply IH. by eexists.
Qed.

(** In such a run the count of the minute window goes up by the number of
    requests admitted, and does not pass the limit it was under. *)
Lemma kept_entries_count (cfg : ServiceLimits) (uid endpoint : string)
    (cs : list Clock) (m h : option RateLimitInfo) :
  0 < REQUESTS_PER_MINUTE cfg ->
  let r := kept_entries cfg uid endpoint cs m h in
  let count := fun e : option RateLimitInfo =>
                 match e with Some e => request_count e | None => 0 end in
  count r.2.1 = count m + Z.of_nat r.1
  /\ count r.2.1 <= Z.max (count m) (REQUESTS_PER_MINUTE cfg)
  /\ ((0 < r.1)%nat -> is_Some r.2.1).
Proof.
  intros Hpos. cbv zeta. revert m h.
  induction cs as [|c cs IH]; intros m h; cbn [kept_entries].
  - cbn [fst snd]. split; [lia|]. split; [lia|]. intros; lia.
  - destruct (decision cfg (now_of c) m h) eqn:Hd; [apply IH..|].
    pose proof (kept_entries_some cfg uid endpoint cs
                  (Some (minute_entry cfg uid endpoint (now_of c) m))
                  (Some (hour_entry cfg uid endpoint (now_of c) h))) as Hsome.
    specialize (IH (Some (minute_entry cfg uid endpoint (now_of c) m))
                   (Some (hour_entry cfg uid endpoint (now_of c) h))).
    cbn [fst snd] in *. destruct IH as (IH1 & IH2 & _).
    cbn [minute_entry request_count] in IH1, IH2.
    unfold decision, at_limit in Hd.
    assert (match m with Some e => request_count e | None => 0 end
            < REQUESTS_PER_MINUTE cfg) as Hlt.
    { destruct m as [e|]; [|done]. case_bool_decide; [done|lia]. }
    assert (incremented m = match m with Some e => request_count e | None => 0 end + 1)
      as Hinc by (by destruct m).
    rewrite Hinc in IH1, IH2. split; [lia|]. split; [lia|]. intros _.
    apply Hsome. by eexists.
Qed.



(** C1, as stated, fails on the caches of the source.  The rate-limit cache
    holds 10000 entries.  60 requests of user123 are admitted in one minute
    window, and a 61st would be rejected; but after one request of each of
    5000 other users in that same minute, whose 10000 new entries push the
    two entries of user123 out of the cache, the next request of user123 in
    the window is admitted. *)
Lemma C1_counterexample :
  let first := serve "GEMINI" test_endpoint (replicate 60 (req0, clk0)) (loaded 1000) in
  let others := serve "GEMINI" test_endpoint (other_users 5000 clk0) first.2 in
  first.1 = replicate 60 (Ok 200)
  /\ (rate_limiter "GEMINI" test_endpoint req0 clk0 first.2).1
     = Ok (mk_response [("error", JStr "Rate limit exceeded");
                        ("retryAfter", JInt 40)] 429)
  /\ others.1 = replicate 5000 (Ok 200)
  /\ (rate_limiter "GEMINI" test_endpoint req0 clk0 others.2).1
     = Ok (mk_response [("message", JStr "success")] 200).
Proof. vm_compute. repeat split. Qed.

(** ** C8: the retry-after value *)

Lemma window_arith (now : Z) :
  0 <= now - minute_window now < 60 /\ 0 <= now - hour_window now < 3600.
Proof. unfold minute_window, hour_window. Z.div_mod_to_equations. lia. Qed.

(** C8, as stated, fails: two rejections a half second apart, in the same
    second of the clock and hence in the same window, report the same
    retry-after value although the second one is later. *)
Lemma C8_counterexample :
  let w := rate_limiter_calls "GEMINI" test_endpoint req0 (replicate 60 clk0) w0 in
  let r1 := (rate_limiter "GEMINI" test_endpoint req0 clk_a w).1 in
  let r2 := (rate_limiter "GEMINI" test_endpoint req0 clk_b w).1 in
  (time_time clk_a <? time_time clk_b)%float = true
  /\ minute_window (now_of clk_a) = minute_window (now_of clk_b)
  /\ r1 = Ok (rate_limit_response "Rate limit exceeded" 40)
  /\ r2 = Ok (rate_limit_response "Rate limit exceeded" 40)
  /\ ~ (exists v1 v2,
          retry_after r1 = Some v1 /\ retry_after r2 = Some v2 /\ v2 < v1).
Proof.
  repeat split; try (vm_compute; reflexivity).
  intros (v1 & v2 & E1 & E2 & Hlt).
  vm_compute in E1, E2. injection E1 as <-. injection E2 as <-. lia.
Qed.

(** C8, amended.  The retry-after value of a rejection is
    [period - (now - window start)] for the whole second [now] that the
    limiter read; it lies in [1, period], hence in [0, period] (60 for the
    minute window, 3600 for the hour window).  For two rejections in the
    same window it is strictly smaller at the later one when their whole
    seconds differ, and the same when they fall in the same second. *)
Theorem C8_retry_after (service : string) (cfg : ServiceLimits)
    (f : Request -> Clock -> M RWorld Response) (req : Request) (uid : string)
    (clk1 clk2 : Clock) (w1 w2 : RWorld) :
  user_id req = Some uid -> uid ≠ "" -> RATE_LIMITS service = Some cfg ->
  let now1 := now_of clk1 in
  let now2 := now_of clk2 in
  let minute_entry w now := rate_limit_cache w !! minute_key uid service now in
  let hour_entry w now := rate_limit_cache w !! hour_key uid service now in
  (at_limit (REQUESTS_PER_MINUTE cfg) (minute_entry w1 now1) = true ->
   at_limit (REQUESTS_PER_MINUTE cfg) (minute_entry w2 now2) = true ->
   exists v1 v2,
     retry_after (rate_limiter service f req clk1 w1).1 = Some v1
     /\ retry_after (rate_limiter service f req clk2 w2).1 = Some v2
     /\ 1 <= v1 <= 60 /\ 1 <= v2 <= 60
     /\ (minute_window now1 = minute_window now2 ->
         (now1 < now2 -> v2 < v1) /\ (now1 = now2 -> v2 = v1)))
  /\ (at_limit (REQUESTS_PER_MINUTE cfg) (minute_entry w1 now1) = false ->
      at_limit (REQUESTS_PER_MINUTE cfg) (minute_entry w2 now2) = false ->
      at_limit (REQUESTS_PER_HOUR cfg) (hour_entry w1 now1) = true ->
      at_limit (REQUESTS_PER_HOUR cfg) (hour_entry w2 now2) = true ->
      exists v1 v2,
        retry_after (rate_limiter service f req clk1 w1).1 = Some v1
        /\ retry_after (rate_limiter service f req clk2 w2).1 = Some v2
        /\ 1 <= v1 <= 3600 /\ 1 <= v2 <= 3600
        /\ (hour_window now1 = hour_window now2 ->
            (now1 < now2 -> v2 < v1) /\ (now1 = now2 -> v2 = v1))).
Proof.
  intros Hu Hne Hcfg now1 now2 minute_entry hour_entry.
  pose proof (rate_limiter_step service cfg f req uid clk1 w1 Hu Hne Hcfg) as H1.
  pose proof (rate_limiter_step service cfg f req uid clk2 w2 Hu Hne Hcfg) as H2.
  unfold decision in H1, H2. fold now1 in H1. fold now2 in H2.
  pose proof (window_arith now1). pose proof (window_arith now2).
  split.
  - intros A1 A2. unfold minute_entry in A1, A2. rewrite A1 in H1. rewrite A2 in H2.
    rewrite H1, H2. do 2 eexists. repeat split; try reflexivity; lia.
  - intros A1 A2 B1 B2. unfold minute_entry, hour_entry in *.
    rewrite A1, B1 in H1. rewrite A2, B2 in H2.
    rewrite H1, H2. do 2 eexists. repeat split; try reflexivity; lia.
Qed.

(** ** C2: the cost governor on a plain ledger *)

(** One call of [check_cost_limits]. *)
Lemma check_cost_limits_step (uid service : string) (cfg : ServiceLimits)
    (c : float) (clk : Clock) (w : RWorld) :
  RATE_LIMITS service = Some cfg ->
  let k := cost_key uid service (strftime_date clk) in
  let cc := cost_cache w in
  check_cost_limits uid service c clk w =
    if (COST_LIMIT_PER_DAY cfg <? ledger_cost cc k + c)%float
    then (Ok false, w)
    else (Ok true,
          mk_world (rate_limit_cache w)
            (<[k := {| cm_user_id := uid; cm_service := service;
                       cost := (ledger_cost cc k + c)%float;
                       cm_request_count := ledger_count cc k + 1;
                       cm_timestamp := now_of clk |}]> cc)
            (audit_cache w) (logger w)).
Proof.
  intros Hcfg k cc. unfold check_cost_limits. rewrite Hcfg.
  fold (cost_key uid service (strftime_date clk)). fold k.
  run_monad. fold cc. unfold ledger_cost, ledger_count.
  destruct (cc !! k) as [d|];
    by destruct (COST_LIMIT_PER_DAY cfg <? _)%float.
Qed.

Lemma ledger_insert (cc : gmap string CostMonitoring) (k : string)
    (d : CostMonitoring) :
  ledger_cost (<[k := d]> cc) k = cost d
  /\ ledger_count (<[k := d]> cc) k = cm_request_count d.
Proof. unfold ledger_cost, ledger_count. by rewrite lookup_insert_eq. Qed.

(** Along sequential calls on one day, the ledger holds the accumulated
    admitted costs and counts the admitted calls. *)
Lemma check_cost_calls_ledger (uid service today : string) (cfg : ServiceLimits)
    (calls : list (float * Clock)) (w : RWorld) :
  RATE_LIMITS service = Some cfg ->
  Forall (fun call => strftime_date call.2 = today) calls ->
  let k := cost_key uid service today in
  let w' := check_cost_calls uid service calls w in
  let admitted := admitted_costs uid service calls w in
  ledger_cost (cost_cache w') k = accumulate (ledger_cost (cost_cache w) k) admitted
  /\ ledger_count (cost_cache w') k
     = ledger_count (cost_cache w) k + Z.of_nat (length admitted)
  /\ (admitted = [] -> cost_cache w' = cost_cache w).
Proof.
  intros Hcfg Hcalls. cbv zeta. revert w.
  induction Hcalls as [|[c clk] calls Hc _ IH]; intros w;
    cbn [check_cost_calls admitted_costs]; [simpl; split; [done|split; [lia|done]]|].
  simpl in Hc. specialize (IH (check_cost_limits uid service c clk w).2).
  rewrite (check_cost_limits_step uid service cfg c clk w Hcfg) in *.
  rewrite Hc in *.
  destruct (COST_LIMIT_PER_DAY cfg <? _)%float; cbn [fst snd] in *; [done|].
  cbn [cost_cache] in IH.
  destruct IH as (IH1 & IH2 & _).
  rewrite (proj1 (ledger_insert _ _ _)) in IH1.
  rewrite (proj2 (ledger_insert _ _ _)) in IH2.
  cbn [cost cm_request_count] in IH1, IH2.
  cbn [app length]. unfold accumulate in *. cbn [fold_left].
  split; [exact IH1|]. split; [lia|done].
Qed.

(** ** The cost check on any store *)

(** One call, in terms of what its lookup returns and its write gives. *)
Lemma check_cost_limits_found {RC CC AC : Type} `{!TTLCacheOps CC CostMonitoring}
    (uid service : string) (cfg : ServiceLimits) (c : float) (clk : Clock)
    (w : World RC CC AC) (d : option CostMonitoring) :
  RATE_LIMITS service = Some cfg ->
  let k := cost_key uid service (strftime_date clk) in
  cache_get (cost_cache w) k = Ok d ->
  check_cost_limits uid service c clk w =
    if (COST_LIMIT_PER_DAY cfg
        <? match d with Some e => cost e | None => 0 end + c)%float
    then (Ok false, w)
    else
      match cache_set (cost_cache w) k (cost_entry uid service clk d c) with
      | Ok c1 =>
          (Ok true, mk_world (rate_limit_cache w) c1 (audit_cache w) (logger w))
      | Raise e =>
          (Ok true,
           mk_world (rate_limit_cache w) (cost_cache w) (audit_cache w)
             (logger w ++ [log_error ("Cost monitoring error: " +:+ exn_msg e)]))
      end.
Proof.
  intros Hcfg k Hd. unfold check_cost_limits. rewrite Hcfg.
  fold (cost_key uid service (strftime_date clk)). fold k.
  unfold try_except, bind at 1, cost_cache_get at 1. rewrite Hd.
  destruct (COST_LIMIT_PER_DAY cfg <? _)%float; [done|].
  unfold bind at 1, cost_cache_set at 1. fold (now_of clk).
  fold (cost_entry uid service clk d c).
  by destruct (cache_set (cost_cache w) k _) as [c1|e].
Qed.

(** In a run that keeps the day's entry, the entry holds the admitted costs
    added one after the other in binary64, and their number. *)
Lemma kept_ledger_sum (cfg : ServiceLimits) (uid service : string)
    (calls : list (float * Clock)) (d : option CostMonitoring) :
  let r := kept_ledger cfg uid service calls d in
  match r.2 with Some e => cost e | None => 0%float end
  = accumulate (match d with Some e => cost e | None => 0%float end) r.1
  /\ match r.2 with Some e => cm_request_count e | None => 0 end
     = match d with Some e => cm_request_count e | None => 0 end
       + Z.of_nat (length r.1).
Proof.
  cbv zeta. revert d. induction calls as [|[c clk] rest IH]; intros d;
    cbn [kept_ledger].
  - cbn [fst snd length]. split; [done|lia].
  - destruct (COST_LIMIT_PER_DAY cfg <? _)%float; [apply IH|].
    cbn [fst snd length].
    destruct (IH (Some (cost_entry uid service clk d c))) as [IH1 IH2].
    rewrite IH1, IH2. cbn [cost_entry cost cm_request_count].
    split; [done|]. destruct d; lia.
Qed.



(** C2, as stated, fails, whether the sum of the claim is taken over the
    numbers that the binary64 costs stand for or over dollars and cents.
    With the cap of 100 dollars of GEMINI, 2000 charges of 0.05 (the
    estimate of an audio verification) are all admitted, although the 1999
    admitted costs plus the last one exceed the cap: the binary64 number
    next to 0.05 lies above it, and the sum of the ledger has been rounded.
    With the cap of 50 dollars of TRANSLATE, of 2500 charges of 0.02
    (scenario B of the specification) the last is refused, although 2500
    times two cents do not exceed 50 dollars.  And after a charge of 50 a
    charge of 2^-60 is admitted, over the cap, and leaves the cumulative
    cost of the ledger at 50 where the claim has it grow by the charge. *)
Lemma C2_counterexample :
  let audio := charge "user123" "GEMINI" (replicate 2000 (five_cents, clk0))
                 (loaded 1000) in
  let cents := charge "user123" "TRANSLATE" (replicate 2500 (two_cents, clk0))
                 (loaded 1000) in
  let run := charge "user123" "TRANSLATE"
               [(50%float, clk0); (tiny_charge, clk0)] (loaded 1000) in
  (RATE_LIMITS "GEMINI" = Some GEMINI
   /\ exact (COST_LIMIT_PER_DAY GEMINI) == 100
   /\ audio.1 = replicate 2000 (Ok true)
   /\ (inject_Z 1999 * exact five_cents + exact five_cents
       > exact (COST_LIMIT_PER_DAY GEMINI))%Q)
  /\ (RATE_LIMITS "TRANSLATE" = Some TRANSLATE
      /\ exact (COST_LIMIT_PER_DAY TRANSLATE) == 50
      /\ cents.1 = (replicate 2499 (Ok true) ++ [Ok false])%list
      /\ (inject_Z 2499 * (2 # 100) + (2 # 100) <= 50)%Q)
  /\ (run.1 = [Ok true; Ok true]
      /\ (exact 50%float + exact tiny_charge
          > exact (COST_LIMIT_PER_DAY TRANSLATE))%Q
      /\ (cost <$> ttl_get (cost_cache run.2)
                     (cost_key "user123" "TRANSLATE" "2023-11-14"))
         = Some 50%float).
Proof. vm_compute. repeat split; congruence. Qed.

Lemma C8_retry_after_witness :
  let w := rate_limiter_calls "GEMINI" test_endpoint req0 (replicate 60 clk0) w0 in
  user_id req0 = Some "user123" /\ "user123" ≠ ""
  /\ RATE_LIMITS "GEMINI" = Some GEMINI
  /\ at_limit 60 (rate_limit_cache w
                    !! minute_key "user123" "GEMINI" (now_of clk0)) = true
  /\ at_limit 60 (rate_limit_cache w
                    !! minute_key "user123" "GEMINI" (now_of clk_c)) = true
  /\ exists v1 v2,
      retry_after (rate_limiter "GEMINI" test_endpoint req0 clk0 w).1 = Some v1
      /\ retry_after (rate_limiter "GEMINI" test_endpoint req0 clk_c w).1 = Some v2
      /\ 1 <= v1 <= 60 /\ 1 <= v2 <= 60
      /\ (minute_window (now_of clk0) = minute_window (now_of clk_c) ->
          (now_of clk0 < now_of clk_c -> v2 < v1)
          /\ (now_of clk0 = now_of clk_c -> v2 = v1)).
Proof.
  cbv zeta.
  assert (at_limit 60
            (rate_limit_cache
               (rate_limiter_calls "GEMINI" test_endpoint req0 (replicate 60 clk0) w0)
             !! minute_key "user123" "GEMINI" (now_of clk0)) = true) as A1
    by (vm_compute; reflexivity).
  assert (at_limit 60
            (rate_limit_cache
               (rate_limiter_calls "GEMINI" test_endpoint req0 (replicate 60 clk0) w0)
             !! minute_key "user123" "GEMINI" (now_of clk_c)) = true) as A2
    by (vm_compute; reflexivity).
  split; [reflexivity|]. split; [discriminate|]. split; [reflexivity|].
  split; [exact A1|]. split; [exact A2|].
  pose proof (C8_retry_after "GEMINI" GEMINI test_endpoint req0 "user123"
                clk0 clk_c
                (rate_limiter_calls "GEMINI" test_endpoint req0 (replicate 60 clk0) w0)
                (rate_limiter_calls "GEMINI" test_endpoint req0 (replicate 60 clk0) w0)
                eq_refl ltac:(discriminate) eq_refl) as [H _].
  exact (H A1 A2).
Defined.

(** ** C7: the cost governor fails open *)

(** C7.  Whatever the ledger store does, [check_cost_limits] returns a
    boolean and never raises.  If the lookup raises, it returns [True]; if
    the update raises (the lookup having succeeded and the cap not being
    exceeded, so that the update is attempted), it returns [True]; in both
    cases the store is left as it was and the failure is logged.  An
    unknown service is admitted in the same way. *)
Theorem C7_cost_governor_fails_open {RC CC AC : Type}
    (ledger : TTLCacheOps CC CostMonitoring)
    (uid service : string) (c : float) (clk : Clock) (w : World RC CC AC) :
  let k := cost_key uid service (strftime_date clk) in
  let r := check_cost_limits uid service c clk w in
  (exists b, r.1 = Ok b)
  /\ (forall cfg e,
        RATE_LIMITS service = Some cfg ->
        cache_get (cost_cache w) k = Raise e ->
        r = (Ok true,
             mk_world (rate_limit_cache w) (cost_cache w) (audit_cache w)
               (logger w ++ [log_error ("Cost monitoring error: " +:+ exn_msg e)])))
  /\ (forall cfg d e,
        RATE_LIMITS service = Some cfg ->
        cache_get (cost_cache w) k = Ok d ->
        let current_cost := match d with Some x => cost x | None => 0%float end in
        (COST_LIMIT_PER_DAY cfg <? current_cost + c)%float = false ->
        (forall entry, cache_set (cost_cache w) k entry = Raise e) ->
        r = (Ok true,
             mk_world (rate_limit_cache w) (cost_cache w) (audit_cache w)
               (logger w ++ [log_error ("Cost monitoring error: " +:+ exn_msg e)])))
  /\ (RATE_LIMITS service = None -> r.1 = Ok true).
Proof.
  intros k r. unfold r, check_cost_limits.
  fold (cost_key uid service (strftime_date clk)). fold k.
  split; [|split; [|split]].
  - destruct (RATE_LIMITS service) as [cfg|]; [|by eexists].
    unfold try_except, bind, ret, cost_cache_get, cost_cache_set, logging.
    destruct (cache_get (cost_cache w) k) as [d|e]; [|by eexists].
    destruct (COST_LIMIT_PER_DAY cfg <? _)%float; [by eexists|].
    destruct (cache_set (cost_cache w) k _); by eexists.
  - intros cfg e -> He.
    unfold try_except, bind, ret, cost_cache_get, logging. by rewrite He.
  - intros cfg d e -> Hd Hcap Hset.
    unfold try_except, bind, ret, cost_cache_get, cost_cache_set, logging.
    rewrite Hd, Hcap, Hset. done.
  - intros ->. done.
Qed.

Lemma C7_cost_governor_fails_open_witness :
  RATE_LIMITS "GEMINI" = Some GEMINI
  /\ cache_get (TTLCacheOps := broken_cache CostMonitoring) (cost_cache w_broken)
       (cost_key "user123" "GEMINI" (strftime_date clk0))
     = Raise (mk_exn OtherError "Cache error")
  /\ check_cost_limits (TTLCacheOps1 := broken_cache CostMonitoring)
       "user123" "GEMINI" 5 clk0 w_broken
     = (Ok true,
        mk_world tt tt tt [log_error "Cost monitoring error: Cache error"])
  /\ (forall entry,
        cache_set (TTLCacheOps := read_only_cache CostMonitoring)
          (cost_cache w_read_only)
          (cost_key "user123" "GEMINI" (strftime_date clk0)) entry
        = Raise (mk_exn OtherError "Cache error"))
  /\ check_cost_limits (TTLCacheOps1 := read_only_cache CostMonitoring)
       "user123" "GEMINI" 5 clk0 w_read_only
     = (Ok true,
        mk_world ∅ ∅ ∅ [log_error "Cost monitoring error: Cache error"]).
Proof.
  split; [reflexivity|]. split; [reflexivity|].
  split.
  { pose proof (C7_cost_governor_fails_open (broken_cache CostMonitoring)
                  "user123" "GEMINI" 5%float clk0 w_broken) as (_ & H & _).
    exact (H GEMINI _ eq_refl eq_refl). }
  split; [reflexivity|].
  pose proof (C7_cost_governor_fails_open (read_only_cache CostMonitoring)
                "user123" "GEMINI" 5%float clk0 w_read_only) as (_ & _ & H & _).
  exact (H GEMINI None _ eq_refl eq_refl eq_refl (fun _ => eq_refl)).
Defined.

(** ** C3: the circuit breaker *)

Lemma record_failures_state (ts : list float) (n threshold : Z)
    (timeout t0 : float) :
  record_failures ts (mk_processor n threshold timeout t0)
  = mk_processor (n + Z.of_nat (length ts)) threshold timeout
      (default t0 (last ts)).
Proof.
  revert n t0. induction ts as [|t ts IH]; intros n t0.
  - simpl. f_equal. lia.
  - cbn [record_failures _handle_circuit_breaker_failure snd
         circuit_breaker_failures circuit_breaker_threshold
         circuit_breaker_timeout].
    rewrite IH. f_equal; [rewrite length_cons; lia|].
    destruct ts as [|t' ts]; [done|]. rewrite last_cons_cons.
    destruct (last (t' :: ts)) eqn:E; [done|]. by apply last_None in E.
Qed.

(** C3.  Take a fresh breaker with a positive threshold and let
    [record_failure] be called at the times [ts], nothing else in between.
    (1) After exactly threshold calls, [is_open] returns [True] (and
        changes nothing) when evaluated before the cooldown has elapsed
        since the last failure; after fewer calls it returns [False].
    (2) After one [record_success], from any state with a positive
        threshold, the failure count is 0 and [is_open] returns [False].
    (3) After threshold calls and a wait that exceeds the cooldown,
        [is_open] returns [False] and, by that evaluation, sets the failure
        count back to 0.
    The wait is [t - last_failure_time] as the code computes it. *)
Theorem C3_circuit_breaker (threshold : Z) (timeout t0 : float)
    (ts : list float) (t : float) (self : AIResultsProcessor) :
  0 < threshold ->
  let fresh := mk_processor 0 threshold timeout t0 in
  let b := record_failures ts fresh in
  let last_t := default t0 (last ts) in
  (Z.of_nat (length ts) = threshold ->
   (timeout <? t - last_t)%float = false ->
   _is_circuit_breaker_open t b = (Ok true, b))
  /\ (Z.of_nat (length ts) < threshold ->
      _is_circuit_breaker_open t b = (Ok false, b))
  /\ (0 < circuit_breaker_threshold self ->
      let s := (reset_circuit_breaker self).2 in
      circuit_breaker_failures s = 0
      /\ _is_circuit_breaker_open t s = (Ok false, s))
  /\ (Z.of_nat (length ts) = threshold ->
      (timeout <? t - last_t)%float = true ->
      _is_circuit_breaker_open t b
      = (Ok false, mk_processor 0 threshold timeout last_t)
      /\ circuit_breaker_failures (_is_circuit_breaker_open t b).2 = 0).
Proof.
  intros Hpos fresh b last_t.
  assert (b = mk_processor (Z.of_nat (length ts)) threshold timeout last_t) as Hb
    by (unfold b, fresh; by rewrite record_failures_state).
  split; [|split; [|split]].
  - intros Hn Hwait. rewrite Hb. unfold _is_circuit_breaker_open.
    cbn [circuit_breaker_failures circuit_breaker_threshold
         circuit_breaker_timeout last_failure_time].
    rewrite Hwait. by destruct (Z.ltb_spec (Z.of_nat (length ts)) threshold); [lia|].
  - intros Hn. rewrite Hb. unfold _is_circuit_breaker_open.
    cbn [circuit_breaker_failures circuit_breaker_threshold].
    by destruct (Z.ltb_spec (Z.of_nat (length ts)) threshold); [|lia].
  - intros Hs s. split; [done|]. unfold _is_circuit_breaker_open, s.
    cbn [reset_circuit_breaker snd circuit_breaker_failures
         circuit_breaker_threshold].
    by destruct (Z.ltb_spec 0 (circuit_breaker_threshold self)); [|lia].
  - intros Hn Hwait. rewrite Hb. unfold _is_circuit_breaker_open.
    cbn [circuit_breaker_failures circuit_breaker_threshold
         circuit_breaker_timeout last_failure_time].
    rewrite Hwait. by destruct (Z.ltb_spec (Z.of_nat (length ts)) threshold); [lia|].
Qed.

Lemma C3_circuit_breaker_witness :
  let ts := [100; 101; 102; 103; 104]%float in
  __init__ = mk_processor 0 5 300 0
  /\ 0 < 5 /\ Z.of_nat (length ts) = 5
  /\ (300 <? 200 - 104)%float = false
  /\ (300 <? 404.5 - 104)%float = true
  /\ _is_circuit_breaker_open 200 (record_failures ts __init__)
     = (Ok true, record_failures ts __init__)
  /\ _is_circuit_breaker_open 404.5 (record_failures ts __init__)
     = (Ok false, mk_processor 0 5 300 104)
  /\ _is_circuit_breaker_open 200
       (reset_circuit_breaker (record_failures ts __init__)).2
     = (Ok false, (reset_circuit_breaker (record_failures ts __init__)).2).
Proof.
  cbv zeta.
  split; [reflexivity|]. split; [lia|]. split; [reflexivity|].
  split; [reflexivity|]. split; [reflexivity|].
  pose proof (C3_circuit_breaker 5 300 0 [100; 101; 102; 103; 104]%float 200
                (record_failures [100; 101; 102; 103; 104]%float __init__)
                ltac:(lia)) as (H1 & _ & H3 & _).
  pose proof (C3_circuit_breaker 5 300 0 [100; 101; 102; 103; 104]%float 404.5
                __init__ ltac:(lia)) as (_ & _ & _ & H4).
  split; [exact (H1 eq_refl eq_refl)|].
  split; [exact (proj1 (H4 eq_refl eq_refl))|].
  apply H3. vm_compute. reflexivity.
Defined.

(** ** C4: outcomes of the identity verifier *)

Lemma log_audit_event_ok {RC CC AC : Type} `{!TTLCacheOps AC AuditLog}
    (ev : AuditLog) (clk : Clock) (w : World RC CC AC) :
  (log_audit_event ev clk w).1 = Ok tt.
Proof.
  unfold log_audit_event, try_except, bind, audit_cache_set, logging.
  by destruct (cache_set (audit_cache w) _ ev).
Qed.

(** What [authenticate_token] answers once an event has been logged. *)
Lemma log_then_ret {RC CC AC : Type} `{!TTLCacheOps AC AuditLog}
    (ev : AuditLog) (clk : Clock) (resp : Response) (w : World RC CC AC) :
  bind (log_audit_event ev clk) (fun _ => ret resp) w
  = (Ok resp, (log_audit_event ev clk w).2).
Proof.
  unfold bind. pose proof (log_audit_event_ok ev clk w) as H.
  destruct (log_audit_event ev clk w) as [[[]|e] w']; simpl in *; by simplify_eq.
Qed.

(** C4.  (1) A request without [Authorization] header is answered 401
    "Access token required".  (2) A request whose header does not start
    with "Bearer " gets the same answer and leaves the same trace as the
    request without the header.  (3) When decoding the token raises
    [ExpiredSignatureError] (PyJWT: signature valid, expiry passed), the
    answer is 403 "Token expired".  (4) When it raises any other
    [InvalidTokenError] (bad signature or structure), the answer is 403
    "Invalid or expired token".  (5) The three answers differ pairwise. *)
Theorem C4_identity_verifier {RC CC AC : Type}
    (audit : TTLCacheOps AC AuditLog)
    (jwt_decode : string -> string -> result Claims)
    (f : Request -> Clock -> M (World RC CC AC) Response)
    (get_secure_config : result string)
    (req : Request) (clk : Clock) (w : World RC CC AC)
    (h tok key : string) (e : exn) :
  let run r := authenticate_token jwt_decode f get_secure_config r clk w in
  let missing := error_response "Access token required" 401 in
  let expired := error_response "Token expired" 403 in
  let invalid := error_response "Invalid or expired token" 403 in
  (authorization req = None -> (run req).1 = Ok missing)
  /\ (authorization req = Some h -> startswith h "Bearer " = false ->
      (run req).1 = Ok missing /\ run req = run (without_authorization req))
  /\ (bearer_token (authorization req) = Some tok -> tok ≠ "" ->
      get_secure_config = Ok key -> jwt_decode tok key = Raise e ->
      exn_cls e = ExpiredSignatureError ->
      (run req).1 = Ok expired)
  /\ (bearer_token (authorization req) = Some tok -> tok ≠ "" ->
      get_secure_config = Ok key -> jwt_decode tok key = Raise e ->
      is_InvalidTokenError e = true -> exn_cls e ≠ ExpiredSignatureError ->
      (run req).1 = Ok invalid)
  /\ missing ≠ expired /\ missing ≠ invalid /\ expired ≠ invalid
  /\ status missing = 401 /\ status expired = 403 /\ status invalid = 403.
Proof.
  intros run missing expired invalid.
  assert (forall r, bearer_token (authorization r) = None ->
            run r = (Ok missing,
                     (log_audit_event
                        (auth_failure_event r clk "Access token required") clk w).2))
    as Hmissing.
  { intros r Hr. unfold run, authenticate_token. rewrite Hr. cbn [truthy negb].
    apply log_then_ret. }
  split; [|split; [|split; [|split]]].
  - intros Hnone. rewrite Hmissing; [done|]. by rewrite Hnone.
  - intros Hh Hpre.
    assert (bearer_token (authorization req) = None) as Hb.
    { rewrite Hh. unfold bearer_token. cbn [fmt_opt]. rewrite Hpre.
      by rewrite andb_false_r. }
    rewrite !Hmissing by done. done.
  - intros Htok Hne Hkey Hdec Hcls.
    unfold run, authenticate_token. rewrite Htok, (truthy_Some _ Hne), Hkey.
    cbn [negb fmt_opt]. unfold try_except, bind at 1, outcome at 1.
    unfold bind at 1, outcome at 1. rewrite Hdec.
    unfold authenticate_except, is_ExpiredSignatureError. rewrite Hcls.
    by rewrite log_then_ret.
  - intros Htok Hne Hkey Hdec Hinv Hcls.
    unfold run, authenticate_token. rewrite Htok, (truthy_Some _ Hne), Hkey.
    cbn [negb fmt_opt]. unfold try_except, bind at 1, outcome at 1.
    unfold bind at 1, outcome at 1. rewrite Hdec.
    unfold authenticate_except. rewrite Hinv.
    assert (is_ExpiredSignatureError e = false) as ->
      by (unfold is_ExpiredSignatureError; by destruct (exn_cls e)).
    by rewrite log_then_ret.
  - repeat split; done.
Qed.

Lemma C4_identity_verifier_witness :
  let run r := authenticate_token jwt_mock test_endpoint (Ok "test-secret") r clk0 w0 in
  (authorization req_malformed = Some "InvalidFormat"
   /\ startswith "InvalidFormat" "Bearer " = false
   /\ (run req_malformed).1 = Ok (error_response "Access token required" 401)
   /\ run req_malformed = run (without_authorization req_malformed))
  /\ (bearer_token (authorization req_expired) = Some "expired-token"
      /\ jwt_mock "expired-token" "test-secret"
         = Raise (mk_exn ExpiredSignatureError "Token expired")
      /\ (run req_expired).1 = Ok (error_response "Token expired" 403))
  /\ (bearer_token (authorization req_invalid) = Some "invalid-token"
      /\ jwt_mock "invalid-token" "test-secret"
         = Raise (mk_exn InvalidSignatureError "Signature verification failed")
      /\ (run req_invalid).1 = Ok (error_response "Invalid or expired token" 403)).
Proof.
  cbv zeta. split; [|split].
  - pose proof (C4_identity_verifier (gmap_cache AuditLog) jwt_mock test_endpoint
                  (Ok "test-secret") req_malformed clk0 w0
                  "InvalidFormat" "" "" (mk_exn OtherError "")) as (_ & H & _).
    split; [reflexivity|]. split; [reflexivity|]. exact (H eq_refl eq_refl).
  - pose proof (C4_identity_verifier (gmap_cache AuditLog) jwt_mock test_endpoint
                  (Ok "test-secret") req_expired clk0 w0
                  "" "expired-token" "test-secret"
                  (mk_exn ExpiredSignatureError "Token expired")) as (_ & _ & H & _).
    split; [reflexivity|]. split; [reflexivity|].
    exact (H eq_refl ltac:(discriminate) eq_refl eq_refl eq_refl).
  - pose proof (C4_identity_verifier (gmap_cache AuditLog) jwt_mock test_endpoint
                  (Ok "test-secret") req_invalid clk0 w0
                  "" "invalid-token" "test-secret"
                  (mk_exn InvalidSignatureError "Signature verification failed"))
      as (_ & _ & _ & H & _).
    split; [reflexivity|]. split; [reflexivity|].
    exact (H eq_refl ltac:(discriminate) eq_refl eq_refl eq_refl ltac:(discriminate)).
Defined.

(** ** C5: audit records *)

Lemma audit_records_same {RC CC AC : Type} (w w' : World RC CC AC) :
  logger w' = logger w -> audit_records w' = audit_records w.
Proof. unfold audit_records. by intros ->. Qed.

Lemma audit_records_snoc_audit {RC CC AC : Type} (w w' : World RC CC AC)
    (ev : AuditLog) :
  logger w' = (logger w ++ [log_audit_event_line ev])%list ->
  audit_records w' = (audit_records w ++ [ev])%list.
Proof. unfold audit_records. intros ->. by rewrite omap_app. Qed.

Lemma audit_records_snoc_error {RC CC AC : Type} (w w' : World RC CC AC)
    (m : string) :
  logger w' = (logger w ++ [log_error m])%list ->
  audit_records w' = audit_records w.
Proof.
  unfold audit_records. intros ->. rewrite omap_app. simpl. by rewrite app_nil_r.
Qed.

(** On a plain audit store, [log_audit_event] stores the event and logs
    one audit line. *)
Lemma log_audit_event_gmap (ev : AuditLog) (clk : Clock) (w : RWorld) :
  log_audit_event ev clk w
  = (Ok tt,
     mk_world (rate_limit_cache w) (cost_cache w)
       (<[fmt_opt (al_user_id ev) +:+ ":" +:+ pretty (now_of clk) := ev]>
          (audit_cache w))
       (logger w ++ [log_audit_event_line ev])).
Proof. reflexivity. Qed.

Lemma log_audit_event_records (ev : AuditLog) (clk : Clock) (w : RWorld) :
  audit_records (log_audit_event ev clk w).2 = (audit_records w ++ [ev])%list.
Proof.
  rewrite log_audit_event_gmap. by apply audit_records_snoc_audit.
Qed.

(** The rate limiter writes no audit record, whatever its stores do. *)
Lemma rate_limiter_no_audit {RC CC AC : Type} `{!TTLCacheOps RC RateLimitInfo}
    (service : string) (f : Request -> Clock -> M (World RC CC AC) Response)
    (req : Request) (clk : Clock) (w : World RC CC AC) :
  adds_no_audit_record f ->
  audit_records (rate_limiter service f req clk w).2 = audit_records w.
Proof.
  intros Hf. unfold rate_limiter.
  destruct (negb (truthy (user_id req))); [done|].
  assert (forall e (w' : World RC CC AC),
            audit_records (rate_limiter_except service e w').2
            = audit_records w') as Hexc.
  { intros e w'. unfold rate_limiter_except.
    destruct (is_KeyError e); by eapply audit_records_snoc_error. }
  unfold try_except.
  destruct (RATE_LIMITS service) as [cfg|]; [|apply Hexc].
  unfold bind, rate_limit_cache_get, rate_limit_cache_set, ret.
  destruct (cache_get (rate_limit_cache w) _) as [m|e]; [|apply Hexc].
  destruct (match m with Some _ => _ | None => false end); [done|].
  destruct (cache_get (rate_limit_cache w) _) as [h|e]; [|apply Hexc].
  destruct (match h with Some _ => _ | None => false end); [done|].
  destruct (cache_set (rate_limit_cache w) _ _) as [c1|e]; [|apply Hexc].
  cbn [rate_limit_cache].
  destruct (cache_set c1 _ _) as [c2|e]; [|rewrite Hexc; by apply audit_records_same].
  match goal with |- context [f req clk ?w'] =>
    pose proof (Hf req clk w') as Hw; destruct (f req clk w') as [[r|e] w2] end;
    cbn [snd] in *; [|rewrite Hexc]; rewrite Hw; by apply audit_records_same.
Qed.

(** The cost check writes no audit record, whatever its store does. *)
Lemma check_cost_limits_no_audit {RC CC AC : Type}
    `{!TTLCacheOps CC CostMonitoring}
    (uid service : string) (c : float) (clk : Clock) (w : World RC CC AC) :
  audit_records (check_cost_limits uid service c clk w).2 = audit_records w.
Proof.
  unfold check_cost_limits, try_except, bind, ret, raise, logging,
    cost_cache_get, cost_cache_set.
  destruct (RATE_LIMITS service) as [cfg|];
    [|by eapply audit_records_snoc_error].
  destruct (cache_get (cost_cache w) _) as [d|e];
    [|by eapply audit_records_snoc_error].
  destruct (COST_LIMIT_PER_DAY cfg <? _)%float; [done|].
  destruct (cache_set (cost_cache w) _ _) as [c1|e];
    [by apply audit_records_same|by eapply audit_records_snoc_error].
Qed.

(** C5, as stated, fails: a rate-limit rejection returns to the caller
    without any audit record, and so does an authentication attempt that
    ends in the service-unavailable answer. *)
Lemma C5_counterexample :
  let w := rate_limiter_calls "GEMINI" test_endpoint req0 (replicate 60 clk0) w0 in
  let r := rate_limiter "GEMINI" test_endpoint req0 clk0 w in
  let a := authenticate_token jwt_mock test_endpoint
             (Raise (mk_exn ValueError
                       "Configuration error: Unable to access required secrets"))
             req_valid clk0 w0 in
  (r.1 = Ok (rate_limit_response "Rate limit exceeded" 40)
   /\ audit_records r.2 = audit_records w
   /\ audit_cache r.2 = audit_cache w
   /\ length (audit_records r.2) ≠ S (length (audit_records w)))
  /\ (a.1 = Ok (error_response "Authentication service unavailable" 500)
      /\ audit_records a.2 = [] /\ audit_cache a.2 = ∅
      /\ length (audit_records a.2) ≠ S (length (audit_records w0))).
Proof. vm_compute. repeat split; (reflexivity || discriminate). Qed.

(** C5, amended.  An authentication attempt that ends with a missing or
    malformed credential, an expired token or an invalid token writes
    exactly one audit record before it returns; a successful one writes
    exactly one before it calls the wrapped view.  The rate limiter and the
    cost check write no audit record. *)
Theorem C5_audit_records
    (jwt_decode : string -> string -> result Claims)
    (f : Request -> Clock -> M RWorld Response)
    (get_secure_config : result string)
    (req : Request) (clk : Clock) (w : RWorld)
    (tok key : string) (e : exn) (decoded : Claims)
    (service uid : string) (c : float) :
  let run := authenticate_token jwt_decode f get_secure_config req clk w in
  let one_more ev w' := audit_records w' = (audit_records w ++ [ev])%list in
  (truthy (bearer_token (authorization req)) = false ->
   one_more (auth_failure_event req clk "Access token required") run.2)
  /\ (bearer_token (authorization req) = Some tok -> tok ≠ "" ->
      get_secure_config = Ok key -> jwt_decode tok key = Raise e ->
      exn_cls e = ExpiredSignatureError ->
      one_more (auth_failure_event req clk "Token expired") run.2)
  /\ (bearer_token (authorization req) = Some tok -> tok ≠ "" ->
      get_secure_config = Ok key -> jwt_decode tok key = Raise e ->
      is_InvalidTokenError e = true -> exn_cls e ≠ ExpiredSignatureError ->
      one_more (auth_failure_event req clk "Invalid token") run.2)
  /\ (bearer_token (authorization req) = Some tok -> tok ≠ "" ->
      get_secure_config = Ok key -> jwt_decode tok key = Ok decoded ->
      let req' := with_identity req decoded in
      let w1 := (log_audit_event (auth_success_event req' clk) clk w).2 in
      one_more (auth_success_event req' clk) w1
      /\ run = try_except (f req' clk) (authenticate_except req clk) w1)
  /\ (adds_no_audit_record f ->
      audit_records (rate_limiter service f req clk w).2 = audit_records w)
  /\ audit_records (check_cost_limits uid service c clk w).2 = audit_records w.
Proof.
  intros run one_more. unfold one_more, run, authenticate_token.
  split; [|split; [|split; [|split; [|split]]]].
  - intros ->. cbn [negb]. rewrite log_then_ret. apply log_audit_event_records.
  - intros -> Hne -> Hdec Hcls. rewrite (truthy_Some _ Hne). cbn [negb fmt_opt].
    unfold try_except, bind at 1, outcome at 1. unfold bind at 1, outcome at 1.
    rewrite Hdec. unfold authenticate_except, is_ExpiredSignatureError.
    rewrite Hcls, log_then_ret. apply log_audit_event_records.
  - intros -> Hne -> Hdec Hinv Hcls. rewrite (truthy_Some _ Hne). cbn [negb fmt_opt].
    unfold try_except, bind at 1, outcome at 1. unfold bind at 1, outcome at 1.
    rewrite Hdec. unfold authenticate_except. rewrite Hinv.
    assert (is_ExpiredSignatureError e = false) as ->
      by (unfold is_ExpiredSignatureError; by destruct (exn_cls e)).
    rewrite log_then_ret. apply log_audit_event_records.
  - intros -> Hne -> Hdec. cbv zeta. split; [apply log_audit_event_records|].
    rewrite (truthy_Some _ Hne). cbn [negb fmt_opt].
    unfold try_except, bind at 1, outcome at 1. unfold bind at 1, outcome at 1.
    rewrite Hdec. unfold bind. by rewrite log_audit_event_gmap.
  - apply rate_limiter_no_audit.
  - apply check_cost_limits_no_audit.
Qed.

Lemma C5_audit_records_witness :
  let run r := authenticate_token jwt_mock test_endpoint (Ok "test-secret") r clk0 w0 in
  (truthy (bearer_token (authorization req_malformed)) = false
   /\ audit_records (run req_malformed).2
      = [auth_failure_event req_malformed clk0 "Access token required"])
  /\ (bearer_token (authorization req_expired) = Some "expired-token"
      /\ audit_records (run req_expired).2
         = [auth_failure_event req_expired clk0 "Token expired"])
  /\ (bearer_token (authorization req_invalid) = Some "invalid-token"
      /\ audit_records (run req_invalid).2
         = [auth_failure_event req_invalid clk0 "Invalid token"])
  /\ (bearer_token (authorization req_valid) = Some "valid-token"
      /\ audit_records (run req_valid).2
         = [auth_success_event
              (with_identity req_valid
                 {| userId := Some "user123"; address := Some "0x123" |}) clk0])
  /\ (adds_no_audit_record (@test_endpoint RWorld)
      /\ audit_records (rate_limiter "GEMINI" test_endpoint req0 clk0 w0).2 = []).
Proof.
  cbv zeta.
  assert (adds_no_audit_record (@test_endpoint RWorld)) as Hf
    by (intros ???; reflexivity).
  pose (cl := {| userId := Some "user123"; address := Some "0x123" |}).
  pose (e1 := mk_exn ExpiredSignatureError "Token expired").
  pose (e2 := mk_exn InvalidSignatureError "Signature verification failed").
  split; [|split; [|split; [|split]]].
  - pose proof (C5_audit_records jwt_mock test_endpoint (Ok "test-secret")
                  req_malformed clk0 w0 "" "" e1 cl "GEMINI" "user123" 0%float)
      as (H & _).
    split; [reflexivity|]. exact (H eq_refl).
  - pose proof (C5_audit_records jwt_mock test_endpoint (Ok "test-secret")
                  req_expired clk0 w0 "expired-token" "test-secret" e1 cl
                  "GEMINI" "user123" 0%float) as (_ & H & _).
    split; [reflexivity|].
    exact (H eq_refl ltac:(discriminate) eq_refl eq_refl eq_refl).
  - pose proof (C5_audit_records jwt_mock test_endpoint (Ok "test-secret")
                  req_invalid clk0 w0 "invalid-token" "test-secret" e2 cl
                  "GEMINI" "user123" 0%float) as (_ & _ & H & _).
    split; [reflexivity|].
    exact (H eq_refl ltac:(discriminate) eq_refl eq_refl eq_refl
             ltac:(discriminate)).
  - pose proof (C5_audit_records jwt_mock test_endpoint (Ok "test-secret")
                  req_valid clk0 w0 "valid-token" "test-secret" e1 cl
                  "GEMINI" "user123" 0%float) as (_ & _ & _ & H & _).
    split; [reflexivity|].
    destruct (H eq_refl ltac:(discriminate) eq_refl eq_refl) as [H1 H2].
    rewrite H2. exact H1.
  - pose proof (C5_audit_records jwt_mock test_endpoint (Ok "test-secret")
                  req0 clk0 w0 "" "" e1 cl "GEMINI" "user123" 0%float)
      as (_ & _ & _ & _ & H & _).
    split; [exact Hf|]. exact (H Hf).
Defined.

(** ** C6 and C10: results processing and the breaker *)

Section ProcessResults.

Context {RC CC AC PC : Type}.
Context `{!TTLCacheOps RC RateLimitInfo, !TTLCacheOps CC CostMonitoring,
          !TTLCacheOps AC AuditLog, !TTLCacheOps PC CachedResult}.
Variable sha256_hexdigest : string -> string.
Variable py_repr : json -> string.

Abbreviation PW' := (ProcessorWorld RC CC AC PC).

(** Logging and auditing leave the processor and the results cache as they
    are, and do not raise. *)
Lemma on_middleware_frame (m : M (World RC CC AC) unit) (pw : PW') :
  (forall w, (m w).1 = Ok tt) ->
  exists mw, on_middleware m pw = (Ok tt, mk_pworld (self pw) (results_cache pw) mw).
Proof.
  intros Hm. unfold on_middleware, zoom. specialize (Hm (middleware pw)).
  destruct (m (middleware pw)) as [r mw]. simpl in Hm. subst r. by eexists.
Qed.

Lemma log_lines_frame (ls : list LogRecord) (pw : PW') :
  exists mw, log_lines ls pw = (Ok tt, mk_pworld (self pw) (results_cache pw) mw).
Proof.
  revert pw. induction ls as [|l ls IH]; intros pw; simpl.
  - destruct pw. by eexists.
  - unfold bind.
    destruct (on_middleware_frame (logging l) pw) as [mw ->]; [done|].
    destruct (IH (mk_pworld (self pw) (results_cache pw) mw)) as [mw' ->].
    by eexists.
Qed.

(** The except clause of [process_results]: one more failure on the
    breaker, stamped with the clock, and the exception raised again. *)
Lemma process_results_except_spec (data : list (string * json))
    (start_time : Z) (clk : Clock) (e : exn) (pw : PW') :
  exists mw,
    process_results_except py_repr data start_time clk e pw
    = (Raise e,
       mk_pworld (_handle_circuit_breaker_failure (time_time clk) (self pw)).2
                 (results_cache pw) mw).
Proof.
  unfold process_results_except, bind at 1. unfold on_self at 1, zoom at 1.
  destruct (_handle_circuit_breaker_failure (time_time clk) (self pw))
    as [[lines|e'] s'] eqn:Hh; [|discriminate Hh]. cbn [snd].
  unfold bind at 1.
  destruct (log_lines_frame lines (mk_pworld s' (results_cache pw) (middleware pw)))
    as [mw ->]. cbn [self results_cache].
  unfold bind.
  match goal with |- context [on_middleware ?m ?w] =>
    destruct (on_middleware_frame m w) as [mw' ->];
      [intros; apply log_audit_event_ok|] end.
  by eexists.
Qed.

(** A call that finds its submission cached returns before the breaker is
    consulted: the processor and the cache are as before, and one line is
    logged. *)
Lemma process_results_cached (data : list (string * json)) (clk0 clk : Clock)
    (pw : PW') (req : AIResultsRequest) (c : CachedResult) :
  AIResultsRequest_init data = Ok req ->
  _validate_verification_results (verification_results req) = Ok tt ->
  cache_get (results_cache pw) ("results_" +:+ py_str py_repr (submission_id req))
  = Ok (Some c) ->
  process_results sha256_hexdigest py_repr data clk0 clk pw
  = (Ok {| submissionId := submission_id req;
           processed := true;
           smartContractTxHash := Some (cr_txHash c);
           cached := true;
           processingTime := millis clk - millis clk0 |},
     logged (log_info ("Returning cached result for submission "
                       +:+ py_str py_repr (submission_id req))) pw).
Proof.
  intros Hreq Hval Hget. unfold process_results.
  unfold try_except, bind at 1, outcome at 1. rewrite Hreq.
  unfold bind at 1, outcome at 1. rewrite Hval.
  unfold bind at 1, results_cache_get at 1. rewrite Hget.
  reflexivity.
Qed.

(** A call whose request data cannot be read or fail validation ends in
    the except clause. *)
Lemma process_results_invalid (data : list (string * json)) (clk0 clk : Clock)
    (pw : PW') (req : AIResultsRequest) (e : exn) :
  AIResultsRequest_init data = Raise e
  \/ (AIResultsRequest_init data = Ok req
      /\ _validate_verification_results (verification_results req) = Raise e) ->
  exists mw,
    process_results sha256_hexdigest py_repr data clk0 clk pw
    = (Raise e,
       mk_pworld (_handle_circuit_breaker_failure (time_time clk) (self pw)).2
                 (results_cache pw) mw).
Proof.
  intros [Hreq|[Hreq Hval]]; unfold process_results;
    unfold try_except, bind at 1, outcome at 1; rewrite Hreq.
  - apply process_results_except_spec.
  - unfold bind at 1, outcome at 1. rewrite Hval.
    apply process_results_except_spec.
Qed.

(** C6, amended.  The failure count and the last-failure timestamp of the
    breaker also change when an invocation stops at input validation,
    before any downstream call: the exception is raised again, the failure
    count is one higher and the timestamp is the current clock reading.
    An invocation that returns a cached result leaves both as they were. *)
Theorem C6_breaker_counts_validation_failures (data : list (string * json))
    (clk0 clk : Clock) (pw : PW') (req : AIResultsRequest) (e : exn)
    (c : CachedResult) :
  let r := process_results sha256_hexdigest py_repr data clk0 clk pw in
  (AIResultsRequest_init data = Raise e
   \/ (AIResultsRequest_init data = Ok req
       /\ _validate_verification_results (verification_results req) = Raise e) ->
   r.1 = Raise e
   /\ circuit_breaker_failures (self r.2)
      = circuit_breaker_failures (self pw) + 1
   /\ last_failure_time (self r.2) = time_time clk
   /\ results_cache r.2 = results_cache pw)
  /\ (AIResultsRequest_init data = Ok req ->
      _validate_verification_results (verification_results req) = Ok tt ->
      cache_get (results_cache pw)
        ("results_" +:+ py_str py_repr (submission_id req)) = Ok (Some c) ->
      circuit_breaker_failures (self r.2) = circuit_breaker_failures (self pw)
      /\ last_failure_time (self r.2) = last_failure_time (self pw)).
Proof.
  intros r. split.
  - intros H. destruct (process_results_invalid data clk0 clk pw req e H) as [mw Hr].
    unfold r. rewrite Hr. done.
  - intros Hreq Hval Hget. unfold r.
    by rewrite (process_results_cached data clk0 clk pw req c).
Qed.

(** C10, amended.  When the request data can be read and its verification
    results pass validation, and the results cache has an entry for the
    submission id, the call returns the cached response (processed and
    cached both true, the cached transaction hash); the breaker is not
    evaluated and not changed, whatever its state, the results cache is not
    changed, and the answer does not depend on the downstream call. *)
Theorem C10_cached_result_bypasses_breaker (data : list (string * json))
    (clk0 clk : Clock) (pw : PW') (req : AIResultsRequest) (c : CachedResult) :
  AIResultsRequest_init data = Ok req ->
  _validate_verification_results (verification_results req) = Ok tt ->
  cache_get (results_cache pw) ("results_" +:+ py_str py_repr (submission_id req))
  = Ok (Some c) ->
  let r := process_results sha256_hexdigest py_repr data clk0 clk pw in
  r.1 = Ok {| submissionId := submission_id req;
              processed := true;
              smartContractTxHash := Some (cr_txHash c);
              cached := true;
              processingTime := millis clk - millis clk0 |}
  /\ self r.2 = self pw
  /\ results_cache r.2 = results_cache pw
  /\ audit_records (middleware r.2) = audit_records (middleware pw)
  /\ (forall sha256_hexdigest' : string -> string,
        process_results sha256_hexdigest' py_repr data clk0 clk pw = r).
Proof.
  intros Hreq Hval Hget r. unfold r.
  rewrite (process_results_cached data clk0 clk pw req c) by done.
  repeat split.
  - unfold audit_records, logged. cbn [snd middleware logger].
    rewrite omap_app. simpl. by rewrite app_nil_r.
  - intros sha'. unfold process_results.
    unfold try_except, bind at 1, outcome at 1. rewrite Hreq.
    unfold bind at 1, outcome at 1. rewrite Hval.
    unfold bind at 1, results_cache_get at 1. rewrite Hget.
    reflexivity.
Qed.

End ProcessResults.

(** C6, as stated, fails: request data with a quality score of 150 is
    turned down by validation, before the breaker is consulted or the
    downstream call attempted, and yet the failure count goes from 0 to 1
    and the last-failure timestamp from 0 to the clock reading. *)
Lemma C6_counterexample :
  let r := process_results sha256_stub repr_stub data_bad clk0 clk0 pw0 in
  r.1 = Raise (mk_exn ValueError
                 "Quality score must be a number between 0 and 100")
  /\ results_cache r.2 = ∅
  /\ circuit_breaker_failures (self pw0) = 0
  /\ circuit_breaker_failures (self r.2) = 1
  /\ last_failure_time (self pw0) = 0%float
  /\ last_failure_time (self r.2) = 1700000000.5%float
  /\ circuit_breaker_failures (self r.2) ≠ circuit_breaker_failures (self pw0).
Proof. vm_compute. repeat split; (reflexivity || discriminate). Qed.

(** What the source does with a request that arrives while the breaker is
    open and within its cooldown: it is turned down without the downstream
    call, and the except clause counts it as a sixth failure and moves the
    last-failure timestamp to the time of this request. *)
Example process_results_while_open :
  let r := process_results sha256_stub repr_stub data_ok clk0 clk_c pw_open in
  _is_circuit_breaker_open (time_time clk_c) (self pw_open)
  = (Ok true, self pw_open)
  /\ r.1 = Raise (mk_exn ValueError
                    "Smart contract integration temporarily unavailable")
  /\ results_cache r.2 = ∅
  /\ circuit_breaker_failures (self pw_open) = 5
  /\ circuit_breaker_failures (self r.2) = 6
  /\ last_failure_time (self pw_open) = 1700000000.5%float
  /\ last_failure_time (self r.2) = 1700000007%float.
Proof. vm_compute. repeat split; reflexivity. Qed.

Lemma C6_breaker_counts_validation_failures_witness :
  let bad := process_results sha256_stub repr_stub data_bad clk0 clk0 pw0 in
  let hit := process_results sha256_stub repr_stub data_ok clk0 clk_c pw_cached_open in
  (exists req,
     AIResultsRequest_init data_bad = Ok req
     /\ _validate_verification_results (verification_results req)
        = Raise (mk_exn ValueError
                   "Quality score must be a number between 0 and 100"))
  /\ circuit_breaker_failures (self bad.2) = circuit_breaker_failures (self pw0) + 1
  /\ last_failure_time (self bad.2) = time_time clk0
  /\ (exists req,
       AIResultsRequest_init data_ok = Ok req
       /\ _validate_verification_results (verification_results req) = Ok tt
       /\ cache_get (results_cache pw_cached_open)
            ("results_" +:+ py_str repr_stub (submission_id req))
          = Ok (Some cached_sub1))
  /\ circuit_breaker_failures (self hit.2)
     = circuit_breaker_failures (self pw_cached_open)
  /\ last_failure_time (self hit.2) = last_failure_time (self pw_cached_open).
Proof.
  cbv zeta.
  pose (req_bad := {| submission_id := JStr "sub1";
                      verification_results :=
                        JDict [("submissionId", JStr "sub1");
                               ("qualityScore", JInt 150);
                               ("languageDetected", JStr "en");
                               ("confidence", JInt 1)];
                      user_token := JStr "user123" |}).
  pose (req_ok := {| submission_id := JStr "sub1";
                     verification_results :=
                       JDict [("submissionId", JStr "sub1");
                              ("qualityScore", JInt 85);
                              ("languageDetected", JStr "en");
                              ("confidence", JInt 1)];
                     user_token := JStr "user123" |}).
  pose (e := mk_exn ValueError "Quality score must be a number between 0 and 100").
  destruct (C6_breaker_counts_validation_failures sha256_stub repr_stub
              data_bad clk0 clk0 pw0 req_bad e cached_sub1) as [H1 _].
  destruct (C6_breaker_counts_validation_failures sha256_stub repr_stub
              data_ok clk0 clk_c pw_cached_open req_ok e cached_sub1) as [_ H2].
  destruct (H1 (or_intror (conj eq_refl eq_refl))) as (_ & Hf & Ht & _).
  destruct (H2 eq_refl eq_refl eq_refl) as [Hf' Ht'].
  split; [exists req_bad; split; reflexivity|].
  split; [exact Hf|]. split; [exact Ht|].
  split; [exists req_ok; repeat split; reflexivity|].
  split; [exact Hf'|exact Ht'].
Defined.

(** C10, as stated, fails: the submission [sub1] has an entry in the
    results cache, but the call is validated first, and with a quality
    score of 150 it raises instead of returning the cached response, and
    counts a failure on the breaker. *)
Lemma C10_counterexample :
  let r := process_results sha256_stub repr_stub data_bad clk0 clk0 pw_cached in
  dict_get data_bad "submissionId" = Some (JStr "sub1")
  /\ results_cache pw_cached !! ("results_" +:+ "sub1") = Some cached_sub1
  /\ r.1 = Raise (mk_exn ValueError
                    "Quality score must be a number between 0 and 100")
  /\ circuit_breaker_failures (self pw_cached) = 0
  /\ circuit_breaker_failures (self r.2) = 1.
Proof. vm_compute. repeat split; reflexivity. Qed.

Lemma C10_cached_result_bypasses_breaker_witness :
  let r := process_results sha256_stub repr_stub data_ok clk0 clk_c pw_cached_open in
  (exists req,
     AIResultsRequest_init data_ok = Ok req
     /\ _validate_verification_results (verification_results req) = Ok tt
     /\ cache_get (results_cache pw_cached_open)
          ("results_" +:+ py_str repr_stub (submission_id req))
        = Ok (Some cached_sub1))
  /\ _is_circuit_breaker_open (time_time clk_c) (self pw_cached_open)
     = (Ok true, self pw_cached_open)
  /\ r.1 = Ok {| submissionId := JStr "sub1"; processed := true;
                 smartContractTxHash := Some "0xabc"; cached := true;
                 processingTime := millis clk_c - millis clk0 |}
  /\ self r.2 = self pw_cached_open
  /\ results_cache r.2 = results_cache pw_cached_open.
Proof.
  cbv zeta.
  pose (req_ok := {| submission_id := JStr "sub1";
                     verification_results :=
                       JDict [("submissionId", JStr "sub1");
                              ("qualityScore", JInt 85);
                              ("languageDetected", JStr "en");
                              ("confidence", JInt 1)];
                     user_token := JStr "user123" |}).
  pose proof (C10_cached_result_bypasses_breaker sha256_stub repr_stub
                data_ok clk0 clk_c pw_cached_open req_ok cached_sub1) as H.
  destruct (H eq_refl eq_refl eq_refl) as (Hr & Hs & Hc & _).
  split; [exists req_ok; repeat split; reflexivity|].
  split; [vm_compute; reflexivity|].
  split; [exact Hr|]. split; [exact Hs|exact Hc].
Defined.

(** ** C9: the check and its write are two steps *)

(** Made one after the other, the two halves are [rate_limiter]. *)
Lemma rate_limiter_split {RC CC AC : Type} `{!TTLCacheOps RC RateLimitInfo}
    (service : string) (f : Request -> Clock -> M (World RC CC AC) Response)
    (req : Request) (clk : Clock) (w : World RC CC AC) :
  rate_limiter service f req clk w
  = let a := rate_limiter_check service req clk w in
    rate_limiter_resume service f req clk a.1 a.2.
Proof.
  unfold rate_limiter, rate_limiter_check, rate_limiter_resume,
    rate_limiter_commit.
  cbv [try_except bind ret raise rate_limit_cache_get rate_limiter_except
       logging fst snd].
  repeat case_match; simplify_eq; first [reflexivity | congruence].
Qed.

Lemma check_cost_limits_split {RC CC AC : Type} `{!TTLCacheOps CC CostMonitoring}
    (uid service : string) (c : float) (clk : Clock) (w : World RC CC AC) :
  check_cost_limits uid service c clk w
  = let a := cost_check uid service c clk w in
    cost_resume uid service clk a.1 a.2.
Proof.
  unfold check_cost_limits, cost_check, cost_resume, cost_commit.
  cbv [try_except bind ret raise cost_cache_get logging fst snd].
  repeat case_match; simplify_eq; first [reflexivity | congruence].
Qed.

(** C9.  The check and the write of the rate limiter, and of the cost
    check, are two steps with nothing to hold them together: when a second
    request makes its check between the check and the writes of a first
    one, both find the count of 59 under the limit of 60 and both are
    admitted, so that 61 requests pass in the window while the counter
    stands at 60; served one after the other, the second is rejected.
    Likewise two charges of 10 dollars that both find 40 of the 50 dollars
    spent are both admitted, and the ledger stands at 50 where 60 were
    admitted. *)
Theorem C9_check_and_write_interleaved :
  let w59 := serve "GEMINI" test_endpoint (replicate 59 (req0, clk0)) (loaded 1000) in
  let mk := minute_key "user123" "GEMINI" (now_of clk0) in
  let both := rate_limiter_interleaved "GEMINI" test_endpoint req0 req0 clk0 w59.2 in
  let w40 := charge "user123" "TRANSLATE" [(40%float, clk0)] (loaded 1000) in
  let ck := cost_key "user123" "TRANSLATE" (strftime_date clk0) in
  let paid := cost_interleaved "user123" "TRANSLATE" 10 10 clk0 w40.2 in
  (REQUESTS_PER_MINUTE GEMINI = 60
   /\ w59.1 = replicate 59 (Ok 200)
   /\ (request_count <$> ttl_get (rate_limit_cache w59.2) mk) = Some 59
   /\ (rate_limiter_check "GEMINI" req0 clk0 w59.2).1 = Ok (inr (60, 60))
   /\ both.1 = (Ok (mk_response [("message", JStr "success")] 200),
                Ok (mk_response [("message", JStr "success")] 200))
   /\ (request_count <$> ttl_get (rate_limit_cache both.2) mk) = Some 60
   /\ (serve "GEMINI" test_endpoint [(req0, clk0); (req0, clk0)] w59.2).1
      = [Ok 200; Ok 429])
  /\ (COST_LIMIT_PER_DAY TRANSLATE = 50%float
      /\ w40.1 = [Ok true]
      /\ (cost <$> ttl_get (cost_cache w40.2) ck) = Some 40%float
      /\ (cost_check "user123" "TRANSLATE" 10 clk0 w40.2).1 = Ok (inr (50%float, 2))
      /\ paid.1 = (Ok true, Ok true)
      /\ (cost <$> ttl_get (cost_cache paid.2) ck) = Some 50%float
      /\ (charge "user123" "TRANSLATE" [(10%float, clk0); (10%float, clk0)]
            w40.2).1 = [Ok true; Ok false]).
Proof. vm_compute. repeat split. Qed.

(** ** Further properties of the rate limiter *)

(** X1.  Without an identity on the request ([user_id] missing or empty)
    the limiter answers 401 and does nothing else; for a service without
    configured limits it answers 500 "Service configuration error", logs
    the error and leaves every cache as it was.  In neither case is the
    view run, whatever the stores and the view are. *)
Theorem X1_rate_limiter_guards {RC CC AC : Type}
    `{!TTLCacheOps RC RateLimitInfo} (service : string)
    (f g : Request -> Clock -> M (World RC CC AC) Response)
    (req : Request) (clk : Clock) (w : World RC CC AC) :
  (truthy (user_id req) = false ->
   rate_limiter service f req clk w
   = (Ok (error_response "Authentication required for rate limiting" 401), w))
  /\ (truthy (user_id req) = true -> RATE_LIMITS service = None ->
      rate_limiter service f req clk w
      = (Ok (error_response "Service configuration error" 500),
         mk_world (rate_limit_cache w) (cost_cache w) (audit_cache w)
           (logger w ++ [log_error ("Unknown service for rate limiting: "
                                    +:+ service)])))
  /\ (truthy (user_id req) = false \/ RATE_LIMITS service = None ->
      rate_limiter service f req clk w = rate_limiter service g req clk w).
Proof.
  split; [|split].
  - intros H. unfold rate_limiter. by rewrite H.
  - intros H Hcfg. unfold rate_limiter. rewrite H, Hcfg. reflexivity.
  - intros [H|H]; unfold rate_limiter.
    + by rewrite H.
    + rewrite H. by destruct (negb (truthy (user_id req))).
Qed.

Lemma X1_rate_limiter_guards_witness :
  truthy (user_id req_valid) = false
  /\ rate_limiter "GEMINI" test_endpoint req_valid clk0 w0
     = (Ok (error_response "Authentication required for rate limiting" 401), w0)
  /\ truthy (user_id req0) = true /\ RATE_LIMITS "UNKNOWN_SERVICE" = None
  /\ rate_limiter "UNKNOWN_SERVICE" test_endpoint req0 clk0 w0
     = (Ok (error_response "Service configuration error" 500),
        mk_world ∅ ∅ ∅
          [log_error "Unknown service for rate limiting: UNKNOWN_SERVICE"]).
Proof.
  pose proof (X1_rate_limiter_guards "GEMINI" test_endpoint test_endpoint
                req_valid clk0 w0) as (H1 & _).
  pose proof (X1_rate_limiter_guards "UNKNOWN_SERVICE" test_endpoint test_endpoint
                req0 clk0 w0) as (_ & H2 & _).
  split; [reflexivity|]. split; [exact (H1 eq_refl)|].
  split; [reflexivity|]. split; [reflexivity|]. exact (H2 eq_refl eq_refl).
Defined.

(** The answer of the except clauses is always a 500. *)
Lemma rate_limiter_except_ok {RC CC AC : Type} (service : string) (e : exn)
    (w : World RC CC AC) :
  exists resp, (rate_limiter_except service e w).1 = Ok resp /\ status resp = 500.
Proof.
  unfold rate_limiter_except. destruct (is_KeyError e); by eexists.
Qed.

(** X2.  The limiter never raises: whatever the cache operations and the
    view do, it returns a response.  It fails closed: when the lookup of
    the minute window raises, or the lookups succeed under the limits and
    the write of the minute counter raises, the answer is a 500 and the
    view is not run. *)
Theorem X2_rate_limiter_fails_closed {RC CC AC : Type}
    `{!TTLCacheOps RC RateLimitInfo} (service : string) (cfg : ServiceLimits)
    (f g : Request -> Clock -> M (World RC CC AC) Response)
    (req : Request) (uid : string) (clk : Clock) (w : World RC CC AC) (e : exn)
    (m h : option RateLimitInfo) :
  let r := rate_limiter service f req clk w in
  let mk := minute_key uid service (now_of clk) in
  let hk := hour_key uid service (now_of clk) in
  (exists resp, r.1 = Ok resp)
  /\ (user_id req = Some uid -> uid ≠ "" -> RATE_LIMITS service = Some cfg ->
      cache_get (rate_limit_cache w) mk = Raise e ->
      r = rate_limiter_except service e w
      /\ r = rate_limiter service g req clk w
      /\ exists resp, r.1 = Ok resp /\ status resp = 500)
  /\ (user_id req = Some uid -> uid ≠ "" -> RATE_LIMITS service = Some cfg ->
      cache_get (rate_limit_cache w) mk = Ok m ->
      cache_get (rate_limit_cache w) hk = Ok h ->
      at_limit (REQUESTS_PER_MINUTE cfg) m = false ->
      at_limit (REQUESTS_PER_HOUR cfg) h = false ->
      (forall v, cache_set (rate_limit_cache w) mk v = Raise e) ->
      r = rate_limiter_except service e w
      /\ r = rate_limiter service g req clk w
      /\ exists resp, r.1 = Ok resp /\ status resp = 500).
Proof.
  intros r mk hk. split; [|split].
  - unfold r, rate_limiter.
    destruct (negb (truthy (user_id req))); [by eexists|].
    assert (forall e' (w' : World RC CC AC),
              exists resp, (rate_limiter_except service e' w').1 = Ok resp) as Hexc.
    { intros e' w'. destruct (rate_limiter_except_ok service e' w') as (resp & H & _).
      by eexists. }
    unfold try_except.
    destruct (RATE_LIMITS service) as [cfg'|]; [|apply Hexc].
    unfold bind, rate_limit_cache_get, rate_limit_cache_set, ret.
    destruct (cache_get (rate_limit_cache w) _) as [m'|e']; [|apply Hexc].
    destruct (match m' with Some _ => _ | None => false end); [by eexists|].
    destruct (cache_get (rate_limit_cache w) _) as [h'|e']; [|apply Hexc].
    destruct (match h' with Some _ => _ | None => false end); [by eexists|].
    destruct (cache_set (rate_limit_cache w) _ _) as [c1|e']; [|apply Hexc].
    cbn [rate_limit_cache].
    destruct (cache_set c1 _ _) as [c2|e']; [|apply Hexc].
    match goal with |- context [f req clk ?w'] =>
      destruct (f req clk w') as [[resp|e'] w2] end; [by eexists|apply Hexc].
  - intros Hu Hne Hcfg Hget.
    assert (forall f', rate_limiter service f' req clk w
                       = rate_limiter_except service e w) as Hany.
    { intros f'. unfold rate_limiter.
      rewrite Hu, (truthy_Some _ Hne), Hcfg. cbn [negb fmt_opt].
      fold (now_of clk). fold (minute_window (now_of clk)).
      fold (minute_key uid service (now_of clk)). fold mk.
      unfold try_except, bind at 1, rate_limit_cache_get at 1. by rewrite Hget. }
    unfold r. rewrite !Hany. split; [done|]. split; [done|].
    apply rate_limiter_except_ok.
  - intros Hu Hne Hcfg Hm Hh Hml Hhl Hset.
    assert (forall f', rate_limiter service f' req clk w
                       = rate_limiter_except service e w) as Hany.
    { intros f'. unfold rate_limiter.
      rewrite Hu, (truthy_Some _ Hne), Hcfg. cbn [negb fmt_opt].
      fold (now_of clk).
      fold (minute_window (now_of clk)) (hour_window (now_of clk)).
      fold (minute_key uid service (now_of clk)) (hour_key uid service (now_of clk)).
      fold mk hk.
      unfold try_except, bind at 1, rate_limit_cache_get at 1. rewrite Hm.
      assert ((match m with
               | Some m0 => REQUESTS_PER_MINUTE cfg <=? request_count m0
               | None => false
               end) = false) as ->.
      { destruct m as [m0|]; [|done]. simpl in Hml.
        apply bool_decide_eq_false in Hml. apply Z.leb_gt. lia. }
      unfold bind at 1, rate_limit_cache_get at 1. rewrite Hh.
      assert ((match h with
               | Some h0 => REQUESTS_PER_HOUR cfg <=? request_count h0
               | None => false
               end) = false) as ->.
      { destruct h as [h0|]; [|done]. simpl in Hhl.
        apply bool_decide_eq_false in Hhl. apply Z.leb_gt. lia. }
      unfold bind at 1, rate_limit_cache_set at 1. by rewrite Hset. }
    unfold r. rewrite !Hany. split; [done|]. split; [done|].
    apply rate_limiter_except_ok.
Qed.

Lemma X2_rate_limiter_fails_closed_witness :
  user_id req0 = Some "user123" /\ "user123" ≠ ""
  /\ RATE_LIMITS "GEMINI" = Some GEMINI
  /\ cache_get (TTLCacheOps := broken_cache RateLimitInfo)
       (rate_limit_cache w_broken)
       (minute_key "user123" "GEMINI" (now_of clk0))
     = Raise (mk_exn OtherError "Cache error")
  /\ rate_limiter (TTLCacheOps0 := broken_cache RateLimitInfo)
       "GEMINI" test_endpoint req0 clk0 w_broken
     = (Ok (error_response "Rate limiting service unavailable" 500),
        mk_world tt tt tt [log_error "Rate limiting error: Cache error"])
  /\ (forall v,
        cache_set (TTLCacheOps := read_only_cache RateLimitInfo)
          (rate_limit_cache w_read_only)
          (minute_key "user123" "GEMINI" (now_of clk0)) v
        = Raise (mk_exn OtherError "Cache error"))
  /\ rate_limiter (TTLCacheOps0 := read_only_cache RateLimitInfo)
       "GEMINI" test_endpoint req0 clk0 w_read_only
     = (Ok (error_response "Rate limiting service unavailable" 500),
        mk_world ∅ ∅ ∅ [log_error "Rate limiting error: Cache error"]).
Proof.
  pose (e := mk_exn OtherError "Cache error").
  split; [reflexivity|]. split; [discriminate|]. split; [reflexivity|].
  split; [reflexivity|]. split.
  { pose proof (@X2_rate_limiter_fails_closed unit unit unit
                  (broken_cache RateLimitInfo) "GEMINI" GEMINI test_endpoint
                  test_endpoint req0 "user123" clk0 w_broken e None None)
      as (_ & H & _).
    exact (proj1 (H eq_refl ltac:(discriminate) eq_refl eq_refl)). }
  split; [reflexivity|].
  pose proof (@X2_rate_limiter_fails_closed _ _ _
                (read_only_cache RateLimitInfo) "GEMINI" GEMINI test_endpoint
                test_endpoint req0 "user123" clk0 w_read_only e None None)
    as (_ & _ & H).
  exact (proj1 (H eq_refl ltac:(discriminate) eq_refl eq_refl eq_refl
                  eq_refl eq_refl (fun _ => eq_refl))).
Defined.

(** X3.  When the limiter admits a request and the view then raises, the
    limiter's own except clauses answer: a 500, worded "Service
    configuration error" if the exception is a [KeyError] and "Rate limiting
    service unavailable" otherwise.  The request has been counted all the
    same: with a view that leaves the rate-limit cache alone, both windows
    stand one higher. *)
Theorem X3_rate_limiter_view_exception (service : string) (cfg : ServiceLimits)
    (f : Request -> Clock -> M RWorld Response) (req : Request) (uid : string)
    (clk : Clock) (w w2 : RWorld) (e : exn) :
  user_id req = Some uid -> uid ≠ "" -> RATE_LIMITS service = Some cfg ->
  let now := now_of clk in
  let rc := rate_limit_cache w in
  let mk := minute_key uid service now in
  let hk := hour_key uid service now in
  let w' := with_rate_limit_cache
              (admitted_cache cfg uid service (path req) now rc) w in
  let r := rate_limiter service f req clk w in
  decision cfg now (rc !! mk) (rc !! hk) = Admit ->
  f req clk w' = (Raise e, w2) ->
  r.1 = Ok (error_response
              (if is_KeyError e then "Service configuration error"
               else "Rate limiting service unavailable") 500)
  /\ (rate_limit_cache w2 = rate_limit_cache w' ->
      count_at (rate_limit_cache r.2) mk = count_at rc mk + 1
      /\ count_at (rate_limit_cache r.2) hk = count_at rc hk + 1).
Proof.
  intros Hu Hne Hcfg now rc mk hk w' r Hd Hf.
  unfold r. rewrite (rate_limiter_step service cfg f req uid clk w Hu Hne Hcfg).
  fold now rc mk hk. rewrite Hd. fold w'. unfold try_except. rewrite Hf.
  split.
  - unfold rate_limiter_except. by destruct (is_KeyError e).
  - intros Hrc. rewrite rate_limiter_except_cache, Hrc. unfold w'.
    cbn [with_rate_limit_cache rate_limit_cache].
    assert (count_at (admitted_cache cfg uid service (path req) now rc) mk
            = incremented (rc !! mk)) as -> by apply count_at_admitted_minute.
    assert (count_at (admitted_cache cfg uid service (path req) now rc) hk
            = incremented (rc !! hk)) as -> by apply count_at_admitted_hour.
    unfold count_at, incremented. by destruct (rc !! mk), (rc !! hk).
Qed.

Lemma X3_rate_limiter_view_exception_witness :
  let r := rate_limiter "TRANSLATE" failing_view req0 clk0 w0 in
  user_id req0 = Some "user123" /\ "user123" ≠ ""
  /\ RATE_LIMITS "TRANSLATE" = Some TRANSLATE
  /\ r.1 = Ok (error_response "Service configuration error" 500)
  /\ count_at (rate_limit_cache r.2)
       (minute_key "user123" "TRANSLATE" (now_of clk0)) = 1
  /\ count_at (rate_limit_cache r.2)
       (hour_key "user123" "TRANSLATE" (now_of clk0)) = 1.
Proof.
  cbv zeta.
  pose proof (X3_rate_limiter_view_exception "TRANSLATE" TRANSLATE failing_view
                req0 "user123" clk0 w0 _ (mk_exn KeyError "text")
                eq_refl ltac:(discriminate) eq_refl eq_refl eq_refl) as [H1 H2].
  split; [reflexivity|]. split; [discriminate|]. split; [reflexivity|].
  split; [exact H1|]. exact (H2 eq_refl).
Defined.

Lemma minute_key_inj (uid service : string) (now now' : Z) :
  minute_key uid service now = minute_key uid service now' ->
  minute_window now = minute_window now'.
Proof.
  unfold minute_key. intros H. do 4 apply append_inv_head in H.
  by apply (inj pretty) in H.
Qed.

Lemma hour_key_inj (uid service : string) (now now' : Z) :
  hour_key uid service now = hour_key uid service now' ->
  hour_window now = hour_window now'.
Proof.
  unfold hour_key. intros H. do 4 apply append_inv_head in H.
  by apply (inj pretty) in H.
Qed.

Lemma hour_key_window (uid service : string) (now now' : Z) :
  hour_window now = hour_window now' ->
  hour_key uid service now = hour_key uid service now'.
Proof. unfold hour_key. by intros ->. Qed.

(** Sequential calls leave alone every entry that is the key of none of
    them. *)
Lemma rate_limiter_calls_other (service : string) (cfg : ServiceLimits)
    (f : Request -> Clock -> M RWorld Response) (req : Request) (uid : string)
    (k : string) (cs : list Clock) (w : RWorld) :
  user_id req = Some uid -> uid ≠ "" -> RATE_LIMITS service = Some cfg ->
  preserves_rate_limit_cache f ->
  Forall (fun c => k ≠ minute_key uid service (now_of c)
                   /\ k ≠ hour_key uid service (now_of c)) cs ->
  rate_limit_cache (rate_limiter_calls service f req cs w) !! k
  = rate_limit_cache w !! k.
Proof.
  intros Hu Hne Hcfg Hf Hcs. revert w.
  induction Hcs as [|c cs [Hm Hh] _ IH]; intros w;
    cbn [rate_limiter_calls]; [done|].
  rewrite IH, (rate_limiter_step_cache service cfg f req uid c w) by done.
  destruct (decision cfg (now_of c) _ _); [done..|].
  by apply admitted_cache_other.
Qed.



(** Along sequential calls in one hour window, the hour counter grows by
    the number of admitted calls and never passes the limit it was under. *)
Lemma rate_limiter_calls_hour_count (service : string) (cfg : ServiceLimits)
    (f : Request -> Clock -> M RWorld Response) (req : Request) (uid : string)
    (now0 : Z) (cs : list Clock) (w : RWorld) :
  user_id req = Some uid -> uid ≠ "" -> RATE_LIMITS service = Some cfg ->
  preserves_rate_limit_cache f ->
  Forall (fun c => hour_window (now_of c) = hour_window now0) cs ->
  let k := hour_key uid service now0 in
  let w' := rate_limiter_calls service f req cs w in
  count_at (rate_limit_cache w') k
    = count_at (rate_limit_cache w) k
      + Z.of_nat (admitted_calls cfg service f req cs w)
  /\ count_at (rate_limit_cache w') k
     <= Z.max (count_at (rate_limit_cache w) k) (REQUESTS_PER_HOUR cfg).
Proof.
  intros Hu Hne Hcfg Hf Hcs. cbv zeta. revert w.
  induction Hcs as [|c cs Hc _ IH]; intros w;
    cbn [rate_limiter_calls admitted_calls]; [simpl; lia|].
  destruct (RATE_LIMITS_positive _ _ Hcfg) as [_ Hpos].
  specialize (IH (rate_limiter service f req c w).2).
  rewrite (rate_limiter_step_cache service cfg f req uid c w) in IH by done.
  rewrite Hu. cbn [fmt_opt].
  rewrite <-(hour_key_window uid service _ _ Hc) in *.
  destruct (decision cfg (now_of c) _ _) eqn:Hd; [lia..|].
  rewrite count_at_admitted_hour in IH.
  unfold decision in Hd. unfold count_at in *.
  destruct (at_limit (REQUESTS_PER_MINUTE cfg) _); [done|].
  destruct (rate_limit_cache w !! hour_key uid service (now_of c)) as [h|];
    simpl in *.
  - case_bool_decide; [done|]. lia.
  - lia.
Qed.

(** In a run that keeps the entry of the hour, its count goes up by the
    number of requests admitted and does not pass the limit it was under. *)
Lemma kept_hour_count (cfg : ServiceLimits) (uid endpoint : string)
    (calls : list (Clock * option RateLimitInfo)) (h : option RateLimitInfo) :
  0 < REQUESTS_PER_HOUR cfg ->
  let r := kept_hour cfg uid endpoint calls h in
  let count := fun e : option RateLimitInfo =>
                 match e with Some e => request_count e | None => 0 end in
  count r.2 = count h + Z.of_nat r.1
  /\ count r.2 <= Z.max (count h) (REQUESTS_PER_HOUR cfg)
  /\ (is_Some h \/ (0 < r.1)%nat -> is_Some r.2).
Proof.
  intros Hpos. cbv zeta. revert h.
  induction calls as [|[c m] rest IH]; intros h; cbn [kept_hour].
  - cbn [fst snd]. split; [lia|]. split; [lia|]. intros [?|?]; [done|lia].
  - destruct (decision cfg (now_of c) m h) eqn:Hd; [apply IH..|].
    specialize (IH (Some (hour_entry cfg uid endpoint (now_of c) h))).
    cbn [fst snd] in *. destruct IH as (IH1 & IH2 & IH3).
    cbn [hour_entry request_count] in IH1, IH2.
    unfold decision in Hd.
    destruct (at_limit (REQUESTS_PER_MINUTE cfg) m); [done|].
    destruct (at_limit (REQUESTS_PER_HOUR cfg) h) eqn:Hat; [done|].
    unfold at_limit in Hat.
    assert (match h with Some e => request_count e | None => 0 end
            < REQUESTS_PER_HOUR cfg) as Hlt.
    { destruct h as [e|]; [|done]. case_bool_decide; [done|lia]. }
    assert (incremented h = match h with Some e => request_count e | None => 0 end + 1)
      as Hinc by (by destruct h).
    rewrite Hinc in IH1, IH2. split; [lia|]. split; [lia|]. intros _.
    apply IH3. left. by eexists.
Qed.



(** ** Further properties of the identity verifier *)

Lemma split_space_no_space (t : string) :
  has_no_space t = true -> split_space t = [t].
Proof.
  induction t as [|c t IH]; [done|]. simpl. intros [Hc Ht]%andb_true_iff.
  apply negb_true_iff in Hc. rewrite Hc, (IH Ht). done.
Qed.

Lemma split_space_first (t rest : string) :
  has_no_space t = true ->
  split_space (t +:+ String " " rest) = t :: split_space rest.
Proof.
  induction t as [|c t IH]; [done|]. simpl. intros [Hc Ht]%andb_true_iff.
  apply negb_true_iff in Hc. rewrite Hc, (IH Ht). done.
Qed.

(** X6.  The token taken from a header [Bearer <t>...] is the text between
    the first space and the next one: [t] itself when it has no space, and
    only its part before the space otherwise, the remainder being ignored.
    A header with a second space right after [Bearer ] therefore carries
    the empty token and is answered 401 "Access token required" like a
    missing header. *)
Theorem X6_bearer_token {RC CC AC : Type} `{!TTLCacheOps AC AuditLog}
    (t rest : string)
    (jwt_decode : string -> string -> result Claims)
    (f : Request -> Clock -> M (World RC CC AC) Response)
    (get_secure_config : result string)
    (req : Request) (clk : Clock) (w : World RC CC AC) :
  has_no_space t = true ->
  bearer_token (Some ("Bearer " +:+ t)) = Some t
  /\ bearer_token (Some ("Bearer " +:+ t +:+ " " +:+ rest)) = Some t
  /\ (authorization req = Some ("Bearer " +:+ " " +:+ rest) ->
      (authenticate_token jwt_decode f get_secure_config req clk w).1
      = Ok (error_response "Access token required" 401)).
Proof.
  intros Ht.
  assert (forall r, bearer_token (Some ("Bearer " +:+ r))
                    = split_space ("Bearer " +:+ r) !! 1%nat) as Hb.
  { intros r. unfold bearer_token.
    assert (truthy (Some ("Bearer " +:+ r))
            && startswith (fmt_opt (Some ("Bearer " +:+ r))) "Bearer " = true)
      as -> by (destruct r; reflexivity).
    done. }
  assert (has_no_space "Bearer" = true) as HB by done.
  assert (forall r, split_space ("Bearer " +:+ r) = "Bearer" :: split_space r)
    as Hs by (intros r; exact (split_space_first "Bearer" r HB)).
  split; [|split].
  - rewrite Hb, Hs, (split_space_no_space t Ht). done.
  - rewrite Hb, Hs.
    change (t +:+ " " +:+ rest) with (t +:+ String " " rest).
    by rewrite (split_space_first t rest Ht).
  - intros Hreq. unfold authenticate_token. rewrite Hreq, Hb, Hs.
    change (" " +:+ rest) with ("" +:+ String " " rest).
    rewrite (split_space_first "" rest eq_refl). cbn [lookup list_lookup truthy].
    simpl. by rewrite log_then_ret.
Qed.

Lemma X6_bearer_token_witness :
  has_no_space "valid-token" = true
  /\ bearer_token (Some "Bearer valid-token") = Some "valid-token"
  /\ bearer_token (Some "Bearer valid-token trailing words") = Some "valid-token"
  /\ (authenticate_token jwt_mock test_endpoint (Ok "test-secret")
        (with_authorization "Bearer  valid-token" req_valid) clk0 w0).1
     = Ok (error_response "Access token required" 401).
Proof.
  pose proof (X6_bearer_token "valid-token" "trailing words" jwt_mock
                (@test_endpoint RWorld) (Ok "test-secret")
                (with_authorization "Bearer  valid-token" req_valid) clk0 w0
                eq_refl) as (H1 & H2 & _).
  pose proof (X6_bearer_token "" "valid-token" jwt_mock
                (@test_endpoint RWorld) (Ok "test-secret")
                (with_authorization "Bearer  valid-token" req_valid) clk0 w0
                eq_refl) as (_ & _ & H3).
  split; [reflexivity|]. split; [exact H1|]. split; [exact H2|].
  exact (H3 eq_refl).
Defined.

(** [log_audit_event] touches neither the rate-limit cache nor the cost
    ledger. *)
Lemma log_audit_event_frame {RC CC AC : Type} `{!TTLCacheOps AC AuditLog}
    (ev : AuditLog) (clk : Clock) (w : World RC CC AC) :
  rate_limit_cache (log_audit_event ev clk w).2 = rate_limit_cache w
  /\ cost_cache (log_audit_event ev clk w).2 = cost_cache w.
Proof.
  unfold log_audit_event, try_except, bind, audit_cache_set, logging.
  by destruct (cache_set (audit_cache w) _ ev).
Qed.

(** The except clauses of [authenticate_token] always answer, and touch
    neither the rate-limit cache nor the cost ledger. *)
Lemma authenticate_except_ok {RC CC AC : Type} `{!TTLCacheOps AC AuditLog}
    (req : Request) (clk : Clock) (e : exn) (w : World RC CC AC) :
  (exists resp, (authenticate_except req clk e w).1 = Ok resp)
  /\ rate_limit_cache (authenticate_except req clk e w).2 = rate_limit_cache w
  /\ cost_cache (authenticate_except req clk e w).2 = cost_cache w.
Proof.
  unfold authenticate_except.
  destruct (is_ExpiredSignatureError e);
    [|destruct (is_InvalidTokenError e)];
    rewrite ?log_then_ret; cbn [fst snd];
    try (split; [by eexists|apply log_audit_event_frame]).
  split; [by eexists|done].
Qed.

(** X7.  [authenticate_token] never raises, whatever the secret store, the
    decoder, the audit store and the view do.  When reading the
    configuration raises (it raises a [ValueError], which is no JWT error),
    the answer is 500 "Authentication service unavailable"; the error goes
    to the log only, the caches and the audit store are as before, and the
    view is not run. *)
Theorem X7_authenticate_never_raises {RC CC AC : Type}
    `{!TTLCacheOps AC AuditLog}
    (jwt_decode : string -> string -> result Claims)
    (f : Request -> Clock -> M (World RC CC AC) Response)
    (get_secure_config : result string)
    (req : Request) (clk : Clock) (w : World RC CC AC) (tok : string) (e : exn) :
  let r := authenticate_token jwt_decode f get_secure_config req clk w in
  (exists resp, r.1 = Ok resp)
  /\ (bearer_token (authorization req) = Some tok -> tok ≠ "" ->
      get_secure_config = Raise e -> is_InvalidTokenError e = false ->
      r = (Ok (error_response "Authentication service unavailable" 500),
           mk_world (rate_limit_cache w) (cost_cache w) (audit_cache w)
             (logger w ++ [log_error ("Authentication error: " +:+ exn_msg e)]))).
Proof.
  intros r. split.
  - unfold r, authenticate_token.
    destruct (negb (truthy (bearer_token (authorization req)))).
    { rewrite log_then_ret. by eexists. }
    unfold try_except, bind at 1, outcome at 1.
    destruct get_secure_config as [key|e']; [|apply authenticate_except_ok].
    unfold bind at 1, outcome at 1.
    destruct (jwt_decode _ key) as [decoded|e']; [|apply authenticate_except_ok].
    unfold bind.
    pose proof (log_audit_event_ok
                  (auth_success_event (with_identity req decoded) clk) clk w) as Hl.
    destruct (log_audit_event _ clk w) as [[[]|e'] w1]; simpl in Hl; [|done].
    destruct (f (with_identity req decoded) clk w1) as [[resp|e'] w2];
      [by eexists|apply authenticate_except_ok].
  - intros Htok Hne -> Hinv. unfold r, authenticate_token.
    rewrite Htok, (truthy_Some _ Hne). cbn [negb].
    unfold try_except, bind at 1, outcome at 1. unfold authenticate_except.
    rewrite Hinv.
    assert (is_ExpiredSignatureError e = false) as ->.
    { unfold is_ExpiredSignatureError, is_InvalidTokenError in *.
      by destruct (exn_cls e). }
    reflexivity.
Qed.

Lemma X7_authenticate_never_raises_witness :
  let e := mk_exn ValueError
             "Configuration error: Unable to access required secrets" in
  bearer_token (authorization req_valid) = Some "valid-token"
  /\ "valid-token" ≠ "" /\ is_InvalidTokenError e = false
  /\ authenticate_token jwt_mock test_endpoint (Raise e) req_valid clk0 w0
     = (Ok (error_response "Authentication service unavailable" 500),
        mk_world ∅ ∅ ∅
          [log_error ("Authentication error: " +:+ exn_msg e)]).
Proof.
  cbv zeta.
  pose proof (X7_authenticate_never_raises jwt_mock (@test_endpoint RWorld)
                (Raise (mk_exn ValueError
                          "Configuration error: Unable to access required secrets"))
                req_valid clk0 w0 "valid-token"
                (mk_exn ValueError
                   "Configuration error: Unable to access required secrets"))
    as [_ H].
  split; [reflexivity|]. split; [discriminate|]. split; [reflexivity|].
  exact (H eq_refl ltac:(discriminate) eq_refl eq_refl).
Defined.

(** X8.  A token that decodes but carries no [userId] (or an empty one) is
    authenticated, and the success is audited, yet the rate limiter behind
    it answers 401 "Authentication required for rate limiting": the view is
    not run and no counter is touched. *)
Theorem X8_token_without_user_id {RC CC AC : Type}
    `{!TTLCacheOps RC RateLimitInfo, !TTLCacheOps AC AuditLog}
    (jwt_decode : string -> string -> result Claims) (service : string)
    (f : Request -> Clock -> M (World RC CC AC) Response)
    (req : Request) (clk : Clock) (w : World RC CC AC)
    (tok key : string) (decoded : Claims) :
  bearer_token (authorization req) = Some tok -> tok ≠ "" ->
  jwt_decode tok key = Ok decoded -> truthy (userId decoded) = false ->
  let r := authenticate_token jwt_decode (rate_limiter service f) (Ok key)
             req clk w in
  let logged := log_audit_event
                  (auth_success_event (with_identity req decoded) clk) clk w in
  r = (Ok (error_response "Authentication required for rate limiting" 401),
       logged.2)
  /\ rate_limit_cache r.2 = rate_limit_cache w.
Proof.
  intros Htok Hne Hdec Hid r logged.
  assert (r = (Ok (error_response "Authentication required for rate limiting" 401),
               logged.2)) as Hr.
  { unfold r, authenticate_token. rewrite Htok, (truthy_Some _ Hne).
    cbn [negb fmt_opt]. unfold try_except, bind at 1, outcome at 1.
    unfold bind at 1, outcome at 1. rewrite Hdec. unfold bind. fold logged.
    pose proof (log_audit_event_ok
                  (auth_success_event (with_identity req decoded) clk) clk w) as Hl.
    fold logged in Hl. destruct logged as [[[]|e'] w1]; simpl in Hl; [|done].
    unfold rate_limiter. cbn [with_identity user_id]. by rewrite Hid. }
  split; [done|]. rewrite Hr. apply log_audit_event_frame.
Qed.

Lemma X8_token_without_user_id_witness :
  bearer_token (authorization req_valid) = Some "valid-token"
  /\ "valid-token" ≠ ""
  /\ jwt_anonymous "valid-token" "test-secret"
     = Ok {| userId := None; address := Some "0x123" |}
  /\ (authenticate_token jwt_anonymous (rate_limiter "GEMINI" test_endpoint)
        (Ok "test-secret") req_valid clk0 w0).1
     = Ok (error_response "Authentication required for rate limiting" 401)
  /\ audit_records
       (authenticate_token jwt_anonymous (rate_limiter "GEMINI" test_endpoint)
          (Ok "test-secret") req_valid clk0 w0).2
     = [auth_success_event
          (with_identity req_valid {| userId := None; address := Some "0x123" |})
          clk0].
Proof.
  pose proof (X8_token_without_user_id jwt_anonymous "GEMINI"
                (@test_endpoint RWorld) req_valid clk0 w0 "valid-token"
                "test-secret" {| userId := None; address := Some "0x123" |}
                eq_refl ltac:(discriminate) eq_refl eq_refl) as [H _].
  split; [reflexivity|]. split; [discriminate|]. split; [reflexivity|].
  rewrite H. split; reflexivity.
Defined.

(** When reading the configuration or decoding the token raises, the
    except clauses take over before the view is reached. *)
Lemma authenticate_token_raises {RC CC AC : Type} `{!TTLCacheOps AC AuditLog}
    (jwt_decode : string -> string -> result Claims)
    (f : Request -> Clock -> M (World RC CC AC) Response)
    (get_secure_config : result string)
    (req : Request) (clk : Clock) (w : World RC CC AC) (e : exn) :
  truthy (bearer_token (authorization req)) = true ->
  get_secure_config = Raise e
  \/ (exists key,
        get_secure_config = Ok key
        /\ jwt_decode (fmt_opt (bearer_token (authorization req))) key = Raise e) ->
  authenticate_token jwt_decode f get_secure_config req clk w
  = authenticate_except req clk e w.
Proof.
  intros Htok H. unfold authenticate_token. rewrite Htok. cbn [negb].
  cbv [try_except bind outcome].
  destruct H as [->|(key & -> & Hdec)]; [done|]. by rewrite Hdec.
Qed.

(** X9.  A request that authentication turns down never reaches what is
    behind it: when the credential is missing, or reading the configuration
    raises, or decoding the token raises, the outcome is the same for any
    two views, and the rate-limit cache and the cost ledger are as before,
    so that such a request uses up no quota. *)
Theorem X9_rejected_before_the_view {RC CC AC : Type}
    `{!TTLCacheOps AC AuditLog}
    (jwt_decode : string -> string -> result Claims)
    (f g : Request -> Clock -> M (World RC CC AC) Response)
    (get_secure_config : result string)
    (req : Request) (clk : Clock) (w : World RC CC AC) :
  truthy (bearer_token (authorization req)) = false
  \/ (exists e, get_secure_config = Raise e)
  \/ (exists key e,
       get_secure_config = Ok key
       /\ jwt_decode (fmt_opt (bearer_token (authorization req))) key = Raise e) ->
  let r := authenticate_token jwt_decode f get_secure_config req clk w in
  r = authenticate_token jwt_decode g get_secure_config req clk w
  /\ rate_limit_cache r.2 = rate_limit_cache w
  /\ cost_cache r.2 = cost_cache w.
Proof.
  intros H r.
  assert (truthy (bearer_token (authorization req)) = false ->
          forall f', authenticate_token jwt_decode f' get_secure_config req clk w
                     = (Ok (error_response "Access token required" 401),
                        (log_audit_event
                           (auth_failure_event req clk "Access token required")
                           clk w).2)) as Hmissing.
  { intros Hm f'. unfold authenticate_token. rewrite Hm. cbn [negb].
    apply log_then_ret. }
  destruct (truthy (bearer_token (authorization req))) eqn:Htok.
  - assert (exists e, forall f',
              authenticate_token jwt_decode f' get_secure_config req clk w
              = authenticate_except req clk e w) as [e He].
    { destruct H as [H|[[e He]|(key & e & Hk & Hdec)]]; [done|..]; exists e;
        intros f'; apply authenticate_token_raises; eauto. }
    unfold r. rewrite !He. split; [done|apply authenticate_except_ok].
  - unfold r. rewrite !Hmissing by done. cbn [snd].
    split; [done|apply log_audit_event_frame].
Qed.

Lemma X9_rejected_before_the_view_witness :
  let r := authenticate_token jwt_mock (rate_limiter "GEMINI" test_endpoint)
             (Ok "test-secret") req_expired clk0 w0 in
  jwt_mock (fmt_opt (bearer_token (authorization req_expired))) "test-secret"
  = Raise (mk_exn ExpiredSignatureError "Token expired")
  /\ r = authenticate_token jwt_mock failing_view (Ok "test-secret")
           req_expired clk0 w0
  /\ rate_limit_cache r.2 = ∅ /\ cost_cache r.2 = ∅.
Proof.
  cbv zeta. split; [reflexivity|].
  apply (X9_rejected_before_the_view jwt_mock
           (rate_limiter "GEMINI" test_endpoint) failing_view
           (Ok "test-secret") req_expired clk0 w0).
  right. right. by exists "test-secret", (mk_exn ExpiredSignatureError "Token expired").
Defined.

(** ** Further properties of the audit sink *)

(** X10.  [log_audit_event] is fire-and-forget: it never raises, whatever
    the audit store does.  When the store refuses the write, the event is
    dropped: the only trace is one error line in the log, and no audit
    record is written. *)
Theorem X10_audit_fire_and_forget {RC CC AC : Type} `{!TTLCacheOps AC AuditLog}
    (ev : AuditLog) (clk : Clock) (w : World RC CC AC) (e : exn) :
  let r := log_audit_event ev clk w in
  r.1 = Ok tt
  /\ (cache_set (audit_cache w) (audit_key ev clk) ev = Raise e ->
      r.2 = mk_world (rate_limit_cache w) (cost_cache w) (audit_cache w)
              (logger w ++ [log_error ("Audit logging error: " +:+ exn_msg e)])
      /\ audit_records r.2 = audit_records w).
Proof.
  intros r. split; [apply log_audit_event_ok|].
  intros Hset. unfold r, log_audit_event, try_except, bind, audit_cache_set, logging.
  fold (now_of clk). fold (audit_key ev clk). rewrite Hset. cbn [snd].
  split; [done|]. by eapply audit_records_snoc_error.
Qed.

Lemma X10_audit_fire_and_forget_witness :
  cache_set (TTLCacheOps := broken_cache AuditLog) (audit_cache w_broken)
    (audit_key ev_auth clk0) ev_auth
  = Raise (mk_exn OtherError "Cache error")
  /\ log_audit_event (TTLCacheOps2 := broken_cache AuditLog) ev_auth clk0 w_broken
     = (Ok tt, mk_world tt tt tt [log_error "Audit logging error: Cache error"]).
Proof.
  pose proof (@X10_audit_fire_and_forget unit unit unit (broken_cache AuditLog)
                ev_auth clk0 w_broken (mk_exn OtherError "Cache error"))
    as [H1 H2].
  split; [reflexivity|]. destruct (H2 eq_refl) as [H3 _].
  destruct (log_audit_event ev_auth clk0 w_broken) as [r w'].
  simpl in H1, H3. by subst.
Defined.

Lemma audit_key_inj (ev : AuditLog) (clk1 clk2 : Clock) :
  audit_key ev clk1 = audit_key ev clk2 -> now_of clk1 = now_of clk2.
Proof.
  unfold audit_key. intros H. do 2 apply append_inv_head in H.
  by apply (inj pretty) in H.
Qed.

(** On any store, an event whose write succeeds is logged, and the store is
    the one that the write gave. *)
Lemma log_audit_event_written {RC CC AC : Type} `{!TTLCacheOps AC AuditLog}
    (ev : AuditLog) (clk : Clock) (w : World RC CC AC) (c' : AC) :
  cache_set (audit_cache w) (audit_key ev clk) ev = Ok c' ->
  log_audit_event ev clk w
  = (Ok tt,
     mk_world (rate_limit_cache w) (cost_cache w) c'
       (logger w ++ [log_audit_event_line ev])).
Proof.
  intros Hset. unfold log_audit_event, try_except, bind, audit_cache_set, logging.
  fold (now_of clk). fold (audit_key ev clk). by rewrite Hset.
Qed.



(** ** Further properties of the cost governor *)

Lemma cost_key_inj (uid service d d' : string) :
  cost_key uid service d = cost_key uid service d' -> d = d'.
Proof. unfold cost_key. intros H. by do 4 apply append_inv_head in H. Qed.

(** One call of the cost check leaves every other ledger entry alone. *)
Lemma check_cost_limits_other (uid service : string) (cfg : ServiceLimits)
    (c : float) (clk : Clock) (w : RWorld) (k : string) :
  RATE_LIMITS service = Some cfg ->
  k ≠ cost_key uid service (strftime_date clk) ->
  cost_cache (check_cost_limits uid service c clk w).2 !! k = cost_cache w !! k.
Proof.
  intros Hcfg Hk. rewrite (check_cost_limits_step uid service cfg c clk w Hcfg).
  destruct (COST_LIMIT_PER_DAY cfg <? _)%float; [done|].
  cbn [snd cost_cache]. by rewrite lookup_insert_ne.
Qed.

(** Sequential cost checks leave alone the ledger entry of every day on
    which none of them was made. *)
Lemma check_cost_calls_other_day (uid service today : string)
    (cfg : ServiceLimits) (calls : list (float * Clock)) (w : RWorld) :
  RATE_LIMITS service = Some cfg ->
  Forall (fun call => strftime_date call.2 ≠ today) calls ->
  cost_cache (check_cost_calls uid service calls w) !! cost_key uid service today
  = cost_cache w !! cost_key uid service today.
Proof.
  intros Hcfg Hcalls. revert w.
  induction Hcalls as [|[c' clk'] calls Hc _ IH]; intros w;
    cbn [check_cost_calls]; [done|].
  rewrite IH. apply (check_cost_limits_other uid service cfg); [done|].
  intros E. apply cost_key_inj in E. simpl in Hc. by symmetry in E.
Qed.



(** X13.  The recorded spend of a day never exceeds the cap: starting from
    a ledger without an entry for the day, after any sequence of cost
    checks of that day the cumulative cost in the ledger is not above the
    daily cap of the service, whatever costs were asked for. *)
Theorem X13_ledger_never_exceeds_cap (uid service today : string)
    (cfg : ServiceLimits) (calls : list (float * Clock)) (w : RWorld) :
  RATE_LIMITS service = Some cfg ->
  Forall (fun call => strftime_date call.2 = today) calls ->
  cost_cache w !! cost_key uid service today = None ->
  let k := cost_key uid service today in
  (COST_LIMIT_PER_DAY cfg
   <? ledger_cost (cost_cache (check_cost_calls uid service calls w)) k)%float
  = false.
Proof.
  intros Hcfg Hcalls Hnone k.
  assert ((COST_LIMIT_PER_DAY cfg <? ledger_cost (cost_cache w) k)%float = false)
    as Hinit.
  { unfold ledger_cost. fold k in Hnone. rewrite Hnone.
    unfold RATE_LIMITS in Hcfg. repeat case_match; simplify_eq; reflexivity. }
  clear Hnone. revert w Hinit.
  induction Hcalls as [|[c clk] calls Hc _ IH]; intros w Hinit;
    cbn [check_cost_calls]; [done|].
  apply IH. simpl in Hc.
  rewrite (check_cost_limits_step uid service cfg c clk w Hcfg), Hc. fold k.
  destruct (COST_LIMIT_PER_DAY cfg <? ledger_cost (cost_cache w) k + c)%float
    eqn:Hcap; cbn [snd cost_cache]; [done|].
  by rewrite (proj1 (ledger_insert _ _ _)).
Qed.

Lemma X13_ledger_never_exceeds_cap_witness :
  let calls := [(30%float, clk0); (30%float, clk0); (20%float, clk0);
                (0.5%float, clk0)] in
  RATE_LIMITS "TRANSLATE" = Some TRANSLATE
  /\ Forall (fun call => strftime_date call.2 = "2023-11-14") calls
  /\ cost_cache w0 !! cost_key "user123" "TRANSLATE" "2023-11-14" = None
  /\ ledger_cost (cost_cache (check_cost_calls "user123" "TRANSLATE" calls w0))
       (cost_key "user123" "TRANSLATE" "2023-11-14") = 50%float
  /\ (50 <? ledger_cost
              (cost_cache (check_cost_calls "user123" "TRANSLATE" calls w0))
              (cost_key "user123" "TRANSLATE" "2023-11-14"))%float = false.
Proof.
  cbv zeta.
  assert (Forall (fun call : float * Clock => strftime_date call.2 = "2023-11-14")
            [(30%float, clk0); (30%float, clk0); (20%float, clk0);
             (0.5%float, clk0)]) as Hcalls by (repeat constructor).
  split; [reflexivity|]. split; [exact Hcalls|]. split; [reflexivity|].
  split; [vm_compute; reflexivity|].
  exact (X13_ledger_never_exceeds_cap "user123" "TRANSLATE" "2023-11-14"
           TRANSLATE _ w0 eq_refl Hcalls eq_refl).
Defined.

(** X14.  [estimate_cost] never raises.  For a service without a cost
    table it logs the error and returns 0.01.  For GEMINI it returns the
    rate of the data type, 0.02 for any other data type or none, touching
    nothing; every such estimate is admitted by the cost check as the first
    charge of a day. *)
Theorem X14_estimate_cost (py_repr : json -> string) (service : string)
    (data_type : option string) (content_length : Z) (duration : float)
    (uid : string) (clk : Clock) (w : RWorld) :
  let est := estimate_cost py_repr service data_type content_length duration w in
  (exists v, est.1 = Ok v)
  /\ (COST_ESTIMATES service = None ->
      est = (Ok fallback_estimate,
             mk_world (rate_limit_cache w) (cost_cache w) (audit_cache w)
               (logger w ++ [log_error ("Cost estimation error: "
                                       +:+ py_repr (JStr service))])))
  /\ (service = "GEMINI" ->
      exists v,
        est = (Ok v, w)
        /\ v ∈ gemini_estimates
        /\ (cost_cache w !! cost_key uid "GEMINI" (strftime_date clk) = None ->
            (check_cost_limits uid "GEMINI" v clk w).1 = Ok true)).
Proof.
  intros est. split; [|split].
  - unfold est, estimate_cost, try_except, bind, outcome, ret, raise, logging.
    repeat case_match; simplify_eq/=; by eexists.
  - intros Hnone. unfold est, estimate_cost. by rewrite Hnone.
  - intros ->. unfold est, estimate_cost.
    assert (forall v : float,
              v ∈ gemini_estimates ->
              cost_cache w !! cost_key uid "GEMINI" (strftime_date clk) = None ->
              (check_cost_limits uid "GEMINI" v clk w).1 = Ok true) as Hfits.
    { intros v Hv Hnone.
      rewrite (check_cost_limits_step uid "GEMINI" GEMINI v clk w eq_refl).
      unfold ledger_cost. rewrite Hnone.
      unfold gemini_estimates in Hv. rewrite !elem_of_cons in Hv.
      destruct Hv as [-> | [-> | [-> | [-> | Hv]]]]; try done.
      by apply elem_of_nil in Hv. }
    assert (COST_ESTIMATES "GEMINI"
            = Some (zip ["text"; "audio"; "image"] (take 3 gemini_estimates)))
      as -> by reflexivity.
    change (String.eqb "GEMINI" "GEMINI") with true. cbv iota.
    unfold try_except, ret.
    match goal with |- context [default ?d ?o] =>
      assert (default d o ∈ gemini_estimates) as Hin end.
    { unfold gemini_estimates. destruct data_type as [t|].
      - cbn [fdict_get zip zip_with take].
        destruct (String.eqb "text" t); [cbn; rewrite !elem_of_cons; auto|].
        destruct (String.eqb "audio" t); [cbn; rewrite !elem_of_cons; auto|].
        destruct (String.eqb "image" t); cbn; rewrite !elem_of_cons; auto 6.
      - cbn. rewrite !elem_of_cons. auto 6. }
    eexists. split; [reflexivity|]. split; [exact Hin|by apply Hfits].
Qed.

Lemma X14_estimate_cost_witness :
  COST_ESTIMATES "UNKNOWN_SERVICE" = None
  /\ (estimate_cost repr_stub "UNKNOWN_SERVICE" None 0 0 w0).1 = Ok fallback_estimate
  /\ cost_cache w0 !! cost_key "user123" "GEMINI" (strftime_date clk0) = None
  /\ exists v,
      estimate_cost repr_stub "GEMINI" (Some "audio") 0 0 w0 = (Ok v, w0)
      /\ v ∈ gemini_estimates
      /\ (check_cost_limits "user123" "GEMINI" v clk0 w0).1 = Ok true.
Proof.
  pose proof (X14_estimate_cost repr_stub "UNKNOWN_SERVICE" None 0 0%float "user123"
                clk0 w0) as (_ & H1 & _).
  pose proof (X14_estimate_cost repr_stub "GEMINI" (Some "audio") 0 0%float "user123"
                clk0 w0) as (_ & _ & H2).
  split; [reflexivity|]. split; [by rewrite (H1 eq_refl)|].
  split; [reflexivity|].
  destruct (H2 eq_refl) as (v & Hv & Hin & Hfit).
  exists v. split; [exact Hv|]. split; [exact Hin|]. exact (Hfit eq_refl).
Defined.

(** ** Further properties of results processing *)

Lemma check_required_fields_dict (d : list (string * json)) (fields : list string) :
  check_required_fields (JDict d) fields = Ok tt
  <-> Forall (fun k => is_Some (dict_get d k)) fields.
Proof.
  induction fields as [|k fields IH]; cbn [check_required_fields contains].
  - split; [constructor|done].
  - case_bool_decide as Hk.
    + rewrite IH. split; [by constructor|by inversion 1].
    + split; [done|]. by inversion 1.
Qed.

Lemma validate_dict_iff (d : list (string * json)) :
  _validate_verification_results (JDict d) = Ok tt
  <-> is_Some (dict_get d "submissionId")
      /\ number_between 0 100 0 100 (dict_get d "qualityScore") = true
      /\ number_between 0 1 0 1 (dict_get d "confidence") = true
      /\ exists l, dict_get d "languageDetected" = Some (JStr l)
                   /\ (2 <= String.length l)%nat.
Proof.
  unfold _validate_verification_results. cbn [get_method].
    destruct (check_required_fields (JDict d) _) as [[]|e] eqn:Hreq.
    + apply check_required_fields_dict in Hreq.
      apply Forall_cons in Hreq as [Hs _].
      destruct (number_between 0 100 0 100 (dict_get d "qualityScore"));
        cbn [negb]; [|split; [done|by intros (_ & ? & _)]].
      destruct (number_between 0 1 0 1 (dict_get d "confidence"));
        cbn [negb]; [|split; [done|by intros (_ & _ & ? & _)]].
      destruct (dict_get d "languageDetected") as [[| | | |l| |]|];
        try (split; [done|by intros (_ & _ & _ & ? & ? & _)]).
      destruct (Nat.ltb_spec (String.length l) 2).
      * split; [done|]. intros (_ & _ & _ & l' & [= <-] & ?). lia.
      * split; [|done]. intros _. repeat split; try done. by exists l.
    + split; [done|]. intros (Hs & Hq & Hc & l & Hl & _). exfalso.
      assert (check_required_fields (JDict d)
                ["submissionId"; "qualityScore"; "languageDetected"; "confidence"]
              = Ok tt) as Hok; [|by rewrite Hok in Hreq].
      assert (is_Some (dict_get d "qualityScore")) as Hq'
        by (destruct (dict_get d "qualityScore"); [by eexists|done]).
      assert (is_Some (dict_get d "confidence")) as Hc'
        by (destruct (dict_get d "confidence"); [by eexists|done]).
      assert (is_Some (dict_get d "languageDetected")) as Hl'
        by (rewrite Hl; by eexists).
      apply check_required_fields_dict. repeat constructor; assumption.
Qed.

Lemma validate_non_dict (x : json) :
  (forall d, x ≠ JDict d) -> exists e, _validate_verification_results x = Raise e.
Proof.
  intros Hx. unfold _validate_verification_results.
    destruct x as [| | | |s|l|d']; try (by eexists); [| |by destruct (Hx d')].
    + cbn [check_required_fields contains get_method].
      repeat (destruct (occurs_in _ s); [|by eexists]). by eexists.
    + cbn [check_required_fields contains get_method].
      repeat (destruct (existsb _ l); [|by eexists]). by eexists.
Qed.

(** X15.  What [_validate_verification_results] accepts.  A JSON object is
    accepted exactly when it has a [submissionId] member (of any value, null
    included), a [qualityScore] that is an int, float or bool between 0 and
    100, a [confidence] that is an int, float or bool between 0 and 1, and
    a [languageDetected] that is a string of at least two characters.  A
    value that is not an object is never accepted.  When [submissionId] is
    missing, that is the field the error names, whatever else is wrong. *)
Theorem X15_validation_accepts (x : json) (d : list (string * json)) :
  (_validate_verification_results (JDict d) = Ok tt
   <-> is_Some (dict_get d "submissionId")
       /\ number_between 0 100 0 100 (dict_get d "qualityScore") = true
       /\ number_between 0 1 0 1 (dict_get d "confidence") = true
       /\ exists l, dict_get d "languageDetected" = Some (JStr l)
                    /\ (2 <= String.length l)%nat)
  /\ ((forall d', x ≠ JDict d') ->
      exists e, _validate_verification_results x = Raise e)
  /\ (dict_get d "submissionId" = None ->
      _validate_verification_results (JDict d)
      = Raise (mk_exn ValueError
                 "Missing required field in verification results: submissionId")).
Proof.
  split; [apply validate_dict_iff|]. split; [apply validate_non_dict|].
  intros Hnone. unfold _validate_verification_results.
  cbn [check_required_fields contains]. rewrite Hnone.
  rewrite bool_decide_eq_false_2; [done|]. by intros [? ?].
Qed.

Lemma X15_validation_accepts_witness :
  _validate_verification_results odd_results = Ok tt
  /\ _validate_verification_results (JStr "submissionId") = Raise
       (mk_exn ValueError
          "Missing required field in verification results: qualityScore")
  /\ _validate_verification_results (JDict [("qualityScore", JInt 85)])
     = Raise (mk_exn ValueError
                "Missing required field in verification results: submissionId").
Proof.
  pose proof (X15_validation_accepts (JStr "submissionId")
                [("submissionId", JNull); ("qualityScore", JBool true);
                 ("languageDetected", JStr "en"); ("confidence", JBool false)])
    as ([_ H1] & H2 & _).
  pose proof (X15_validation_accepts JNull [("qualityScore", JInt 85)])
    as (_ & _ & H3).
  split.
  { apply H1. split; [by eexists|]. split; [reflexivity|]. split; [reflexivity|].
    exists "en". split; [reflexivity|]. simpl. lia. }
  split; [reflexivity|]. exact (H3 eq_refl).
Defined.

(** What validation leaves known about the verification results. *)
Lemma validate_inv (x : json) :
  _validate_verification_results x = Ok tt ->
  exists d q c l,
    x = JDict d
    /\ dict_get d "qualityScore" = Some q /\ dict_get d "confidence" = Some c
    /\ dict_get d "languageDetected" = Some (JStr l)
    /\ (exists b, ge_70 q = Ok b) /\ (exists b, ge_0_6 c = Ok b).
Proof.
  intros H.
  assert (exists d, x = JDict d) as [d ->].
  { destruct x as [| | | |s|l|d]; [..|by exists d]; exfalso.
    all: match type of H with _validate_verification_results ?y = _ =>
           destruct (validate_non_dict y) as [e He]; [by intros d|congruence]
         end. }
  apply validate_dict_iff in H as (_ & Hq & Hc & l & Hl & _).
  destruct (dict_get d "qualityScore") as [q|] eqn:Eq; [|done].
  destruct (dict_get d "confidence") as [c|] eqn:Ec; [|done].
  exists d, q, c, l. do 4 (split; [done|]). split.
  - destruct q; try done; by eexists.
  - destruct c; try done; by eexists.
Qed.

Section Downstream.

Context {RC CC AC PC : Type}.
Context `{!TTLCacheOps RC RateLimitInfo, !TTLCacheOps CC CostMonitoring,
          !TTLCacheOps AC AuditLog, !TTLCacheOps PC CachedResult}.
Variable sha256_hexdigest : string -> string.
Variable py_repr : json -> string.

(** Once the verification results have passed validation, the downstream
    step returns. *)
Lemma process_verification_results_ok (req : AIResultsRequest) (clk : Clock)
    (pw : ProcessorWorld RC CC AC PC) :
  _validate_verification_results (verification_results req) = Ok tt ->
  exists res,
    _process_verification_results sha256_hexdigest py_repr req clk pw
    = (Ok res, pw)
    /\ r_processed res = true
    /\ r_txHash res = sc_txHash (smartContractResult res)
    /\ submissionApproved (smartContractResult res) = passesQuality res
    /\ sc_status (smartContractResult res) = "success".
Proof.
  intros Hval.
  destruct (validate_inv _ Hval) as (d & q & c & l & Hx & Hq & Hc & Hl & [bq Hbq] & [bc Hbc]).
  unfold _process_verification_results. rewrite Hx. cbn [subscript].
  rewrite Hq, Hc, Hl. cbv [try_except bind outcome ret]. rewrite Hbq.
  destruct bq; [rewrite Hbc|]; by eexists.
Qed.

(** X16.  Validation is enough for the downstream step: for verification
    results that passed [_validate_verification_results], the step that
    integrates with the smart contract never raises and changes no state;
    its result is marked processed whatever the quality score and the
    confidence are, and these only decide the approval flag inside the
    contract result. *)
Theorem X16_validated_results_are_processed (req : AIResultsRequest)
    (clk : Clock) (pw : ProcessorWorld RC CC AC PC) :
  _validate_verification_results (verification_results req) = Ok tt ->
  exists res,
    _process_verification_results sha256_hexdigest py_repr req clk pw
    = (Ok res, pw)
    /\ r_processed res = true
    /\ r_txHash res = sc_txHash (smartContractResult res)
    /\ submissionApproved (smartContractResult res) = passesQuality res
    /\ sc_status (smartContractResult res) = "success".
Proof. apply process_verification_results_ok. Qed.

End Downstream.

(** On plain stores, the except clause of [process_results] writes exactly
    one audit record, of a failure, with the message of the exception. *)
Lemma process_results_except_records (py_repr : json -> string)
    (data : list (string * json)) (start_time : Z) (clk : Clock) (e : exn)
    (pw : RPWorld) :
  exists pw' ev,
    process_results_except py_repr data start_time clk e pw = (Raise e, pw')
    /\ self pw' = (_handle_circuit_breaker_failure (time_time clk) (self pw)).2
    /\ results_cache pw' = results_cache pw
    /\ audit_records (middleware pw')
       = (audit_records (middleware pw) ++ [ev])%list
    /\ success ev = false /\ error ev = Some (exn_msg e)
    /\ action ev = "process_ai_results".
Proof.
  unfold process_results_except, bind at 1. unfold on_self at 1, zoom at 1.
  cbn [_handle_circuit_breaker_failure fst snd].
  destruct (circuit_breaker_threshold (self pw)
            <=? circuit_breaker_failures (self pw) + 1);
    do 2 eexists; (split; [reflexivity|]); cbn [self results_cache middleware];
    (split; [reflexivity|]); (split; [reflexivity|]);
    (split; [unfold audit_records; cbn [logger]; rewrite ?omap_app; simpl;
             by rewrite ?app_nil_r|]);
    done.
Qed.

Lemma X16_validated_results_are_processed_witness :
  exists res,
    _process_verification_results sha256_stub repr_stub
      {| submission_id := JStr "sub1"; verification_results := odd_results;
         user_token := JStr "" |} clk0 pw0
    = (Ok res, pw0)
    /\ r_processed res = true
    /\ r_txHash res = sc_txHash (smartContractResult res)
    /\ submissionApproved (smartContractResult res) = passesQuality res
    /\ sc_status (smartContractResult res) = "success".
Proof.
  apply (X16_validated_results_are_processed sha256_stub repr_stub
           {| submission_id := JStr "sub1"; verification_results := odd_results;
              user_token := JStr "" |} clk0 pw0).
  reflexivity.
Defined.

(** The breaker after a call that did not find it open: no failures, the
    other attributes as they were. *)
Lemma breaker_closed_then_reset (t : float) (s : AIResultsProcessor) :
  (_is_circuit_breaker_open t s).1 = Ok false ->
  (reset_circuit_breaker (_is_circuit_breaker_open t s).2).2
  = (reset_circuit_breaker s).2.
Proof.
  unfold _is_circuit_breaker_open, reset_circuit_breaker.
  destruct (circuit_breaker_failures s <? circuit_breaker_threshold s); [done|].
  by destruct (circuit_breaker_timeout s <? t - last_failure_time s)%float.
Qed.

(** The successful path of [process_results] on plain stores: the world it
    leaves and the response it returns. *)
Lemma process_results_success (sha256_hexdigest : string -> string)
    (py_repr : json -> string) (data : list (string * json))
    (clk0 clk : Clock) (pw : RPWorld) (req : AIResultsRequest) :
  AIResultsRequest_init data = Ok req ->
  _validate_verification_results (verification_results req) = Ok tt ->
  results_cache pw !! ("results_" +:+ py_str py_repr (submission_id req)) = None ->
  (_is_circuit_breaker_open (time_time clk) (self pw)).1 = Ok false ->
  exists c ev,
    process_results sha256_hexdigest py_repr data clk0 clk pw
    = (Ok {| submissionId := submission_id req;
             processed := true;
             smartContractTxHash := Some (cr_txHash c);
             cached := false;
             processingTime := millis clk - millis clk0 |},
       mk_pworld (reset_circuit_breaker (self pw)).2
         (<["results_" +:+ py_str py_repr (submission_id req) := c]>
            (results_cache pw))
         (log_audit_event ev clk (middleware pw)).2)
    /\ cr_timestamp c = get_current_timestamp clk
    /\ get_method (verification_results req) "qualityScore"
       = Ok (cr_qualityScore c)
    /\ success ev = true /\ error ev = None
    /\ action ev = "process_ai_results"
    /\ al_user_id ev = audit_user py_repr (user_token req)
    /\ request_id ev = py_str py_repr (submission_id req).
Proof.
  intros Hreq Hval Hmiss Hopen.
  destruct (process_verification_results_ok sha256_hexdigest py_repr req clk
              (mk_pworld (_is_circuit_breaker_open (time_time clk) (self pw)).2
                 (results_cache pw) (middleware pw)) Hval)
    as (res & Hres & Hproc & _).
  destruct (validate_inv _ Hval) as (d & q & cf & l & Hd & Hq & _).
  unfold process_results.
  unfold try_except, bind at 1, outcome at 1. rewrite Hreq.
  unfold bind at 1, outcome at 1. rewrite Hval.
  unfold bind at 1, results_cache_get at 1.
  cbn [cache_get gmap_cache]. rewrite Hmiss.
  unfold bind at 1, on_self at 1, zoom at 1.
  destruct (_is_circuit_breaker_open (time_time clk) (self pw)) as [r s'] eqn:Hb.
  simpl in Hopen. subst r. cbn [snd] in Hres.
  unfold bind at 1. rewrite Hres.
  unfold bind at 1, outcome at 1. rewrite Hd. cbn [get_method]. rewrite Hq.
  rewrite Hproc.
  exists {| cr_txHash := r_txHash res;
            cr_timestamp := get_current_timestamp clk;
            cr_qualityScore := Some q |},
         {| al_user_id := audit_user py_repr (user_token req);
            action := "process_ai_results";
            al_endpoint := "/ai-results";
            al_timestamp := get_current_timestamp clk;
            request_id := py_str py_repr (submission_id req);
            success := true;
            error := None;
            metadata :=
              [("qualityScore", json_of_option (Some q));
               ("processed", JBool true);
               ("txHash", JStr (r_txHash res));
               ("processingTime", JInt (millis clk - millis clk0))] |}.
  split; [|done].
  pose proof (breaker_closed_then_reset (time_time clk) (self pw)) as Hr.
  rewrite Hb in Hr. specialize (Hr eq_refl). cbn [fst snd] in Hr.
  rewrite <- Hr.
  unfold bind, results_cache_set, on_middleware, on_self, zoom, ret.
  cbn [cache_set gmap_cache self results_cache middleware].
  by rewrite !log_audit_event_gmap.
Qed.

(** The path of [process_results] that finds the breaker open. *)
Lemma process_results_open (sha256_hexdigest : string -> string)
    (py_repr : json -> string) (data : list (string * json))
    (clk0 clk : Clock) (pw : RPWorld) (req : AIResultsRequest) :
  AIResultsRequest_init data = Ok req ->
  _validate_verification_results (verification_results req) = Ok tt ->
  results_cache pw !! results_key py_repr req = None ->
  (_is_circuit_breaker_open (time_time clk) (self pw)).1 = Ok true ->
  process_results sha256_hexdigest py_repr data clk0 clk pw
  = process_results_except py_repr data (millis clk0) clk
      (mk_exn ValueError "Smart contract integration temporarily unavailable") pw.
Proof.
  intros Hreq Hval Hmiss Hopen. unfold process_results.
  unfold try_except, bind at 1, outcome at 1. rewrite Hreq.
  unfold bind at 1, outcome at 1. rewrite Hval.
  unfold bind at 1, results_cache_get at 1.
  cbn [cache_get gmap_cache]. unfold results_key in Hmiss. rewrite Hmiss.
  unfold bind at 1, on_self at 1, zoom at 1.
  assert (_is_circuit_breaker_open (time_time clk) (self pw) = (Ok true, self pw))
    as Hb.
  { revert Hopen. unfold _is_circuit_breaker_open.
    destruct (circuit_breaker_failures (self pw)
              <? circuit_breaker_threshold (self pw)); [done|].
    by destruct (circuit_breaker_timeout (self pw)
                 <? time_time clk - last_failure_time (self pw))%float. }
  rewrite Hb. unfold raise at 1. by destruct pw.
Qed.

(** An open breaker has at least threshold failures on record and is
    within its cooldown. *)
Lemma breaker_open_inv (t : float) (s : AIResultsProcessor) :
  (_is_circuit_breaker_open t s).1 = Ok true ->
  circuit_breaker_threshold s <= circuit_breaker_failures s
  /\ (circuit_breaker_timeout s <? t - last_failure_time s)%float = false.
Proof.
  unfold _is_circuit_breaker_open.
  destruct (Z.ltb_spec (circuit_breaker_failures s) (circuit_breaker_threshold s));
    [done|].
  by destruct (circuit_breaker_timeout s <? t - last_failure_time s)%float.
Qed.

Section ProcessResultsAnyStore.

Context {RC CC AC PC : Type}.
Context `{!TTLCacheOps RC RateLimitInfo, !TTLCacheOps CC CostMonitoring,
          !TTLCacheOps AC AuditLog, !TTLCacheOps PC CachedResult}.
Variable sha256_hexdigest : string -> string.
Variable py_repr : json -> string.

(** The successful path of [process_results] on any stores: the response
    it returns and the world it leaves, when the lookup finds nothing and
    the store accepts the result. *)
Lemma process_results_stores (data : list (string * json))
    (clk0 clk : Clock) (pw : ProcessorWorld RC CC AC PC)
    (req : AIResultsRequest) :
  AIResultsRequest_init data = Ok req ->
  _validate_verification_results (verification_results req) = Ok tt ->
  cache_get (results_cache pw) (results_key py_repr req) = Ok None ->
  (_is_circuit_breaker_open (time_time clk) (self pw)).1 = Ok false ->
  exists c ev,
    (forall pc' : PC,
       cache_set (results_cache pw) (results_key py_repr req) c = Ok pc' ->
       process_results sha256_hexdigest py_repr data clk0 clk pw
       = (Ok {| submissionId := submission_id req;
                processed := true;
                smartContractTxHash := Some (cr_txHash c);
                cached := false;
                processingTime := millis clk - millis clk0 |},
          mk_pworld (reset_circuit_breaker (self pw)).2 pc'
            (log_audit_event ev clk (middleware pw)).2))
    /\ cr_timestamp c = get_current_timestamp clk
    /\ get_method (verification_results req) "qualityScore"
       = Ok (cr_qualityScore c)
    /\ success ev = true /\ error ev = None
    /\ action ev = "process_ai_results"
    /\ al_user_id ev = audit_user py_repr (user_token req)
    /\ request_id ev = py_str py_repr (submission_id req).
Proof.
  intros Hreq Hval Hmiss Hopen.
  destruct (process_verification_results_ok sha256_hexdigest py_repr req clk
              (mk_pworld (_is_circuit_breaker_open (time_time clk) (self pw)).2
                 (results_cache pw) (middleware pw)) Hval)
    as (res & Hres & Hproc & _).
  destruct (validate_inv _ Hval) as (d & q & cf & l & Hd & Hq & _).
  exists {| cr_txHash := r_txHash res;
            cr_timestamp := get_current_timestamp clk;
            cr_qualityScore := Some q |},
         {| al_user_id := audit_user py_repr (user_token req);
            action := "process_ai_results";
            al_endpoint := "/ai-results";
            al_timestamp := get_current_timestamp clk;
            request_id := py_str py_repr (submission_id req);
            success := true;
            error := None;
            metadata :=
              [("qualityScore", json_of_option (Some q));
               ("processed", JBool true);
               ("txHash", JStr (r_txHash res));
               ("processingTime", JInt (millis clk - millis clk0))] |}.
  split; [|rewrite Hd; cbn [get_method]; by rewrite Hq].
  intros pc' Hset. unfold results_key in Hmiss, Hset.
  unfold process_results.
  unfold try_except, bind at 1, outcome at 1. rewrite Hreq.
  unfold bind at 1, outcome at 1. rewrite Hval.
  unfold bind at 1, results_cache_get at 1. rewrite Hmiss.
  unfold bind at 1, on_self at 1, zoom at 1.
  destruct (_is_circuit_breaker_open (time_time clk) (self pw)) as [r s'] eqn:Hb.
  simpl in Hopen. subst r. cbn [snd] in Hres.
  unfold bind at 1. rewrite Hres.
  unfold bind at 1, outcome at 1. rewrite Hd. cbn [get_method]. rewrite Hq.
  rewrite Hproc.
  pose proof (breaker_closed_then_reset (time_time clk) (self pw)) as Hr.
  rewrite Hb in Hr. specialize (Hr eq_refl). cbn [fst snd] in Hr.
  rewrite <- Hr.
  unfold bind at 1, results_cache_set at 1. cbn [results_cache]. rewrite Hset.
  unfold bind, on_middleware, on_self, zoom, ret.
  cbn [self results_cache middleware].
  pose proof (log_audit_event_ok
                {| al_user_id := audit_user py_repr (user_token req);
                   action := "process_ai_results";
                   al_endpoint := "/ai-results";
                   al_timestamp := get_current_timestamp clk;
                   request_id := py_str py_repr (submission_id req);
                   success := true;
                   error := None;
                   metadata :=
                     [("qualityScore", json_of_option (Some q));
                      ("processed", JBool true);
                      ("txHash", JStr (r_txHash res));
                      ("processingTime", JInt (millis clk - millis clk0))] |}
                clk (middleware pw)) as Hlog.
  destruct (log_audit_event _ clk (middleware pw)) as [rl mw'].
  simpl in Hlog. subst rl. reflexivity.
Qed.

End ProcessResultsAnyStore.





(** X19.  A request turned down by the open breaker renews the cooldown.
    When a valid request for a submission that is not cached finds the
    breaker open, [process_results] raises the ValueError of the breaker
    without running the contract call; the rejection is itself counted as a
    failure, stamped with the time of the request, and audited as a
    failure; the results cache is unchanged; and from then on the breaker
    is found open at every time that is not more than the cooldown after
    this rejection, whenever the first failures happened. *)
Theorem X19_rejection_renews_cooldown (sha256_hexdigest : string -> string)
    (py_repr : json -> string) (data : list (string * json))
    (clk0 clk : Clock) (pw : RPWorld) (req : AIResultsRequest) :
  AIResultsRequest_init data = Ok req ->
  _validate_verification_results (verification_results req) = Ok tt ->
  results_cache pw !! results_key py_repr req = None ->
  (_is_circuit_breaker_open (time_time clk) (self pw)).1 = Ok true ->
  let r := process_results sha256_hexdigest py_repr data clk0 clk pw in
  r.1 = Raise (mk_exn ValueError
                 "Smart contract integration temporarily unavailable")
  /\ (forall sha256' : string -> string,
        process_results sha256' py_repr data clk0 clk pw = r)
  /\ circuit_breaker_failures (self r.2)
     = circuit_breaker_failures (self pw) + 1
  /\ last_failure_time (self r.2) = time_time clk
  /\ results_cache r.2 = results_cache pw
  /\ (exists ev,
        audit_records (middleware r.2)
        = (audit_records (middleware pw) ++ [ev])%list
        /\ success ev = false
        /\ error ev
           = Some "Smart contract integration temporarily unavailable")
  /\ (forall t : float,
        (circuit_breaker_timeout (self pw) <? t - time_time clk)%float = false ->
        _is_circuit_breaker_open t (self r.2) = (Ok true, self r.2)).
Proof.
  intros Hreq Hval Hmiss Hopen r.
  pose proof (process_results_open sha256_hexdigest py_repr data clk0 clk pw req
                Hreq Hval Hmiss Hopen) as Hr.
  destruct (process_results_except_records py_repr data (millis clk0) clk
              (mk_exn ValueError
                 "Smart contract integration temporarily unavailable") pw)
    as (pw' & ev & Hex & Hself & Hcache & Haudit & Hs & He & _).
  rewrite Hex in Hr. destruct (breaker_open_inv _ _ Hopen) as [Hge _].
  split; [unfold r; by rewrite Hr|].
  split.
  { intros sha'. unfold r. rewrite Hr.
    by rewrite (process_results_open sha' py_repr data clk0 clk pw req). }
  unfold r. rewrite Hr. cbn [fst snd]. rewrite Hself.
  split; [done|]. split; [done|]. split; [done|].
  split; [by exists ev|].
  intros t Ht. unfold _is_circuit_breaker_open, _handle_circuit_breaker_failure.
  cbn [snd circuit_breaker_failures circuit_breaker_threshold
       circuit_breaker_timeout last_failure_time].
  rewrite Ht.
  destruct (Z.ltb_spec (circuit_breaker_failures (self pw) + 1)
              (circuit_breaker_threshold (self pw))); [lia|done].
Qed.

Lemma X19_rejection_renews_cooldown_witness :
  let r := process_results sha256_stub repr_stub data_ok clk0 clk_c pw_open in
  r.1 = Raise (mk_exn ValueError
                 "Smart contract integration temporarily unavailable")
  /\ circuit_breaker_failures (self r.2) = 6
  /\ last_failure_time (self r.2) = time_time clk_c
  /\ _is_circuit_breaker_open (time_time clk_later) (self pw_open)
     = (Ok false, (reset_circuit_breaker (self pw_open)).2)
  /\ _is_circuit_breaker_open (time_time clk_later) (self r.2)
     = (Ok true, self r.2).
Proof.
  cbv zeta.
  pose proof (X19_rejection_renews_cooldown sha256_stub repr_stub data_ok clk0
                clk_c pw_open req_ok eq_refl eq_refl eq_refl eq_refl)
    as (H1 & _ & H2 & H3 & _ & _ & H4).
  split; [exact H1|]. split; [exact H2|]. split; [exact H3|].
  split; [reflexivity|]. exact (H4 (time_time clk_later) eq_refl).
Defined.

(** X20.  The outcomes of [process_results], whatever the request data, the
    clock and the state are (on stores that do not fail).  If the call
    raises, the failure count of the breaker is one higher, the
    last-failure time is the time of the call, the results cache is
    unchanged, and exactly one audit record is written, a failure carrying
    the message of the exception.  If the call returns, the response is
    processed and has a transaction hash; a cached response comes with the
    breaker, the cache and the audit records unchanged; a response that is
    not cached comes with a failure count of 0, exactly one audit record, a
    success, and the cache holding the returned hash under the key of the
    submission. *)
Theorem X20_process_results_outcomes (sha256_hexdigest : string -> string)
    (py_repr : json -> string) (data : list (string * json))
    (clk0 clk : Clock) (pw : RPWorld) :
  let r := process_results sha256_hexdigest py_repr data clk0 clk pw in
  match r.1 with
  | Raise e =>
      circuit_breaker_failures (self r.2)
      = circuit_breaker_failures (self pw) + 1
      /\ last_failure_time (self r.2) = time_time clk
      /\ results_cache r.2 = results_cache pw
      /\ exists ev,
          audit_records (middleware r.2)
          = (audit_records (middleware pw) ++ [ev])%list
          /\ success ev = false /\ error ev = Some (exn_msg e)
  | Ok resp =>
      processed resp = true
      /\ is_Some (smartContractTxHash resp)
      /\ if cached resp then
           self r.2 = self pw
           /\ results_cache r.2 = results_cache pw
           /\ audit_records (middleware r.2) = audit_records (middleware pw)
         else
           circuit_breaker_failures (self r.2) = 0
           /\ (exists ev,
                 audit_records (middleware r.2)
                 = (audit_records (middleware pw) ++ [ev])%list
                 /\ success ev = true)
           /\ exists c,
               results_cache r.2
                 !! ("results_" +:+ py_str py_repr (submissionId resp)) = Some c
               /\ smartContractTxHash resp = Some (cr_txHash c)
  end.
Proof.
  intros r.
  assert (forall e,
            r = process_results_except py_repr data (millis clk0) clk e pw ->
            match r.1 with
            | Raise e =>
                circuit_breaker_failures (self r.2)
                = circuit_breaker_failures (self pw) + 1
                /\ last_failure_time (self r.2) = time_time clk
                /\ results_cache r.2 = results_cache pw
                /\ exists ev,
                    audit_records (middleware r.2)
                    = (audit_records (middleware pw) ++ [ev])%list
                    /\ success ev = false /\ error ev = Some (exn_msg e)
            | Ok resp =>
                processed resp = true
                /\ is_Some (smartContractTxHash resp)
                /\ if cached resp then
                     self r.2 = self pw
                     /\ results_cache r.2 = results_cache pw
                     /\ audit_records (middleware r.2)
                        = audit_records (middleware pw)
                   else
                     circuit_breaker_failures (self r.2) = 0
                     /\ (exists ev,
                           audit_records (middleware r.2)
                           = (audit_records (middleware pw) ++ [ev])%list
                           /\ success ev = true)
                     /\ exists c,
                         results_cache r.2
                           !! ("results_" +:+ py_str py_repr (submissionId resp))
                         = Some c
                         /\ smartContractTxHash resp = Some (cr_txHash c)
            end) as Hexcept.
  { intros e ->.
    destruct (process_results_except_records py_repr data (millis clk0) clk e pw)
      as (pw' & ev & -> & Hself & Hcache & Haudit & Hs & He & _).
    cbn [fst snd]. rewrite Hself. split; [done|]. split; [done|].
    split; [done|]. by exists ev. }
  destruct (AIResultsRequest_init data) as [req|e] eqn:Hreq.
  2: { apply (Hexcept e). unfold r, process_results.
       unfold try_except, bind at 1, outcome at 1. by rewrite Hreq. }
  destruct (_validate_verification_results (verification_results req))
    as [[]|e] eqn:Hval.
  2: { apply (Hexcept e). unfold r, process_results.
       unfold try_except, bind at 1, outcome at 1. rewrite Hreq.
       unfold bind at 1, outcome at 1. by rewrite Hval. }
  destruct (results_cache pw !! results_key py_repr req) as [c|] eqn:Hget.
  { pose proof (process_results_cached sha256_hexdigest py_repr data clk0 clk pw
                  req c Hreq Hval) as Hr.
    cbn [cache_get gmap_cache] in Hr. unfold results_key in Hget.
    rewrite Hget in Hr. unfold r. rewrite (Hr eq_refl).
    cbn [fst snd processed smartContractTxHash cached].
    split; [done|]. split; [by eexists|]. split; [done|]. split; [done|].
    unfold audit_records, logged. cbn [middleware logger].
    rewrite omap_app. simpl. by rewrite app_nil_r. }
  destruct (_is_circuit_breaker_open (time_time clk) (self pw)).1
    as [[|]|e] eqn:Hopen.
  - apply (Hexcept (mk_exn ValueError
                       "Smart contract integration temporarily unavailable")).
    by apply (process_results_open sha256_hexdigest py_repr data clk0 clk pw req).
  - destruct (process_results_success sha256_hexdigest py_repr data clk0 clk pw
                req Hreq Hval Hget Hopen)
      as (c & ev & Hr & _ & _ & Hs & _).
    unfold r. rewrite Hr.
    cbn [fst snd processed smartContractTxHash cached submissionId self
         results_cache middleware].
    split; [done|]. split; [by eexists|]. split; [done|].
    split; [exists ev; split; [apply log_audit_event_records|done]|].
    exists c. split; [apply lookup_insert_eq|done].
  - exfalso. revert Hopen. unfold _is_circuit_breaker_open.
    destruct (circuit_breaker_failures (self pw)
              <? circuit_breaker_threshold (self pw)); [done|].
    by destruct (circuit_breaker_timeout (self pw)
                 <? time_time clk - last_failure_time (self pw))%float.
Qed.

(** ** Retry, cache clearing and statistics *)

(** Whatever the stores do, [retry_failed_submission] raises nothing but
    its own ValueError. *)
Lemma retry_failed_submission_raises {RC CC AC PC : Type}
    `{!TTLCacheOps RC RateLimitInfo, !TTLCacheOps CC CostMonitoring,
      !TTLCacheOps AC AuditLog, !TTLCacheOps PC CachedResult, !TTLCacheAdmin PC}
    (sid : string) (clk : Clock) (pw : ProcessorWorld RC CC AC PC) (e : exn) :
  (retry_failed_submission sid clk pw).1 = Raise e ->
  exists e', e = mk_exn ValueError ("Retry preparation failed: " +:+ exn_msg e').
Proof.
  unfold retry_failed_submission, try_except.
  match goal with |- context [match ?m pw with _ => _ end] =>
    destruct (m pw) as [[n|e'] pw'] end; [done|].
  cbv [bind on_middleware zoom logging raise]. cbn [fst].
  intros [= <-]. by exists e'.
Qed.

(** The two ways [_is_circuit_breaker_open] ends. *)
Lemma breaker_cases (t : float) (s : AIResultsProcessor) :
  (_is_circuit_breaker_open t s = (Ok true, s)
   /\ (_is_circuit_breaker_open t s).1 = Ok true)
  \/ exists s', _is_circuit_breaker_open t s = (Ok false, s').
Proof.
  unfold _is_circuit_breaker_open.
  destruct (circuit_breaker_failures s <? circuit_breaker_threshold s);
    [right; by eexists|].
  destruct (circuit_breaker_timeout s <? t - last_failure_time s)%float;
    [right; by eexists|by left].
Qed.

(** X21.  [retry_failed_submission].  Whatever the stores do, the only
    exception it raises is its own ValueError, 'Retry preparation failed:
    ...'.  On stores that do not fail, for a processor with a positive
    threshold, it returns its notice, the entry of the submission is gone
    from the results cache and the other entries are kept, so
    [get_submission_status] reports the submission as not processed; and
    when the breaker is open at the time of the call, exactly one failure
    is forgiven: the breaker is still open afterwards exactly when more
    failures than the threshold were on record. *)
Theorem X21_retry_failed_submission {RC CC AC PC : Type}
    `{!TTLCacheOps RC RateLimitInfo, !TTLCacheOps CC CostMonitoring,
      !TTLCacheOps AC AuditLog, !TTLCacheOps PC CachedResult, !TTLCacheAdmin PC}
    (sid : string) (clk : Clock) (gw : ProcessorWorld RC CC AC PC) (e : exn)
    (pw : RPWorld) :
  ((retry_failed_submission sid clk gw).1 = Raise e ->
   exn_cls e = ValueError
   /\ String.prefix "Retry preparation failed: " (exn_msg e) = true)
  /\ (0 < circuit_breaker_threshold (self pw) ->
      let r := retry_failed_submission sid clk pw in
      r.1 = Ok {| message := "Retry prepared for submission " +:+ sid;
                  notice_timestamp := get_current_timestamp clk |}
      /\ results_cache r.2 = delete ("results_" +:+ sid) (results_cache pw)
      /\ middleware r.2 = middleware pw
      /\ (get_submission_status sid clk r.2).1
         = Ok (StatusNotProcessed sid (get_current_timestamp clk))
      /\ ((_is_circuit_breaker_open (time_time clk) (self pw)).1 = Ok true ->
          circuit_breaker_failures (self r.2)
          = circuit_breaker_failures (self pw) - 1
          /\ last_failure_time (self r.2) = last_failure_time (self pw)
          /\ ((_is_circuit_breaker_open (time_time clk) (self r.2)).1 = Ok true
              <-> circuit_breaker_threshold (self pw)
                  < circuit_breaker_failures (self pw)))).
Proof.
  split.
  { intros H. destruct (retry_failed_submission_raises sid clk gw e H) as [e' ->].
    split; [done|]. cbn [exn_msg]. by destruct (exn_msg e'). }
  intros Hpos r.
  assert (exists s',
            r = (Ok {| message := "Retry prepared for submission " +:+ sid;
                       notice_timestamp := get_current_timestamp clk |},
                 mk_pworld s' (delete ("results_" +:+ sid) (results_cache pw))
                   (middleware pw))
            /\ if (_is_circuit_breaker_open (time_time clk) (self pw)).1
               is Ok true
               then s' = (forgive_one_failure (self pw)).2
               else s' = (_is_circuit_breaker_open (time_time clk) (self pw)).2)
    as (s' & Hr & Hs').
  { unfold r, retry_failed_submission, try_except.
    unfold bind at 1, results_cache_contains at 1.
    cbn [cache_contains gmap_cache_admin].
    destruct (results_cache pw !! ("results_" +:+ sid)) as [c|] eqn:Hget.
    - rewrite bool_decide_eq_true_2 by (by eexists).
      unfold bind at 1, results_cache_del at 1.
      cbn [cache_del gmap_cache_admin]. rewrite Hget.
      rewrite bool_decide_eq_true_2 by (by eexists).
      unfold bind at 1, on_self at 1, zoom at 1.
      cbn [self results_cache middleware].
      destruct (breaker_cases (time_time clk) (self pw)) as [[-> Hb]|[s'' ->]].
      + eexists. split; [reflexivity|]. done.
      + eexists. split; [reflexivity|]. done.
    - rewrite bool_decide_eq_false_2 by (intros [? ?]; done).
      unfold bind at 1, ret at 1.
      unfold bind at 1, on_self at 1, zoom at 1.
      rewrite (delete_id _ _ Hget).
      destruct (breaker_cases (time_time clk) (self pw)) as [[-> Hb]|[s'' ->]].
      + eexists. split; [reflexivity|]. done.
      + eexists. split; [by destruct pw|]. done. }
  rewrite Hr. cbn [fst snd results_cache middleware self].
  split; [done|]. split; [done|]. split; [done|].
  split.
  { unfold get_submission_status, bind, results_cache_get.
    cbn [cache_get gmap_cache results_cache]. by rewrite lookup_delete_eq. }
  intros Hopen. rewrite Hopen in Hs'. subst s'.
  destruct (breaker_open_inv _ _ Hopen) as [Hge Hwait].
  cbn [forgive_one_failure snd circuit_breaker_failures last_failure_time].
  split; [lia|]. split; [done|].
  unfold _is_circuit_breaker_open.
  cbn [circuit_breaker_failures circuit_breaker_threshold
       circuit_breaker_timeout last_failure_time].
  rewrite Hwait.
  destruct (Z.ltb_spec (0 `max` (circuit_breaker_failures (self pw) - 1))
              (circuit_breaker_threshold (self pw))); cbn [fst];
    split; (done || lia).
Qed.

Lemma X21_retry_failed_submission_witness :
  let r := retry_failed_submission "sub1" clk_c pw_cached_open in
  r.1 = Ok {| message := "Retry prepared for submission sub1";
              notice_timestamp := get_current_timestamp clk_c |}
  /\ results_cache r.2 = ∅
  /\ circuit_breaker_failures (self pw_cached_open) = 5
  /\ circuit_breaker_failures (self r.2) = 4
  /\ ~ (_is_circuit_breaker_open (time_time clk_c) (self r.2)).1 = Ok true.
Proof.
  cbv zeta.
  pose proof (@X21_retry_failed_submission _ _ _ _ _ _ _ _ _ "sub1" clk_c
                pw_cached_open (mk_exn OtherError "") pw_cached_open) as [_ H].
  destruct (H eq_refl) as (H1 & H2 & _ & _ & H3).
  destruct (H3 eq_refl) as (H4 & _ & H5).
  split; [exact H1|]. split; [rewrite H2; reflexivity|].
  split; [reflexivity|]. split; [rewrite H4; reflexivity|].
  intros Hopen. apply H5 in Hopen. vm_compute in Hopen. discriminate Hopen.
Defined.

(** On stores that do not fail, a call that returns a cached response found
    the submission in the results cache. *)
Lemma process_results_cached_inv (sha256_hexdigest : string -> string)
    (py_repr : json -> string) (data : list (string * json))
    (clk0 clk : Clock) (pw : RPWorld) (resp : AIResultsResponse) :
  (process_results sha256_hexdigest py_repr data clk0 clk pw).1 = Ok resp ->
  cached resp = true ->
  is_Some (results_cache pw !! ("results_" +:+ py_str py_repr (submissionId resp))).
Proof.
  intros Hr Hc.
  destruct (AIResultsRequest_init data) as [req|e] eqn:Hreq.
  2: { destruct (process_results_invalid sha256_hexdigest py_repr data clk0 clk
                   pw {| submission_id := JNull; verification_results := JNull;
                         user_token := JNull |} e (or_introl Hreq)) as [mw H].
       by rewrite H in Hr. }
  destruct (_validate_verification_results (verification_results req))
    as [[]|e] eqn:Hval.
  2: { destruct (process_results_invalid sha256_hexdigest py_repr data clk0 clk
                   pw req e (or_intror (conj Hreq Hval))) as [mw H].
       by rewrite H in Hr. }
  destruct (results_cache pw !! results_key py_repr req) as [c|] eqn:Hget.
  { pose proof (process_results_cached sha256_hexdigest py_repr data clk0 clk pw
                  req c Hreq Hval) as H.
    cbn [cache_get gmap_cache] in H. unfold results_key in Hget.
    rewrite Hget in H. rewrite (H eq_refl) in Hr. cbn [fst] in Hr.
    injection Hr as <-. cbn [submissionId]. rewrite Hget. by eexists. }
  destruct (breaker_cases (time_time clk) (self pw)) as [[_ Hb]|[s' Hb]].
  - rewrite (process_results_open sha256_hexdigest py_repr data clk0 clk pw req
               Hreq Hval Hget Hb) in Hr.
    destruct (process_results_except_records py_repr data (millis clk0) clk
                (mk_exn ValueError
                   "Smart contract integration temporarily unavailable") pw)
      as (pw' & ev & H & _).
    by rewrite H in Hr.
  - destruct (process_results_success sha256_hexdigest py_repr data clk0 clk pw
                req Hreq Hval Hget) as (c & ev & H & _); [by rewrite Hb|].
    rewrite H in Hr. cbn [fst] in Hr. injection Hr as <-. done.
Qed.

(** X22.  [clear_cache] on stores that do not fail.  It reports how many
    entries there were and leaves the results cache empty, the breaker and
    the rest of the state being as before (an open breaker stays open).
    Afterwards no submission is reported as processed, and no call of
    [process_results] is answered from the cache: a submission processed
    before is processed again. *)
Theorem X22_clear_cache (sha256_hexdigest : string -> string)
    (py_repr : json -> string) (clk clk0' clk' : Clock) (pw : RPWorld)
    (sid : string) (data : list (string * json)) :
  let r := clear_cache clk pw in
  r = (Ok {| message := "Cleared " +:+ pretty (Z.of_nat (size (results_cache pw)))
                        +:+ " cached results";
             notice_timestamp := get_current_timestamp clk |},
       mk_pworld (self pw) ∅ (middleware pw))
  /\ get_submission_status sid clk' r.2
     = (Ok (StatusNotProcessed sid (get_current_timestamp clk')), r.2)
  /\ (get_processing_stats clk' r.2).1
     = Ok {| cacheSize := 0;
             circuitBreakerFailures := circuit_breaker_failures (self pw);
             circuitBreakerOpen :=
               if (_is_circuit_breaker_open (time_time clk') (self pw)).1
               is Ok true then true else false;
             lastFailureTime := last_failure_time (self pw);
             stats_timestamp := get_current_timestamp clk' |}
  /\ forall resp,
       (process_results sha256_hexdigest py_repr data clk0' clk' r.2).1 = Ok resp ->
       cached resp = false.
Proof.
  intros r. assert (r = (Ok {| message := "Cleared "
                                  +:+ pretty (Z.of_nat (size (results_cache pw)))
                                  +:+ " cached results";
                               notice_timestamp := get_current_timestamp clk |},
                         mk_pworld (self pw) ∅ (middleware pw))) as Hr
    by reflexivity.
  split; [exact Hr|]. rewrite Hr. cbn [snd].
  split; [reflexivity|]. split.
  - unfold get_processing_stats, bind at 1, results_cache_len at 1.
    cbn [cache_len gmap_cache_admin results_cache].
    unfold bind at 1, read_self at 1. cbn [self].
    unfold bind at 1, on_self at 1, zoom at 1. cbn [self].
    destruct (breaker_cases (time_time clk') (self pw)) as [[-> Hb]|[s' Hb]].
    + unfold bind, read_self, ret. cbn [fst self]. by rewrite map_size_empty.
    + rewrite Hb. cbn [fst]. unfold bind, read_self, ret. cbn [fst self].
      rewrite map_size_empty. f_equal. f_equal. revert Hb. unfold _is_circuit_breaker_open.
      destruct (circuit_breaker_failures (self pw)
                <? circuit_breaker_threshold (self pw)); [by intros [= <-]|].
      destruct (circuit_breaker_timeout (self pw)
                <? time_time clk' - last_failure_time (self pw))%float;
        [by intros [= <-]|done].
  - intros resp Hresp. destruct (cached resp) eqn:Hc; [|done].
    destruct (process_results_cached_inv sha256_hexdigest py_repr data clk0' clk'
                _ resp Hresp Hc) as [c Hget].
    cbn [results_cache] in Hget. by rewrite lookup_empty in Hget.
Qed.

Lemma X22_clear_cache_witness :
  let r := clear_cache clk0 pw_cached in
  r.1 = Ok {| message := "Cleared 1 cached results";
              notice_timestamp := get_current_timestamp clk0 |}
  /\ (exists resp,
        (process_results sha256_stub repr_stub data_ok clk_c clk_c pw_cached).1
        = Ok resp /\ cached resp = true)
  /\ exists resp,
      (process_results sha256_stub repr_stub data_ok clk_c clk_c r.2).1 = Ok resp
      /\ cached resp = false.
Proof.
  cbv zeta.
  pose proof (X22_clear_cache sha256_stub repr_stub clk0 clk_c clk_c pw_cached
                "sub1" data_ok) as (H1 & _ & _ & H2).
  split; [rewrite H1; reflexivity|].
  split; [eexists; split; vm_compute; reflexivity|].
  assert (exists resp,
            (process_results sha256_stub repr_stub data_ok clk_c clk_c
               (clear_cache clk0 pw_cached).2).1 = Ok resp) as [resp Hresp]
    by (eexists; vm_compute; reflexivity).
  exists resp. split; [exact Hresp|]. exact (H2 resp Hresp).
Defined.

(** X23.  Reading the statistics can change the breaker.
    [get_processing_stats] never touches the results cache or the
    middleware state, and reports the cache size, the failure count and the
    last-failure time as they were before the call.  When the failure count
    has reached the threshold and the cooldown has elapsed, the reading
    reports that count together with a breaker that is not open, and sets
    the count to 0 by doing so: a second reading at the same time reports 0
    failures.  In every other case the state is unchanged. *)
Theorem X23_stats_reading_resets_breaker (clk : Clock) (pw : RPWorld) :
  let r := get_processing_stats clk pw in
  let elapsed := (circuit_breaker_timeout (self pw)
                  <? time_time clk - last_failure_time (self pw))%float in
  results_cache r.2 = results_cache pw
  /\ middleware r.2 = middleware pw
  /\ (exists is_open,
        r.1 = Ok {| cacheSize := Z.of_nat (size (results_cache pw));
                    circuitBreakerFailures := circuit_breaker_failures (self pw);
                    circuitBreakerOpen := is_open;
                    lastFailureTime := last_failure_time (self pw);
                    stats_timestamp := get_current_timestamp clk |}
        /\ (_is_circuit_breaker_open (time_time clk) (self pw)).1 = Ok is_open)
  /\ (circuit_breaker_threshold (self pw) <= circuit_breaker_failures (self pw) ->
      elapsed = true ->
      (_is_circuit_breaker_open (time_time clk) (self pw)).1 = Ok false
      /\ circuit_breaker_failures (self r.2) = 0
      /\ (get_processing_stats clk r.2).1
         = Ok {| cacheSize := Z.of_nat (size (results_cache pw));
                 circuitBreakerFailures := 0;
                 circuitBreakerOpen := false;
                 lastFailureTime := last_failure_time (self pw);
                 stats_timestamp := get_current_timestamp clk |})
  /\ (circuit_breaker_failures (self pw) < circuit_breaker_threshold (self pw)
      \/ elapsed = false ->
      r.2 = pw).
Proof.
  intros r elapsed.
  assert (r = let b := _is_circuit_breaker_open (time_time clk) (self pw) in
              (match b.1 with
               | Ok is_open =>
                   Ok {| cacheSize := Z.of_nat (size (results_cache pw));
                         circuitBreakerFailures := circuit_breaker_failures (self pw);
                         circuitBreakerOpen := is_open;
                         lastFailureTime := last_failure_time b.2;
                         stats_timestamp := get_current_timestamp clk |}
               | Raise e => Raise e
               end,
               mk_pworld b.2 (results_cache pw) (middleware pw))) as Hr.
  { unfold r, get_processing_stats, bind, results_cache_len, read_self,
      on_self, zoom, ret.
    cbn [cache_len gmap_cache_admin].
    by destruct (_is_circuit_breaker_open (time_time clk) (self pw)) as [[?|?] ?]. }
  cbv zeta in Hr.
  rewrite Hr. cbn [fst snd results_cache middleware self].
  split; [done|]. split; [done|].
  unfold elapsed, _is_circuit_breaker_open.
  destruct (Z.ltb_spec (circuit_breaker_failures (self pw))
              (circuit_breaker_threshold (self pw))) as [Hlt|Hge].
  { cbn [fst snd]. split; [by exists false|]. split; [lia|].
    intros _. by destruct pw. }
  destruct (circuit_breaker_timeout (self pw)
            <? time_time clk - last_failure_time (self pw))%float eqn:Hel;
    cbn [fst snd last_failure_time circuit_breaker_failures].
  - split; [by exists false|]. split.
    + intros _ _. split; [done|]. split; [done|].
      unfold get_processing_stats, bind, results_cache_len, read_self,
        on_self, zoom, ret, _is_circuit_breaker_open.
      cbn [cache_len gmap_cache_admin self results_cache middleware
           circuit_breaker_failures circuit_breaker_threshold
           circuit_breaker_timeout last_failure_time].
      rewrite Hel.
      by destruct (0 <? circuit_breaker_threshold (self pw)).
    + intros [?|?]; [lia|done].
  - split; [by exists true|]. split; [done|]. intros _. by destruct pw.
Qed.

Lemma X23_stats_reading_resets_breaker_witness :
  let pw := pw_open in
  let r := get_processing_stats clk_later pw in
  r.1 = Ok {| cacheSize := 0; circuitBreakerFailures := 5;
              circuitBreakerOpen := false;
              lastFailureTime := time_time clk0;
              stats_timestamp := get_current_timestamp clk_later |}
  /\ circuit_breaker_failures (self r.2) = 0
  /\ (get_processing_stats clk_later r.2).1
     = Ok {| cacheSize := 0; circuitBreakerFailures := 0;
             circuitBreakerOpen := false;
             lastFailureTime := time_time clk0;
             stats_timestamp := get_current_timestamp clk_later |}
  /\ (get_processing_stats clk_c pw).2 = pw.
Proof.
  cbv zeta.
  pose proof (X23_stats_reading_resets_breaker clk_later
                pw_open) as (_ & _ & _ & H1 & _).
  pose proof (X23_stats_reading_resets_breaker clk_c
                pw_open) as (_ & _ & _ & _ & H2).
  destruct H1 as (_ & H3 & H4); [vm_compute; discriminate|reflexivity|].
  split; [reflexivity|]. split; [exact H3|]. split; [exact H4|].
  apply H2. right. reflexivity.
Defined.

(** ** config.py: secrets *)

(** A secret that the cache has is returned from it. *)
Lemma retrieve_secret_hit (client : string -> result string) (name v : string)
    (w : ConfigWorld) :
  ttl_get (secret_cache w) name = Some v ->
  retrieve_secret client name w = (Ok v, w).
Proof.
  intros H. unfold retrieve_secret, try_except, get_secret. by rewrite H.
Qed.

(** A secret that is retrieved leaves the log as it was. *)
Lemma retrieve_secret_ok (client : string -> result string) (name v : string)
    (w w' : ConfigWorld) :
  retrieve_secret client name w = (Ok v, w') ->
  config_logger w' = config_logger w.
Proof.
  unfold retrieve_secret, try_except, get_secret.
  destruct (ttl_get (secret_cache w) name) as [u|]; [by intros [= _ <-]|].
  unfold try_except, bind at 1, outcome.
  destruct (client name) as [s|e]; [|by cbv [bind config_logging raise]].
  destruct (String.eqb s ""); [by cbv [bind config_logging raise raise]|].
  unfold bind, secret_cache_set, ret.
  destruct (ttl_set (secret_cache w) name s);
    [by intros [= _ <-]|by cbv [config_logging raise]].
Qed.





(** X26.  The tables of [AI_CONFIG] agree.  [get_service_config] raises
    only for a service without rate limits, and then the ValueError 'Unknown
    service: ...'; every service with rate limits also has a timeout and a
    cost table that is not empty, so the lookups of the timeout never raise
    a KeyError and the default for the cost estimates is never used; and
    its per-minute limit is positive and not above its per-hour limit. *)
Theorem X26_service_config (py_repr : json -> string) (service : string) :
  (RATE_LIMITS service = None ->
   get_service_config py_repr service
   = Raise (mk_exn ValueError ("Unknown service: " +:+ service)))
  /\ (forall limits, RATE_LIMITS service = Some limits ->
        exists cfg,
          get_service_config py_repr service = Ok cfg
          /\ rate_limits cfg = limits
          /\ TIMEOUTS service = Some (service_timeout cfg)
          /\ COST_ESTIMATES service = Some (cost_estimates cfg)
          /\ cost_estimates cfg <> []
          /\ retry cfg = RETRY
          /\ 0 < REQUESTS_PER_MINUTE limits <= REQUESTS_PER_HOUR limits).
Proof.
  split.
  - intros H. unfold get_service_config. by rewrite H.
  - intros limits. unfold get_service_config, RATE_LIMITS, TIMEOUTS, COST_ESTIMATES.
    destruct (String.eqb service "GEMINI");
      [|destruct (String.eqb service "TRANSLATE");
        [|destruct (String.eqb service "SPEECH"); [|done]]];
      intros [= <-]; eexists; (split; [reflexivity|]);
      cbn [rate_limits service_timeout cost_estimates retry default
           REQUESTS_PER_MINUTE REQUESTS_PER_HOUR];
      repeat split; (done || lia).
Qed.

Lemma X26_service_config_witness :
  get_service_config repr_stub "VISION" = Raise (mk_exn ValueError "Unknown service: VISION")
  /\ exists cfg,
      get_service_config repr_stub "SPEECH" = Ok cfg
      /\ service_timeout cfg = 60%float
      /\ REQUESTS_PER_MINUTE (rate_limits cfg) = 30.
Proof.
  pose proof (X26_service_config repr_stub "VISION") as [H1 _].
  pose proof (X26_service_config repr_stub "SPEECH") as [_ H2].
  split; [exact (H1 eq_refl)|].
  destruct (H2 _ eq_refl) as (cfg & Hcfg & Hl & Ht & _).
  exists cfg. split; [exact Hcfg|]. split.
  - injection Ht as <-. reflexivity.
  - rewrite Hl. reflexivity.
Defined.

(** ** Whose quota a request uses *)


